(** * KickDropsMiner: the stream-watch supervision core

    A shallow embedding of [core/worker.py] (class [StreamWorker]), of the
    direct liveness probe of [core/api.py] and of the channel fallback of
    [App.on_worker_finish] in [ui/app.py]; then of the queue that [ui/app.py]
    keeps around the workers (the ledger of a global drop, adding, finding
    and removing entries), of the stored items of [core/config.py] and of
    the message lookup of [utils/translations.py].

    Conventions of the embedding:
    - Python [int] values are [Z]; readings of [time.time()] and the jitter
      drawn by [random.uniform] are rationals ([Q]) supplied by the
      environment of each call;
    - a Python [str] is a [string] holding its UTF-8 bytes, so [in], [strip]
      and [split] with ASCII arguments read the same on both; [str.upper] is
      Python's own, with the case tables of Unicode behind it, and is not
      re-implemented: the text of the page reaches the model as
      [body.text.upper()] returned it; the case folding of [re.IGNORECASE]
      is written out for the ASCII letters, the only letters of the one
      pattern the code searches;
    - every call that leaves the process (browser driver, HTTP, the owner's
      callbacks) is an input of the model: a record says, for one call, what
      it returned or that it raised;
    - [urllib.parse.urlparse] belongs to Python's library and is a parameter
      of the development; [None] stands for the [ValueError] it raises;
    - what the worker does to the outside is recorded as a list of [Event]s. *)

From Stdlib Require Import String Ascii List Bool ZArith QArith Lia Lqa.
Import ListNotations.

Open Scope string_scope.
Open Scope list_scope.

(** ** Strings, as Python's [str] methods used by the code *)

Definition dquote : ascii := "034"%char.
Definition backslash : ascii := "092"%char.
Definition slash : ascii := "/"%char.

Definition is_upper (c : ascii) : bool :=
  (65 <=? nat_of_ascii c)%nat && (nat_of_ascii c <=? 90)%nat.

Definition ascii_lower (c : ascii) : ascii :=
  if is_upper c then ascii_of_nat (nat_of_ascii c + 32) else c.

(** [bool(s)]: a string is truthy when it is not empty. *)
Definition str_truthy (s : string) : bool :=
  match s with EmptyString => false | String _ _ => true end.

(** [m in s] for two strings. *)
Fixpoint str_in (m s : string) : bool :=
  if String.prefix m s then true
  else match s with
       | EmptyString => false
       | String _ t => str_in m t
       end.

(** [x in l] for a list of strings. *)
Definition list_in (x : string) (l : list string) : bool :=
  existsb (String.eqb x) l.

Fixpoint lstrip (c : ascii) (s : string) : string :=
  match s with
  | EmptyString => EmptyString
  | String a t => if Ascii.eqb a c then lstrip c t else s
  end.

Fixpoint rstrip (c : ascii) (s : string) : string :=
  match s with
  | EmptyString => EmptyString
  | String a t =>
      match rstrip c t with
      | EmptyString => if Ascii.eqb a c then EmptyString else String a EmptyString
      | t' => String a t'
      end
  end.

(** [s.strip(c)] for a single character [c]. *)
Definition strip (c : ascii) (s : string) : string := rstrip c (lstrip c s).

(** [s.split(c)[0]]: the text before the first [c]. *)
Fixpoint split_head (c : ascii) (s : string) : string :=
  match s with
  | EmptyString => EmptyString
  | String a t => if Ascii.eqb a c then EmptyString else String a (split_head c t)
  end.

(** ** The pattern of the page-state scrape

    [worker.py] line 271 searches the raw string
    [r"\"is_live\"\\s*:\\s*(true|false)"] with [re.IGNORECASE].  In a raw
    string every backslash stays, so the pattern read by [re] is: an escaped
    double quote, [is_live], an escaped double quote, an escaped backslash
    (one literal backslash), [s*], a colon, an escaped backslash, [s*], and
    the group [(true|false)]. *)

Definition opt_bind {A B : Type} (o : option A) (f : A -> option B) : option B :=
  match o with
  | Some a => f a
  | None => None
  end.

Notation "x <- o ;; k" := (opt_bind o (fun x => k))
  (at level 61, o at next level, right associativity).

(** With [re.IGNORECASE] a letter of a [str] pattern matches its two ASCII
    cases and the characters that Unicode folds onto it.  For an ASCII
    letter these are: U+0130 and U+0131 for [i], U+017F for [s], U+212A for
    [k], and none for the other letters.  Here in UTF-8. *)
Definition folded_onto (a : ascii) : list string :=
  if Ascii.eqb (ascii_lower a) "i" then
    [String "196" (String "176" EmptyString); String "196" (String "177" EmptyString)]
  else if Ascii.eqb (ascii_lower a) "s" then
    [String "197" (String "191" EmptyString)]
  else if Ascii.eqb (ascii_lower a) "k" then
    [String "226" (String "132" (String "170" EmptyString))]
  else [].

(** [s] without its prefix [p]. *)
Fixpoint drop_prefix (p s : string) : option string :=
  match p, s with
  | EmptyString, _ => Some s
  | String a p', String b s' => if Ascii.eqb a b then drop_prefix p' s' else None
  | String _ _, EmptyString => None
  end.

Fixpoint drop_first_prefix (ps : list string) (s : string) : option string :=
  match ps with
  | [] => None
  | p :: rest =>
      match drop_prefix p s with
      | Some r => Some r
      | None => drop_first_prefix rest s
      end
  end.

(** One ASCII character of the pattern against the head of [s], without
    case; returns the rest. *)
Definition re_char (a : ascii) (s : string) : option string :=
  match s with
  | EmptyString => None
  | String b s' =>
      if Ascii.eqb (ascii_lower a) (ascii_lower b) then Some s'
      else drop_first_prefix (folded_onto a) s
  end.

(** A literal run of the pattern; returns the rest. *)
Fixpoint re_literal (p s : string) : option string :=
  match p with
  | EmptyString => Some s
  | String a p' => r <- re_char a s ;; re_literal p' r
  end.

(** [c*], greedy.  Each use below is followed by a token that cannot start
    with what [c] matches, so the greedy choice is the only one a
    backtracking matcher can succeed with.  Every repetition takes at least
    one byte, so [fuel] bytes of fuel are enough for a text of that length. *)
Fixpoint re_star_upto (fuel : nat) (c : ascii) (s : string) : string :=
  match fuel with
  | O => s
  | S n =>
      match re_char c s with
      | Some r => re_star_upto n c r
      | None => s
      end
  end.

Definition re_star (c : ascii) (s : string) : string :=
  re_star_upto (String.length s) c s.

(** The pattern anchored at the head of [s]; the result is
    [m.group(1).lower() == "true"]. *)
Definition is_live_pattern_here (s : string) : option bool :=
  r1 <- re_literal (String dquote "is_live") s ;;
  r2 <- re_literal (String dquote EmptyString) r1 ;;
  r3 <- re_literal (String backslash EmptyString) r2 ;;
  r4 <- re_literal ":" (re_star "s" r3) ;;
  r5 <- re_literal (String backslash EmptyString) r4 ;;
  let r6 := re_star "s" r5 in
  match re_literal "true" r6 with
  | Some _ => Some true
  | None =>
      match re_literal "false" r6 with
      | Some _ => Some false
      | None => None
      end
  end.

(** [re.search]: the leftmost position where the pattern matches. *)
Fixpoint re_search_is_live (s : string) : option bool :=
  match is_live_pattern_here s with
  | Some b => Some b
  | None =>
      match s with
      | EmptyString => None
      | String _ t => re_search_is_live t
      end
  end.

(** ** URLs ([utils/helpers.py]) *)

(** The two attributes of [urlparse(url)] the code reads. *)
Record ParseResult := { netloc : string; path : string }.

(** ** What the worker observes and does *)

(** [data.get("livestream")] of the channel payload, when it is an object. *)
Record Livestream := {
  ls_is_live : bool;                 (* bool(livestream.get("is_live")) *)
  ls_categories : list (option Z)    (* the "id" of each entry of "categories" *)
}.

(** Outcome of the channel request (in-browser [fetch] or [urlopen]) followed
    by the JSON decoding. *)
Inductive ApiOutcome :=
| ApiRaise                                   (* the call or the decoding raised *)
| ApiNoData                                  (* empty text, not an object, or a truthy "error" *)
| ApiData (livestream : option Livestream).  (* None: "livestream" missing or falsy *)

(** Outcome of [driver.execute_script] reading the embedded page state. *)
Inductive ScriptOutcome :=
| ScriptRaise
| ScriptValue (state_text : option string).

(** Outcome of [driver.find_element(By.TAG_NAME, "body").text.upper()]:
    it raised, or the text of the page as Python upper-cased it. *)
Inductive DomOutcome :=
| DomRaise
| DomUpper (body : string).

Inductive Event :=
| EvLiveProbe (source : string)            (* a liveness source was queried *)
| EvCategoryProbe (t : Q) (live : bool)    (* get_streamer_category_id() called at time t *)
| EvUpdate (elapsed : Z) (live : bool)     (* on_update(elapsed, live) *)
| EvCumulative (returned : option Z)       (* cumulative_time_callback(); None: it raised *)
| EvQuit                                   (* driver.quit() *)
| EvFinish (elapsed : Z) (completed : bool). (* on_finish(elapsed, completed) *)

(** The attributes of a [StreamWorker] that decide what [run] does.
    Callbacks are kept as "was one supplied"; what a call of them does is
    part of the environment.  The constructor arguments that only select
    browser options ([driver_path], [extension_path], [hide_player], [mute],
    [mini_player], [force_160p]) reach the browser and nothing else; they are
    left out.  [driver] says whether [self.driver] has been assigned. *)
Record StreamWorker := {
  url : string;
  minutes_target : Z;
  on_update : bool;
  on_finish : bool;
  stop_event : bool;
  elapsed_seconds : Z;
  driver : bool;
  completed : bool;
  ended_because_offline : bool;
  ended_because_wrong_category : bool;
  required_category_id : option Z;
  cumulative_time_callback : bool;
  _offline_fresh_checks : Z;
  offline_fresh_checks_to_switch : Z;
  _last_live_check : Q;
  _last_live_value : bool;
  _live_check_interval : Q;
  _last_live_source : string;
  _last_category_check : Q;
  _category_check_interval : Q
}.

(** Attribute assignments, [self.f = v]. *)

Definition set_stop_event (w : StreamWorker) (v : bool) : StreamWorker :=
  {| url := url w; minutes_target := minutes_target w;
     on_update := on_update w; on_finish := on_finish w; stop_event := v;
     elapsed_seconds := elapsed_seconds w; driver := driver w;
     completed := completed w;
     ended_because_offline := ended_because_offline w;
     ended_because_wrong_category := ended_because_wrong_category w;
     required_category_id := required_category_id w;
     cumulative_time_callback := cumulative_time_callback w;
     _offline_fresh_checks := _offline_fresh_checks w;
     offline_fresh_checks_to_switch := offline_fresh_checks_to_switch w;
     _last_live_check := _last_live_check w;
     _last_live_value := _last_live_value w;
     _live_check_interval := _live_check_interval w;
     _last_live_source := _last_live_source w;
     _last_category_check := _last_category_check w;
     _category_check_interval := _category_check_interval w |}.

Definition set_elapsed_seconds (w : StreamWorker) (v : Z) : StreamWorker :=
  {| url := url w; minutes_target := minutes_target w;
     on_update := on_update w; on_finish := on_finish w;
     stop_event := stop_event w; elapsed_seconds := v; driver := driver w;
     completed := completed w;
     ended_because_offline := ended_because_offline w;
     ended_because_wrong_category := ended_because_wrong_category w;
     required_category_id := required_category_id w;
     cumulative_time_callback := cumulative_time_callback w;
     _offline_fresh_checks := _offline_fresh_checks w;
     offline_fresh_checks_to_switch := offline_fresh_checks_to_switch w;
     _last_live_check := _last_live_check w;
     _last_live_value := _last_live_value w;
     _live_check_interval := _live_check_interval w;
     _last_live_source := _last_live_source w;
     _last_category_check := _last_category_check w;
     _category_check_interval := _category_check_interval w |}.

Definition set_driver (w : StreamWorker) (v : bool) : StreamWorker :=
  {| url := url w; minutes_target := minutes_target w;
     on_update := on_update w; on_finish := on_finish w;
     stop_event := stop_event w; elapsed_seconds := elapsed_seconds w;
     driver := v; completed := completed w;
     ended_because_offline := ended_because_offline w;
     ended_because_wrong_category := ended_because_wrong_category w;
     required_category_id := required_category_id w;
     cumulative_time_callback := cumulative_time_callback w;
     _offline_fresh_checks := _offline_fresh_checks w;
     offline_fresh_checks_to_switch := offline_fresh_checks_to_switch w;
     _last_live_check := _last_live_check w;
     _last_live_value := _last_live_value w;
     _live_check_interval := _live_check_interval w;
     _last_live_source := _last_live_source w;
     _last_category_check := _last_category_check w;
     _category_check_interval := _category_check_interval w |}.

Definition set_completed (w : StreamWorker) (v : bool) : StreamWorker :=
  {| url := url w; minutes_target := minutes_target w;
     on_update := on_update w; on_finish := on_finish w;
     stop_event := stop_event w; elapsed_seconds := elapsed_seconds w;
     driver := driver w; completed := v;
     ended_because_offline := ended_because_offline w;
     ended_because_wrong_category := ended_because_wrong_category w;
     required_category_id := required_category_id w;
     cumulative_time_callback := cumulative_time_callback w;
     _offline_fresh_checks := _offline_fresh_checks w;
     offline_fresh_checks_to_switch := offline_fresh_checks_to_switch w;
     _last_live_check := _last_live_check w;
     _last_live_value := _last_live_value w;
     _live_check_interval := _live_check_interval w;
     _last_live_source := _last_live_source w;
     _last_category_check := _last_category_check w;
     _category_check_interval := _category_check_interval w |}.

Definition set_ended_because_offline (w : StreamWorker) (v : bool) : StreamWorker :=
  {| url := url w; minutes_target := minutes_target w;
     on_update := on_update w; on_finish := on_finish w;
     stop_event := stop_event w; elapsed_seconds := elapsed_seconds w;
     driver := driver w; completed := completed w;
     ended_because_offline := v;
     ended_because_wrong_category := ended_because_wrong_category w;
     required_category_id := required_category_id w;
     cumulative_time_callback := cumulative_time_callback w;
     _offline_fresh_checks := _offline_fresh_checks w;
     offline_fresh_checks_to_switch := offline_fresh_checks_to_switch w;
     _last_live_check := _last_live_check w;
     _last_live_value := _last_live_value w;
     _live_check_interval := _live_check_interval w;
     _last_live_source := _last_live_source w;
     _last_category_check := _last_category_check w;
     _category_check_interval := _category_check_interval w |}.

Definition set_ended_because_wrong_category (w : StreamWorker) (v : bool) : StreamWorker :=
  {| url := url w; minutes_target := minutes_target w;
     on_update := on_update w; on_finish := on_finish w;
     stop_event := stop_event w; elapsed_seconds := elapsed_seconds w;
     driver := driver w; completed := completed w;
     ended_because_offline := ended_because_offline w;
     ended_because_wrong_category := v;
     required_category_id := required_category_id w;
     cumulative_time_callback := cumulative_time_callback w;
     _offline_fresh_checks := _offline_fresh_checks w;
     offline_fresh_checks_to_switch := offline_fresh_checks_to_switch w;
     _last_live_check := _last_live_check w;
     _last_live_value := _last_live_value w;
     _live_check_interval := _live_check_interval w;
     _last_live_source := _last_live_source w;
     _last_category_check := _last_category_check w;
     _category_check_interval := _category_check_interval w |}.

Definition set_offline_fresh_checks (w : StreamWorker) (v : Z) : StreamWorker :=
  {| url := url w; minutes_target := minutes_target w;
     on_update := on_update w; on_finish := on_finish w;
     stop_event := stop_event w; elapsed_seconds := elapsed_seconds w;
     driver := driver w; completed := completed w;
     ended_because_offline := ended_because_offline w;
     ended_because_wrong_category := ended_because_wrong_category w;
     required_category_id := required_category_id w;
     cumulative_time_callback := cumulative_time_callback w;
     _offline_fresh_checks := v;
     offline_fresh_checks_to_switch := offline_fresh_checks_to_switch w;
     _last_live_check := _last_live_check w;
     _last_live_value := _last_live_value w;
     _live_check_interval := _live_check_interval w;
     _last_live_source := _last_live_source w;
     _last_category_check := _last_category_check w;
     _category_check_interval := _category_check_interval w |}.

Definition set_last_live_check (w : StreamWorker) (v : Q) : StreamWorker :=
  {| url := url w; minutes_target := minutes_target w;
     on_update := on_update w; on_finish := on_finish w;
     stop_event := stop_event w; elapsed_seconds := elapsed_seconds w;
     driver := driver w; completed := completed w;
     ended_because_offline := ended_because_offline w;
     ended_because_wrong_category := ended_because_wrong_category w;
     required_category_id := required_category_id w;
     cumulative_time_callback := cumulative_time_callback w;
     _offline_fresh_checks := _offline_fresh_checks w;
     offline_fresh_checks_to_switch := offline_fresh_checks_to_switch w;
     _last_live_check := v; _last_live_value := _last_live_value w;
     _live_check_interval := _live_check_interval w;
     _last_live_source := _last_live_source w;
     _last_category_check := _last_category_check w;
     _category_check_interval := _category_check_interval w |}.

Definition set_last_live_value (w : StreamWorker) (v : bool) : StreamWorker :=
  {| url := url w; minutes_target := minutes_target w;
     on_update := on_update w; on_finish := on_finish w;
     stop_event := stop_event w; elapsed_seconds := elapsed_seconds w;
     driver := driver w; completed := completed w;
     ended_because_offline := ended_because_offline w;
     ended_because_wrong_category := ended_because_wrong_category w;
     required_category_id := required_category_id w;
     cumulative_time_callback := cumulative_time_callback w;
     _offline_fresh_checks := _offline_fresh_checks w;
     offline_fresh_checks_to_switch := offline_fresh_checks_to_switch w;
     _last_live_check := _last_live_check w; _last_live_value := v;
     _live_check_interval := _live_check_interval w;
     _last_live_source := _last_live_source w;
     _last_category_check := _last_category_check w;
     _category_check_interval := _category_check_interval w |}.

Definition set_live_check_interval (w : StreamWorker) (v : Q) : StreamWorker :=
  {| url := url w; minutes_target := minutes_target w;
     on_update := on_update w; on_finish := on_finish w;
     stop_event := stop_event w; elapsed_seconds := elapsed_seconds w;
     driver := driver w; completed := completed w;
     ended_because_offline := ended_because_offline w;
     ended_because_wrong_category := ended_because_wrong_category w;
     required_category_id := required_category_id w;
     cumulative_time_callback := cumulative_time_callback w;
     _offline_fresh_checks := _offline_fresh_checks w;
     offline_fresh_checks_to_switch := offline_fresh_checks_to_switch w;
     _last_live_check := _last_live_check w;
     _last_live_value := _last_live_value w; _live_check_interval := v;
     _last_live_source := _last_live_source w;
     _last_category_check := _last_category_check w;
     _category_check_interval := _category_check_interval w |}.

Definition set_last_live_source (w : StreamWorker) (v : string) : StreamWorker :=
  {| url := url w; minutes_target := minutes_target w;
     on_update := on_update w; on_finish := on_finish w;
     stop_event := stop_event w; elapsed_seconds := elapsed_seconds w;
     driver := driver w; completed := completed w;
     ended_because_offline := ended_because_offline w;
     ended_because_wrong_category := ended_because_wrong_category w;
     required_category_id := required_category_id w;
     cumulative_time_callback := cumulative_time_callback w;
     _offline_fresh_checks := _offline_fresh_checks w;
     offline_fresh_checks_to_switch := offline_fresh_checks_to_switch w;
     _last_live_check := _last_live_check w;
     _last_live_value := _last_live_value w;
     _live_check_interval := _live_check_interval w; _last_live_source := v;
     _last_category_check := _last_category_check w;
     _category_check_interval := _category_check_interval w |}.

Definition set_last_category_check (w : StreamWorker) (v : Q) : StreamWorker :=
  {| url := url w; minutes_target := minutes_target w;
     on_update := on_update w; on_finish := on_finish w;
     stop_event := stop_event w; elapsed_seconds := elapsed_seconds w;
     driver := driver w; completed := completed w;
     ended_because_offline := ended_because_offline w;
     ended_because_wrong_category := ended_because_wrong_category w;
     required_category_id := required_category_id w;
     cumulative_time_callback := cumulative_time_callback w;
     _offline_fresh_checks := _offline_fresh_checks w;
     offline_fresh_checks_to_switch := offline_fresh_checks_to_switch w;
     _last_live_check := _last_live_check w;
     _last_live_value := _last_live_value w;
     _live_check_interval := _live_check_interval w;
     _last_live_source := _last_live_source w; _last_category_check := v;
     _category_check_interval := _category_check_interval w |}.

(** ** Environment of the calls

    One [LiveEnv] per call of [is_stream_live], one [IterEnv] per iteration
    of the loop of [run], one [StartEnv] per run.  A field is read only when
    the code makes the corresponding call. *)

Record LiveEnv := {
  live_now : Q;                 (* time.time() at line 226 *)
  live_api : ApiOutcome;        (* the in-browser fetch of the channel *)
  live_state : ScriptOutcome;   (* the embedded page state *)
  live_body : DomOutcome;       (* the text of the page, upper-cased *)
  live_jitter : Q               (* random.uniform(-3, 3) *)
}.

(** When the owner calls [stop()] with respect to one iteration: not at all,
    before the test of the [while] (that is, during the preceding sleep), or
    after that test, while the body runs. *)
Inductive StopPoint := NoStop | StopBeforeCheck | StopMidIteration.

Record IterEnv := {
  owner_stop : StopPoint;
  live_env : LiveEnv;
  category_now : Q;             (* time.time() at line 141 *)
  category_api : ApiOutcome;    (* the fetch made by get_streamer_category_id *)
  report_now : Q;               (* time.time() in the test of line 152 *)
  report_stamp : Q;             (* time.time() assigned at line 153 *)
  on_update_raises : bool;
  cumulative_result : option Z  (* what the accessor returns; None: it raises *)
}.

Record StartEnv := {
  make_chrome_driver_raises : bool;
  get_base_raises : bool;       (* driver.get(base) *)
  load_cookies_raises : bool;
  get_url_raises : bool         (* driver.get(self.url) *)
}.

(** How an iteration, the loop and a run end. *)
Inductive Exit :=
| ExitCompleted | ExitOffline | ExitWrongCategory | ExitStopped | ExitException.

Inductive Step :=
| Continue (w : StreamWorker) (last_report : Q)
| Break (w : StreamWorker) (reason : Exit).

Inductive LoopEnd := Ended (reason : Exit) | StillRunning.

Inductive RunEnd :=
| Escaped                  (* an exception left [run] before its [try] *)
| Finished (reason : Exit) (* the [finally] block has run *)
| Running.                 (* the environment list is used up, the loop goes on *)

(** ** [StreamWorker.__init__] *)

Definition StreamWorker_init (url0 : string) (minutes_target0 : Z)
    (on_update0 on_finish0 stop_event0 : bool)
    (offline_fresh_checks_to_switch0 : Z) (required_category_id0 : option Z)
    (cumulative_time_callback0 : bool) : StreamWorker :=
  {| url := url0;
     minutes_target := minutes_target0;
     on_update := on_update0;
     on_finish := on_finish0;
     stop_event := stop_event0;
     elapsed_seconds := 0;
     driver := false;
     completed := false;
     ended_because_offline := false;
     ended_because_wrong_category := false;
     required_category_id := required_category_id0;
     cumulative_time_callback := cumulative_time_callback0;
     _offline_fresh_checks := 0;
     offline_fresh_checks_to_switch := Z.max 0 offline_fresh_checks_to_switch0;
     _last_live_check := 0;
     _last_live_value := true;
     _live_check_interval := 10;
     _last_live_source := "unknown";
     _last_category_check := 0;
     _category_check_interval := 30 |}.

(** [StreamWorker.stop] *)
Definition stop (w : StreamWorker) : StreamWorker := set_stop_event w true.

(** Truth value of a Python [int] and of an optional one. *)
Definition int_truthy (z : Z) : bool := negb (z =? 0)%Z.

Definition opt_int_truthy (o : option Z) : bool :=
  match o with
  | Some z => int_truthy z
  | None => false
  end.

(** [c != r] for an [int] [c] and an optional [int] [r]. *)
Definition opt_int_differs (c : Z) (r : option Z) : bool :=
  match r with
  | Some z => negb (c =? z)%Z
  | None => true
  end.

Definition Qltb (x y : Q) : bool := negb (Qle_bool y x).

(** ** The liveness sources of [is_stream_live] *)

Definition livestream_is_live (l : option Livestream) : bool :=
  match l with
  | Some ls => ls_is_live ls
  | None => false
  end.

(** Lines 234-256: conclusive when the payload is an object without error. *)
Definition browser_api_source (o : ApiOutcome) : option bool :=
  match o with
  | ApiData l => Some (livestream_is_live l)
  | ApiRaise | ApiNoData => None
  end.

(** Lines 258-278. *)
Definition page_state_source (o : ScriptOutcome) : option bool :=
  match o with
  | ScriptValue (Some state_text) =>
      if str_truthy state_text then re_search_is_live state_text else None
  | ScriptValue None | ScriptRaise => None
  end.

Definition offline_markers : list string :=
  [ "OFFLINE"; "IS OFFLINE"; "CHANNEL IS OFFLINE"; "NOT LIVE"; "HORS LIGNE";
    "N'EST PAS EN DIRECT" ].

(** Lines 280-296. *)
Definition dom_source (o : DomOutcome) : option bool :=
  match o with
  | DomUpper body =>
      if existsb (fun m => str_in m body) offline_markers then Some false else None
  | DomRaise => None
  end.

Definition record_live (w : StreamWorker) (v : bool) (source : string) : StreamWorker :=
  set_last_live_source (set_last_live_value w v) source.

(** The [finally] block of [is_stream_live], lines 304-309. *)
Definition reschedule (w : StreamWorker) (e : LiveEnv) : StreamWorker :=
  let base_interval : Q := if _last_live_value w then 8 else 5 in
  let x := (base_interval + live_jitter e)%Q in
  let w1 := set_live_check_interval w (if Qltb 4 x then x else 4) in
  set_last_live_check w1 (live_now e).

Definition with_events (evs : list Event) (r : Step * list Event) : Step * list Event :=
  (fst r, evs ++ snd r).

Section Worker.

(** Python's [urllib.parse.urlparse]; [None] when it raises. *)
Variable urlparse : string -> option ParseResult.

(** [helpers.domain_from_url]; it catches nothing, so [None] is an exception
    that reaches the caller. *)
Definition domain_from_url (u : string) : option string :=
  option_map netloc (urlparse u).

(** [helpers._kick_username_from_url]; here [None] is the returned [None]. *)
Definition _kick_username_from_url (u : string) : option string :=
  match urlparse u with
  | None => None
  | Some p =>
      if negb (str_in "kick.com" (netloc p)) then None
      else
        let username := split_head slash (strip slash (path p)) in
        if str_truthy username then Some username else None
  end.

(** ** [StreamWorker.is_stream_live] *)

(** Lines 280-299: the DOM heuristic, then the cached value. *)
Definition dom_or_cached (w : StreamWorker) (e : LiveEnv) (evs : list Event)
  : bool * StreamWorker * list Event :=
  match dom_source (live_body e) with
  | Some v => (v, record_live w v "dom_offline", evs ++ [EvLiveProbe "dom"])
  | None =>
      (_last_live_value w, set_last_live_source w "unknown", evs ++ [EvLiveProbe "dom"])
  end.

(** The body of the [try], lines 230-299.  No statement of it can raise
    outside the inner [try] blocks, so the handler of line 300 is dead. *)
Definition probe_sources (w : StreamWorker) (e : LiveEnv)
  : bool * StreamWorker * list Event :=
  match _kick_username_from_url (url w) with
  | Some _ =>
      match browser_api_source (live_api e) with
      | Some is_live =>
          (is_live, record_live w is_live "browser_api", [EvLiveProbe "browser_api"])
      | None =>
          match page_state_source (live_state e) with
          | Some is_live =>
              (is_live, record_live w is_live "page_state",
               [EvLiveProbe "browser_api"; EvLiveProbe "page_state"])
          | None =>
              dom_or_cached w e [EvLiveProbe "browser_api"; EvLiveProbe "page_state"]
          end
      end
  | None => dom_or_cached w e []
  end.

Definition is_stream_live (w : StreamWorker) (e : LiveEnv)
  : bool * StreamWorker * list Event :=
  if Qltb (live_now e - _last_live_check w) (_live_check_interval w)
  then (_last_live_value w, w, [])
  else
    let '(v, w1, evs) := probe_sources w e in
    (v, reschedule w1 e, evs).

(** ** [StreamWorker.get_streamer_category_id] *)

Definition get_streamer_category_id (w : StreamWorker) (o : ApiOutcome) : option Z :=
  if negb (driver w) then None
  else
    match _kick_username_from_url (url w) with
    | None => None
    | Some _ =>
        match o with
        | ApiData (Some livestream) =>
            if ls_is_live livestream then
              match ls_categories livestream with
              | c :: _ => c
              | [] => None
              end
            else None
        | ApiData None | ApiRaise | ApiNoData => None
        end
    end.

(** ** One iteration of the loop of [run], lines 116-170 *)

(** Lines 157-170. *)
Definition completion_check (w : StreamWorker) (last_report : Q) (e : IterEnv)
  : Step * list Event :=
  if int_truthy (minutes_target w) then
    if cumulative_time_callback w then
      match cumulative_result e with
      | None => (Break w ExitException, [EvCumulative None])
      | Some current_cumulative =>
          if (minutes_target w * 60 <=? current_cumulative)%Z
          then (Break (set_completed w true) ExitCompleted,
                [EvCumulative (Some current_cumulative)])
          else (Continue w last_report, [EvCumulative (Some current_cumulative)])
      end
    else if (minutes_target w * 60 <=? elapsed_seconds w)%Z
         then (Break (set_completed w true) ExitCompleted, [])
         else (Continue w last_report, [])
  else (Continue w last_report, []).

(** Lines 150-155, then the completion check. *)
Definition tick_and_report (w : StreamWorker) (last_report : Q) (live : bool)
    (e : IterEnv) : Step * list Event :=
  let w1 := if live then set_elapsed_seconds w (elapsed_seconds w + 1) else w in
  if Qle_bool 1 (report_now e - last_report) then
    if on_update w1 then
      if on_update_raises e
      then (Break w1 ExitException, [EvUpdate (elapsed_seconds w1) live])
      else with_events [EvUpdate (elapsed_seconds w1) live]
                       (completion_check w1 (report_stamp e) e)
    else completion_check w1 (report_stamp e) e
  else completion_check w1 last_report e.

(** Lines 139-148, then the rest of the body. *)
Definition category_check (w : StreamWorker) (last_report : Q) (live : bool)
    (e : IterEnv) : Step * list Event :=
  if opt_int_truthy (required_category_id w) && live then
    let now := category_now e in
    if Qle_bool (_category_check_interval w) (now - _last_category_check w) then
      let w1 := set_last_category_check w now in
      match get_streamer_category_id w1 (category_api e) with
      | Some current_category_id =>
          if opt_int_differs current_category_id (required_category_id w1)
          then (Break (set_ended_because_wrong_category w1 true) ExitWrongCategory,
                [EvCategoryProbe now live])
          else with_events [EvCategoryProbe now live] (tick_and_report w1 last_report live e)
      | None => with_events [EvCategoryProbe now live] (tick_and_report w1 last_report live e)
      end
    else tick_and_report w last_report live e
  else tick_and_report w last_report live e.

(** Lines 125-137, then the rest of the body. *)
Definition offline_check (w : StreamWorker) (last_report : Q) (live fresh_check : bool)
    (e : IterEnv) : Step * list Event :=
  let w1 :=
    if fresh_check then
      if live then set_offline_fresh_checks w 0
      else set_offline_fresh_checks w (_offline_fresh_checks w + 1)
    else w in
  if negb live
     && int_truthy (offline_fresh_checks_to_switch w1)
     && (offline_fresh_checks_to_switch w1 <=? _offline_fresh_checks w1)%Z
  then (Break (set_ended_because_offline w1 true) ExitOffline, [])
  else category_check w1 last_report live e.

(** Lines 117-170: the body of the [while], entered after its test. *)
Definition loop_body (w : StreamWorker) (last_report : Q) (e : IterEnv)
  : Step * list Event :=
  let prev_live_check := _last_live_check w in
  let '(live, w1, evs) := is_stream_live w (live_env e) in
  let fresh_check := negb (Qeq_bool (_last_live_check w1) prev_live_check) in
  (* ensure_player_state() swallows every exception and assigns nothing *)
  with_events evs (offline_check w1 last_report live fresh_check e).

(** The owner's [stop()] sets the shared event. *)
Definition stop_if (b : bool) (w : StreamWorker) : StreamWorker :=
  if b then stop w else w.

Definition is_stop_before (p : StopPoint) : bool :=
  match p with StopBeforeCheck => true | _ => false end.

Definition is_stop_mid (p : StopPoint) : bool :=
  match p with StopMidIteration => true | _ => false end.

(** The test of the [while] followed by the body.  The body never reads the
    event, so a [stop()] that arrives while it runs is applied at its
    start. *)
Definition loop_iteration (w : StreamWorker) (last_report : Q) (e : IterEnv)
  : Step * list Event :=
  let w0 := stop_if (is_stop_before (owner_stop e)) w in
  if stop_event w0 then (Break w0 ExitStopped, [])
  else loop_body (stop_if (is_stop_mid (owner_stop e)) w0) last_report e.

(** The loop, fed one [IterEnv] per iteration. *)
Fixpoint loop (w : StreamWorker) (last_report : Q) (envs : list IterEnv)
  : StreamWorker * LoopEnd * list Event :=
  match envs with
  | [] => (w, StillRunning, [])
  | e :: rest =>
      match loop_iteration w last_report e with
      | (Continue w' last_report', evs) =>
          let '(wf, r, evs') := loop w' last_report' rest in
          (wf, r, evs ++ evs')
      | (Break w' reason, evs) => (w', Ended reason, evs)
      end
  end.

(** ** [StreamWorker.run] *)

(** Lines 67-113: [true] when the loop is reached, [false] when a call
    raised.  Window placement, the quality preference and the first
    [ensure_player_state] are wrapped in their own handlers. *)
Definition startup (w : StreamWorker) (domain : string) (s : StartEnv)
  : StreamWorker * bool :=
  if make_chrome_driver_raises s then (w, false)
  else
    let w1 := set_driver w true in
    if str_truthy domain && (get_base_raises s || load_cookies_raises s)
    then (w1, false)
    else if get_url_raises s then (w1, false) else (w1, true).

(** The [finally] block, lines 173-183.  An exception of [quit] or of
    [on_finish] is swallowed after the call was made. *)
Definition cleanup (w : StreamWorker) : list Event :=
  (if driver w then [EvQuit] else [])
  ++ (if on_finish w then [EvFinish (elapsed_seconds w) (completed w)] else []).

Definition run (w : StreamWorker) (s : StartEnv) (envs : list IterEnv)
  : StreamWorker * RunEnd * list Event :=
  match domain_from_url (url w) with
  | None => (w, Escaped, [])
  | Some domain =>
      let '(w1, started) := startup w domain s in
      let '(w2, r, evs) :=
        if started then loop w1 0 envs else (w1, Ended ExitException, []) in
      match r with
      | StillRunning => (w2, Running, evs)
      | Ended reason => (w2, Finished reason, evs ++ cleanup w2)
      end
  end.

(** ** The direct probe of [core/api.py] *)

(** Outcome of [urlopen] followed by [json.load] and the reads of the
    payload. *)
Inductive HttpOutcome :=
| HttpRaise
| HttpData (livestream : option Livestream).

(** The HTTP endpoint, by requested address. *)
Variable urlopen : string -> HttpOutcome.

Definition kick_live_status_by_api (u : string) : option bool :=
  match urlparse u with
  | None => None
  | Some p =>
      if negb (str_in "kick.com" (netloc p)) then None
      else
        let username := split_head slash (strip slash (path p)) in
        if negb (str_truthy username) then None
        else
          match urlopen (String.append "https://kick.com/api/v2/channels/" username) with
          | HttpRaise => None
          | HttpData livestream => Some (livestream_is_live livestream)
          end
  end.

Definition kick_is_live_by_api (u : string) : bool :=
  match kick_live_status_by_api u with
  | None => true
  | Some status => status
  end.

End Worker.

(** ** The channel fallback of [App.on_worker_finish] ([ui/app.py]) *)

Module App.

(** An entry of [campaign_channels]: a plain address or a dict, whose "url"
    may be missing. *)
Inductive Channel :=
| ChannelStr (u : string)
| ChannelDict (u : option string).

(** The keys of a queue item that the fallback reads or writes.
    [tried_channels] is [None] while the key is absent. *)
Record Item := {
  url : string;
  campaign_id : option string;
  campaign_channels : list Channel;
  tried_channels : option (list string)
}.

(** [ch.get("url") if isinstance(ch, dict) else ch], when truthy. *)
Definition channel_url (ch : Channel) : option string :=
  match ch with
  | ChannelStr u | ChannelDict (Some u) => if str_truthy u then Some u else None
  | ChannelDict None => None
  end.

(** Lines 2810-2811. *)
Definition mark_current (current_url : string) (tried : list string) : list string :=
  if list_in current_url tried then tried else tried ++ [current_url].

Fixpoint channel_urls (chs : list Channel) : list string :=
  match chs with
  | [] => []
  | ch :: rest =>
      match channel_url ch with
      | Some ch_url => ch_url :: channel_urls rest
      | None => channel_urls rest
      end
  end.

(** Lines 2814-2822. *)
Definition all_channel_urls (current_url : string) (chs : list Channel) : list string :=
  let urls := channel_urls chs in
  if list_in current_url urls then urls else urls ++ [current_url].

(** Lines 2825-2826. *)
Definition reset_if_exhausted (tried all : list string) : list string :=
  if (length all <=? length tried)%nat then [] else tried.

(** The [for] loop of lines 2830-2850, up to its first switch. *)
Fixpoint scan (is_live : string -> bool) (current_url : string) (tried : list string)
    (chs : list Channel) : option string :=
  match chs with
  | [] => None
  | alt_channel :: rest =>
      match channel_url alt_channel with
      | Some alt_url =>
          if negb (String.eqb alt_url current_url) && negb (list_in alt_url tried)
          then if is_live alt_url then Some alt_url
               else scan is_live current_url tried rest
          else scan is_live current_url tried rest
      | None => scan is_live current_url tried rest
      end
  end.

(** Lines 2802-2856, the branch taken when the worker ended offline or in
    the wrong category; the boolean is [switched].  The list read at line
    2807 is the item's own object when the key exists, so appending to it
    and clearing it change the item; otherwise it is a new list, which
    reaches the item only through the assignments of lines 2838 and 2854. *)
Definition on_worker_finish_switch (is_live : string -> bool) (item : Item)
  : Item * bool :=
  match campaign_id item, campaign_channels item with
  | None, _ | _, [] => (item, false)
  | Some id, _ :: _ =>
      if negb (str_truthy id) then (item, false)
      else
        let current_url := url item in
        let tried0 := match tried_channels item with Some l => l | None => [] end in
        let tried1 := mark_current current_url tried0 in
        let all := all_channel_urls current_url (campaign_channels item) in
        let tried2 := reset_if_exhausted tried1 all in
        match scan is_live current_url tried2 (campaign_channels item) with
        | Some alt_url =>
            ({| url := alt_url;
                campaign_id := campaign_id item;
                campaign_channels := campaign_channels item;
                tried_channels := Some (tried2 ++ [alt_url]) |}, true)
        | None =>
            let stored :=
              if (length tried2 <? length all)%nat then Some tried2
              else match tried_channels item with
                   | Some _ => Some tried2
                   | None => None
                   end in
            ({| url := current_url;
                campaign_id := campaign_id item;
                campaign_channels := campaign_channels item;
                tried_channels := stored |}, false)
        end
  end.

(** The list the scan tests against: the tried list with the channel that
    just ended recorded, emptied when it is as long as the candidate list. *)
Definition tried_after_reset (item : Item) : list string :=
  reset_if_exhausted
    (mark_current (url item)
       (match tried_channels item with Some l => l | None => [] end))
    (all_channel_urls (url item) (campaign_channels item)).

(** A sibling the scan may switch to: not the current channel, not tried. *)
Definition eligible (current_url : string) (tried : list string) (u : string) : bool :=
  negb (String.eqb u current_url) && negb (list_in u tried).

(** The item after a switch to [alt_url], and after a scan that found
    nothing, with [tried] as the tried list. *)
Definition switched_to (item : Item) (alt_url : string) (tried : list string) : Item :=
  {| url := alt_url;
     campaign_id := campaign_id item;
     campaign_channels := campaign_channels item;
     tried_channels := Some (tried ++ [alt_url]) |}.

Definition left_for_retry (item : Item) (tried : list string) : Item :=
  {| url := url item;
     campaign_id := campaign_id item;
     campaign_channels := campaign_channels item;
     tried_channels := Some tried |}.

End App.

(** ** Reading the results *)

Definition step_worker (s : Step) : StreamWorker :=
  match s with
  | Continue w _ | Break w _ => w
  end.

Definition step_exit (s : Step) : option Exit :=
  match s with
  | Continue _ _ => None
  | Break _ reason => Some reason
  end.

(** A step with [f] applied to the worker it carries. *)
Definition map_step (f : StreamWorker -> StreamWorker) (s : Step) : Step :=
  match s with
  | Continue w last_report => Continue (f w) last_report
  | Break w reason => Break (f w) reason
  end.

Definition value_of (r : bool * StreamWorker * list Event) : bool := fst (fst r).
Definition worker_of (r : bool * StreamWorker * list Event) : StreamWorker := snd (fst r).

Definition run_worker (r : StreamWorker * RunEnd * list Event) : StreamWorker := fst (fst r).
Definition run_end (r : StreamWorker * RunEnd * list Event) : RunEnd := snd (fst r).
Definition run_events (r : StreamWorker * RunEnd * list Event) : list Event := snd r.

(** ** Groups of attributes *)

(** The three flags by which the owner tells the natural endings apart. *)
Definition flags (w : StreamWorker) : bool * bool * bool :=
  (completed w, ended_because_offline w, ended_because_wrong_category w).

(** What the constructor fixed and [run] only reads. *)
Definition config (w : StreamWorker) :=
  (url w, minutes_target w, on_update w, on_finish w, required_category_id w,
   cumulative_time_callback w, offline_fresh_checks_to_switch w,
   _category_check_interval w).

(** What [is_stream_live] never assigns. *)
Definition outside_cache (w : StreamWorker) :=
  (url w, minutes_target w, on_update w, on_finish w, stop_event w,
   elapsed_seconds w, driver w, flags w, required_category_id w,
   cumulative_time_callback w, _offline_fresh_checks w,
   offline_fresh_checks_to_switch w, _last_category_check w,
   _category_check_interval w).

(** What the body assigns nowhere after the offline test of line 131. *)
Definition after_offline_test (w : StreamWorker) :=
  (url w, minutes_target w, on_update w, on_finish w, stop_event w, driver w,
   ended_because_offline w, required_category_id w, cumulative_time_callback w,
   _offline_fresh_checks w, offline_fresh_checks_to_switch w,
   _last_live_check w, _last_live_value w, _live_check_interval w,
   _last_live_source w, _category_check_interval w).

(** ** Vocabulary of the statements *)

(** How a step may change the three flags: only the flag of the natural
    ending it takes is raised. *)
Definition flags_follow (w : StreamWorker) (s : Step) : Prop :=
  match s with
  | Continue w' _ => flags w' = flags w
  | Break w' ExitCompleted =>
      flags w' = (true, ended_because_offline w, ended_because_wrong_category w)
  | Break w' ExitOffline =>
      flags w' = (completed w, true, ended_because_wrong_category w)
  | Break w' ExitWrongCategory =>
      flags w' = (completed w, ended_because_offline w, true)
  | Break w' ExitStopped | Break w' ExitException => flags w' = flags w
  end.

(** The loop as a whole: the flags it leaves, by the way it ended. *)
Definition loop_flags_follow (w wf : StreamWorker) (r : LoopEnd) : Prop :=
  match r with
  | StillRunning => flags wf = flags w
  | Ended reason => flags_follow w (Break wf reason)
  end.

(** No [on_finish] among the events. *)
Definition no_finish (evs : list Event) : Prop :=
  forall elapsed c, ~ In (EvFinish elapsed c) evs.

Definition is_live_probe (ev : Event) : bool :=
  match ev with EvLiveProbe _ => true | _ => false end.

(** The page text, upper-cased, holds none of the offline phrases. *)
Definition no_offline_marker (body : string) : Prop :=
  forall m, In m offline_markers -> str_in m body = false.

(** In individual mode the completion check decides between going on and
    completing by comparing the worker's own elapsed seconds to the target. *)
Definition individual_outcome (target : Z) (s : Step) : Prop :=
  match step_exit s with
  | None => (elapsed_seconds (step_worker s) < target)%Z
  | Some ExitCompleted =>
      (target <= elapsed_seconds (step_worker s))%Z /\ completed (step_worker s) = true
  | Some ExitStopped => False
  | Some ExitOffline | Some ExitWrongCategory | Some ExitException => True
  end.

(** In cumulative mode, what follows when the accessor was called and
    returned [total]. *)
Definition cumulative_outcome (target : Z) (r : Step * list Event) : Prop :=
  forall total,
    In (EvCumulative (Some total)) (snd r) ->
    ((target <= total)%Z ->
     step_exit (fst r) = Some ExitCompleted /\ completed (step_worker (fst r)) = true)
    /\ ((total < target)%Z -> step_exit (fst r) = None).

(** What each way an iteration can end tells, for a target above zero.
    [live] is the liveness the iteration read.  The elapsed seconds have
    gone up by one exactly when the iteration reached line 150 with the
    channel live; the loop goes on only with the target not reached, and
    ends completed only with the target reached: by the accessor's total in
    cumulative mode, by the worker's own elapsed seconds otherwise.  The
    other endings have causes of their own: a counter of offline probes at
    the threshold, a category probe that is due and returns another
    category, a callback or an accessor that raises. *)
Definition completion_record (urlparse : string -> option ParseResult)
    (w : StreamWorker) (e : IterEnv) (live : bool) (s : Step) : Prop :=
  let w' := step_worker s in
  let target := (minutes_target w * 60)%Z in
  let ticked :=
    elapsed_seconds w' = (elapsed_seconds w + (if live then 1 else 0))%Z in
  match step_exit s with
  | None =>
      ticked
      /\ if cumulative_time_callback w
         then exists total, cumulative_result e = Some total /\ (total < target)%Z
         else (elapsed_seconds w' < target)%Z
  | Some ExitCompleted =>
      ticked /\ completed w' = true
      /\ if cumulative_time_callback w
         then exists total, cumulative_result e = Some total /\ (target <= total)%Z
         else (target <= elapsed_seconds w')%Z
  | Some ExitOffline =>
      live = false /\ elapsed_seconds w' = elapsed_seconds w
      /\ offline_fresh_checks_to_switch w <> 0%Z
      /\ (offline_fresh_checks_to_switch w <= _offline_fresh_checks w')%Z
  | Some ExitWrongCategory =>
      live = true /\ opt_int_truthy (required_category_id w) = true
      /\ elapsed_seconds w' = elapsed_seconds w
      /\ Qle_bool (_category_check_interval w) (category_now e - _last_category_check w)
         = true
      /\ exists current,
           get_streamer_category_id urlparse w (category_api e) = Some current
           /\ opt_int_differs current (required_category_id w) = true
  | Some ExitException =>
      (on_update w = true /\ on_update_raises e = true)
      \/ (cumulative_time_callback w = true /\ cumulative_result e = None)
  | Some ExitStopped => False
  end.

(** The times at which the category probe was called. *)
Fixpoint category_probe_times (evs : list Event) : list Q :=
  match evs with
  | [] => []
  | EvCategoryProbe t _ :: rest => t :: category_probe_times rest
  | _ :: rest => category_probe_times rest
  end.

(** Successive readings are at least [d] apart. *)
Fixpoint spaced (d : Q) (ts : list Q) : Prop :=
  match ts with
  | [] => True
  | t1 :: rest =>
      match rest with
      | [] => True
      | t2 :: _ => (t1 + d <= t2)%Q /\ spaced d rest
      end
  end.

(** What one iteration does about the category probe: either it does not
    call it and leaves [_last_category_check] alone, or it calls it once, at
    a reading of the clock that is at least the interval after the previous
    call, and records that reading. *)
Definition probe_record (w : StreamWorker) (e : IterEnv) (r : Step * list Event) : Prop :=
  (category_probe_times (snd r) = []
   /\ _last_category_check (step_worker (fst r)) = _last_category_check w)
  \/ (category_probe_times (snd r) = [category_now e]
      /\ _last_category_check (step_worker (fst r)) = category_now e
      /\ (_category_check_interval w <= category_now e - _last_category_check w)%Q).

(** Every call of the category probe was made with the channel live. *)
Definition probes_while_live (evs : list Event) : Prop :=
  forall t live, In (EvCategoryProbe t live) evs -> live = true.

(** ** A small URL parser for the examples

    It agrees with [urlparse] on addresses of the shape
    [scheme://netloc/path] that have no query, fragment or parameters, and
    like [urlparse] it rejects a netloc with one bracket but not the other.
    The theorems quantify over every parser; this one feeds the examples. *)

Fixpoint after_scheme (s : string) : option string :=
  if String.prefix "://" s then Some (String.substring 3 (String.length s - 3) s)
  else match s with
       | EmptyString => None
       | String _ t => after_scheme t
       end.

Fixpoint from_char (c : ascii) (s : string) : string :=
  match s with
  | EmptyString => EmptyString
  | String a t => if Ascii.eqb a c then s else from_char c t
  end.

Definition urlparse_basic (u : string) : option ParseResult :=
  match after_scheme u with
  | None => Some {| netloc := ""; path := u |}
  | Some rest =>
      let host := split_head slash rest in
      if Bool.eqb (str_in "[" host) (str_in "]" host)
      then Some {| netloc := host; path := from_char slash rest |}
      else None
  end.

(** ** Sample sessions and environments *)

Definition xqc : string := "https://kick.com/xqc".

(** A live payload whose first category is [c]. *)
Definition category_payload (c : Z) : ApiOutcome :=
  ApiData (Some {| ls_is_live := true; ls_categories := [Some c] |}).

Definition live_payload : ApiOutcome := category_payload 5.

Definition offline_payload : ApiOutcome := ApiData None.

(** A probe at time [t] whose first source answers [api]. *)
Definition live_env_at (t : Q) (api : ApiOutcome) : LiveEnv :=
  {| live_now := t; live_api := api; live_state := ScriptValue None;
     live_body := DomUpper "CHAT"; live_jitter := 0 |}.

(** A probe at time [t] where the fetch raises and the page state is [text]. *)
Definition state_env_at (t : Q) (text : string) : LiveEnv :=
  {| live_now := t; live_api := ApiRaise; live_state := ScriptValue (Some text);
     live_body := DomUpper "CHAT"; live_jitter := 0 |}.

(** A probe at time [t] where every source raises. *)
Definition failing_env_at (t : Q) : LiveEnv :=
  {| live_now := t; live_api := ApiRaise; live_state := ScriptRaise;
     live_body := DomRaise; live_jitter := 0 |}.

(** An iteration at time [t]: no stop, the API answers [api], the callbacks
    return, the accumulated campaign total is [total]. *)
Definition iter_at (t : Q) (api : ApiOutcome) (total : Z) : IterEnv :=
  {| owner_stop := NoStop; live_env := live_env_at t api;
     category_now := t; category_api := api;
     report_now := t; report_stamp := t;
     on_update_raises := false; cumulative_result := Some total |}.

(** An iteration whose progress callback raises. *)
Definition update_raises_at (t : Q) : IterEnv :=
  {| owner_stop := NoStop; live_env := live_env_at t live_payload;
     category_now := t; category_api := live_payload;
     report_now := t; report_stamp := t;
     on_update_raises := true; cumulative_result := Some 0%Z |}.

Definition with_stop (p : StopPoint) (e : IterEnv) : IterEnv :=
  {| owner_stop := p; live_env := live_env e;
     category_now := category_now e; category_api := category_api e;
     report_now := report_now e; report_stamp := report_stamp e;
     on_update_raises := on_update_raises e;
     cumulative_result := cumulative_result e |}.

Definition with_category (api : ApiOutcome) (e : IterEnv) : IterEnv :=
  {| owner_stop := owner_stop e; live_env := live_env e;
     category_now := category_now e; category_api := api;
     report_now := report_now e; report_stamp := report_stamp e;
     on_update_raises := on_update_raises e;
     cumulative_result := cumulative_result e |}.

(** [n] iterations one second apart, starting at time [t]. *)
Fixpoint ticks (n : nat) (t : Z) (api : ApiOutcome) (total : Z) : list IterEnv :=
  match n with
  | O => []
  | S n' => iter_at (inject_Z t) api total :: ticks n' (t + 1) api total
  end.

(** Fifty-nine live seconds, then a sixtieth iteration during which the
    owner calls [stop()]. *)
Definition stop_during_sixtieth : list IterEnv :=
  ticks 59 1000 live_payload 0
  ++ [with_stop StopMidIteration (iter_at 1059 live_payload 0)].

Definition start_ok : StartEnv :=
  {| make_chrome_driver_raises := false; get_base_raises := false;
     load_cookies_raises := false; get_url_raises := false |}.

Definition start_no_browser : StartEnv :=
  {| make_chrome_driver_raises := true; get_base_raises := false;
     load_cookies_raises := false; get_url_raises := false |}.

Definition start_no_page : StartEnv :=
  {| make_chrome_driver_raises := false; get_base_raises := false;
     load_cookies_raises := false; get_url_raises := true |}.

(** A session as [App._start_index] builds it: both callbacks, a new event,
    the default threshold. *)
Definition session (minutes : Z) (category : option Z) (cumulative : bool)
  : StreamWorker :=
  StreamWorker_init xqc minutes true true false 2 category cumulative.

(** The same session once its browser is up. *)
Definition started (minutes : Z) (category : option Z) (cumulative : bool)
  : StreamWorker :=
  set_driver (session minutes category cumulative) true.

(** A worker whose address the parser rejects. *)
Definition bad_address : StreamWorker :=
  StreamWorker_init "https://[kick.com/xqc" 0 true true false 2 None false.

(** The sample session after one probe at time 1000 that found the channel
    live, respectively offline. *)
Definition probed_live : StreamWorker :=
  worker_of (is_stream_live urlparse_basic (session 0 None false)
                            (live_env_at 1000 live_payload)).

Definition probed_offline : StreamWorker :=
  worker_of (is_stream_live urlparse_basic (session 0 None false)
                            (live_env_at 1000 offline_payload)).

Definition probed_live_started : StreamWorker :=
  worker_of (is_stream_live urlparse_basic (started 0 None false)
                            (live_env_at 1000 live_payload)).

Definition quoted (s : string) : string :=
  String dquote (String.append s (String dquote EmptyString)).

(** The text [{"livestream":{"is_live":true}}]. *)
Definition plain_state : string :=
  String.append "{"
    (String.append (quoted "livestream")
       (String.append ":{" (String.append (quoted "is_live") ":true}}"))).

(** The text ["is_live"\:\true]. *)
Definition escaped_state : string :=
  String.append (quoted "is_live")
    (String backslash (String ":" (String backslash "true"))).

(** The entry of the specification's example: siblings A, B, C, current
    channel A, tried list [A]; B is offline and C is live. *)
Definition chan_a : string := "https://kick.com/a".
Definition chan_b : string := "https://kick.com/b".
Definition chan_c : string := "https://kick.com/c".

Definition example_item : App.Item :=
  {| App.url := chan_a;
     App.campaign_id := Some "42";
     App.campaign_channels :=
       [App.ChannelStr chan_a; App.ChannelStr chan_b; App.ChannelStr chan_c];
     App.tried_channels := Some [chan_a] |}.

Definition only_c_live (u : string) : bool := String.eqb u chan_c.

(** An endpoint that answers "offline" for [b] and fails for everything
    else. *)
Definition urlopen_flaky (api_url : string) : HttpOutcome :=
  if String.eqb api_url "https://kick.com/api/v2/channels/b"
  then HttpData None else HttpRaise.

(** ** Vocabulary of the further properties of the worker *)

(** The event lists a call of [is_stream_live] can leave: nothing, or the
    sources in their order of priority up to the one that answered. *)
Definition source_orders : list (list Event) :=
  [ [];
    [EvLiveProbe "browser_api"];
    [EvLiveProbe "browser_api"; EvLiveProbe "page_state"];
    [EvLiveProbe "browser_api"; EvLiveProbe "page_state"; EvLiveProbe "dom"];
    [EvLiveProbe "dom"] ].

(** The flags a natural ending raises. *)
Definition reason_flags (reason : Exit) : bool * bool * bool :=
  match reason with
  | ExitCompleted => (true, false, false)
  | ExitOffline => (false, true, false)
  | ExitWrongCategory => (false, false, true)
  | ExitStopped | ExitException => (false, false, false)
  end.

(** The elapsed seconds handed to [on_update] and [on_finish] never go
    down, starting from [lo]. *)
Fixpoint reported_from (lo : Z) (evs : list Event) : Prop :=
  match evs with
  | [] => True
  | EvUpdate elapsed _ :: rest => (lo <= elapsed)%Z /\ reported_from elapsed rest
  | EvFinish elapsed _ :: rest => (lo <= elapsed)%Z /\ reported_from elapsed rest
  | _ :: rest => reported_from lo rest
  end.

(** The last value handed to a callback, [lo] when there was none. *)
Fixpoint last_reported (lo : Z) (evs : list Event) : Z :=
  match evs with
  | [] => lo
  | EvUpdate elapsed _ :: rest => last_reported elapsed rest
  | EvFinish elapsed _ :: rest => last_reported elapsed rest
  | _ :: rest => last_reported lo rest
  end.

Definition is_update (ev : Event) : bool :=
  match ev with EvUpdate _ _ => true | _ => false end.

Definition is_cumulative_call (ev : Event) : bool :=
  match ev with EvCumulative _ => true | _ => false end.

Definition is_category_probe (ev : Event) : bool :=
  match ev with EvCategoryProbe _ _ => true | _ => false end.

Definition is_quit (ev : Event) : bool :=
  match ev with EvQuit => true | _ => false end.

Definition is_finish (ev : Event) : bool :=
  match ev with EvFinish _ _ => true | _ => false end.

(** What one step does to the elapsed seconds: it adds at most one, and
    what it hands to the callbacks lies between the old and the new value,
    in order. *)
Definition tick_record (w : StreamWorker) (r : Step * list Event) : Prop :=
  (elapsed_seconds w <= elapsed_seconds (step_worker (fst r)))%Z
  /\ (elapsed_seconds (step_worker (fst r)) <= elapsed_seconds w + 1)%Z
  /\ reported_from (elapsed_seconds w) (snd r)
  /\ (last_reported (elapsed_seconds w) (snd r)
      <= elapsed_seconds (step_worker (fst r)))%Z.

(** What one step does to the counter of consecutive offline probes, for a
    threshold above zero: while the loop goes on the counter stays below the
    threshold, and the loop ends as offline with the counter at the
    threshold. *)
Definition counter_record (threshold : Z) (s : Step) : Prop :=
  match s with
  | Continue w' _ =>
      (0 <= _offline_fresh_checks w' < threshold)%Z
  | Break w' ExitOffline => _offline_fresh_checks w' = threshold
  | Break _ _ => True
  end.

(** ** The channel fallback of [App._start_index] ([ui/app.py]) *)

(** [item.get("tried_channels", [])]. *)
Definition tried_of (item : App.Item) : list string :=
  match App.tried_channels item with
  | Some l => l
  | None => []
  end.

(** Lines 783-830: the fallback tried before a session is started, when the
    direct probe finds the entry's channel offline.  It walks the siblings
    like [on_worker_finish] but asks only for [campaign_channels], and when
    it finds no sibling it assigns nothing: the tried list then changes only
    if the key existed, through the list object the item shares. *)
Definition _start_index_switch (is_live : string -> bool) (item : App.Item)
  : App.Item * bool :=
  if is_live (App.url item) then (item, false)
  else
    match App.campaign_channels item with
    | [] => (item, false)
    | _ :: _ =>
        let current_url := App.url item in
        let tried1 := App.mark_current current_url (tried_of item) in
        let all := App.all_channel_urls current_url (App.campaign_channels item) in
        let tried2 := App.reset_if_exhausted tried1 all in
        match App.scan is_live current_url tried2 (App.campaign_channels item) with
        | Some alt_url =>
            ({| App.url := alt_url;
                App.campaign_id := App.campaign_id item;
                App.campaign_channels := App.campaign_channels item;
                App.tried_channels := Some (tried2 ++ [alt_url]) |}, true)
        | None =>
            ({| App.url := current_url;
                App.campaign_id := App.campaign_id item;
                App.campaign_channels := App.campaign_channels item;
                App.tried_channels :=
                  match App.tried_channels item with
                  | Some _ => Some tried2
                  | None => None
                  end |}, false)
        end
    end.

(** ** The queue and [App.on_worker_finish] as a whole ([ui/app.py]) *)

(** A queue item: the keys of [App.Item] and the keys the bookkeeping of
    [on_worker_finish] reads or writes, each as [item.get] returns it. *)
Record QueueItem := {
  entry : App.Item;
  minutes : Z;
  is_global_drop : bool;
  cumulative_time : Z;
  finished : bool
}.

Definition with_entry (e : App.Item) (it : QueueItem) : QueueItem :=
  {| entry := e; minutes := minutes it; is_global_drop := is_global_drop it;
     cumulative_time := cumulative_time it; finished := finished it |}.

Definition with_cumulative_time (t : Z) (it : QueueItem) : QueueItem :=
  {| entry := entry it; minutes := minutes it; is_global_drop := is_global_drop it;
     cumulative_time := t; finished := finished it |}.

Definition with_finished (b : bool) (it : QueueItem) : QueueItem :=
  {| entry := entry it; minutes := minutes it; is_global_drop := is_global_drop it;
     cumulative_time := cumulative_time it; finished := b |}.

(** [item["tried_channels"] = []] *)
Definition clear_tried (it : QueueItem) : QueueItem :=
  with_entry {| App.url := App.url (entry it);
                App.campaign_id := App.campaign_id (entry it);
                App.campaign_channels := App.campaign_channels (entry it);
                App.tried_channels := Some [] |} it.

(** [other_item.get("campaign_id") == campaign_id] for a truthy
    [campaign_id]. *)
Definition same_campaign (campaign_id : string) (it : QueueItem) : bool :=
  match App.campaign_id (entry it) with
  | Some c => String.eqb c campaign_id
  | None => false
  end.

(** [items[i] = f(items[i])], for an index in range. *)
Fixpoint update_nth {A : Type} (i : nat) (f : A -> A) (l : list A) : list A :=
  match l, i with
  | [], _ => []
  | x :: rest, O => f x :: rest
  | x :: rest, S j => x :: update_nth j f rest
  end.

(** The closure [get_cumulative_time] of [_start_index], lines 879-886: the
    accessor a global-drop worker is given. *)
Definition get_cumulative_time (campaign_id : option string) (items : list QueueItem)
  : Z :=
  match campaign_id with
  | None => 0%Z
  | Some cid =>
      if negb (str_truthy cid) then 0%Z
      else
        fold_left
          (fun total other_item =>
             if same_campaign cid other_item
             then (total + cumulative_time other_item)%Z else total)
          items 0%Z
  end.

(** Lines 2752-2756. *)
Definition add_elapsed (cid : string) (elapsed : Z) (items : list QueueItem)
  : list QueueItem :=
  map (fun other_item =>
         if same_campaign cid other_item
         then with_cumulative_time (cumulative_time other_item + elapsed)%Z other_item
         else other_item)
      items.

(** Lines 2769-2771. *)
Definition mark_campaign_finished (cid : string) (items : list QueueItem)
  : list QueueItem :=
  map (fun other_item =>
         if same_campaign cid other_item then with_finished true other_item
         else other_item)
      items.

(** Lines 2749-2776: the cumulative bookkeeping of a global drop; the
    result carries [completed_value]. *)
Definition track_cumulative (items : list QueueItem) (i : nat) (item : QueueItem)
    (elapsed : Z) (completed : bool) : list QueueItem * bool :=
  match App.campaign_id (entry item) with
  | Some cid =>
      if is_global_drop item && str_truthy cid then
        let items1 := add_elapsed cid elapsed items in
        match nth_error items1 i with
        | Some item1 =>
            if (0 <? minutes item1)%Z && (minutes item1 <=? cumulative_time item1 / 60)%Z
            then (mark_campaign_finished cid items1, true)
            else (items1, false)
        | None => (items1, false)
        end
      else (items, completed)
  | None => (items, completed)
  end.

(** [ui_finish] of [on_worker_finish], lines 2731-2856, without the widget
    updates and the continuation of the queue: the items afterwards and
    [switched].  [worker] is [self.workers.get(idx)]. *)
Definition on_worker_finish (is_live : string -> bool) (items : list QueueItem)
    (worker : option StreamWorker) (idx elapsed : Z) (completed : bool)
  : list QueueItem * bool :=
  if (idx <? 0)%Z || (Z.of_nat (length items) <=? idx)%Z then (items, false)
  else
    let i := Z.to_nat idx in
    match nth_error items i with
    | None => (items, false)
    | Some item =>
        let ended_offline :=
          match worker with Some w => ended_because_offline w | None => false end in
        let ended_wrong_category :=
          match worker with
          | Some w => ended_because_wrong_category w
          | None => false
          end in
        let '(items1, completed_value) :=
          track_cumulative items i item elapsed completed in
        if completed_value then
          (update_nth i
             (fun it => clear_tried (if is_global_drop item then it
                                     else with_finished true it))
             items1, false)
        else if ended_offline || ended_wrong_category then
          match nth_error items1 i with
          | Some item1 =>
              let '(e, switched) := App.on_worker_finish_switch is_live (entry item1) in
              (update_nth i (with_entry e) items1, switched)
          | None => (items1, false)
          end
        else (items1, false)
    end.

(** What the ledger reads of an item. *)
Definition ledger_view (it : QueueItem) : option string * Z :=
  (App.campaign_id (entry it), cumulative_time it).

(** The items of a campaign. *)
Definition campaign_size (cid : string) (items : list QueueItem) : nat :=
  length (filter (same_campaign cid) items).

(** Every item of the campaign carries the ledger value [c]. *)
Definition ledger_is (cid : string) (c : Z) (items : list QueueItem) : Prop :=
  forall it, In it items -> same_campaign cid it = true -> cumulative_time it = c.

(** A queue of three streamers of one global drop and one other entry. *)
Definition global_item (u : string) : QueueItem :=
  {| entry := {| App.url := u; App.campaign_id := Some "42";
                 App.campaign_channels :=
                   [App.ChannelStr chan_a; App.ChannelStr chan_b; App.ChannelStr chan_c];
                 App.tried_channels := None |};
     minutes := 120; is_global_drop := true; cumulative_time := 0; finished := false |}.

Definition plain_item (u : string) : QueueItem :=
  {| entry := {| App.url := u; App.campaign_id := None; App.campaign_channels := [];
                 App.tried_channels := None |};
     minutes := 1; is_global_drop := false; cumulative_time := 0; finished := false |}.

Definition sample_queue : list QueueItem :=
  [global_item chan_a; plain_item xqc; global_item chan_b; global_item chan_c].

(** ** The stored configuration ([core/config.py]) *)

(** A JSON value as [json.load] returns it (numbers: the integers the
    program writes). *)
#[local] Unset Elimination Schemes.
Inductive Json :=
| JNull
| JBool (b : bool)
| JInt (z : Z)
| JStr (s : string)
| JList (l : list Json)
| JDict (d : list (string * Json)).
#[local] Set Elimination Schemes.

(** A Python dict with string keys: each key once, in insertion order. *)
Definition Dict := list (string * Json).

(** [d.get(k)] *)
Fixpoint dict_get {V : Type} (k : string) (d : list (string * V)) : option V :=
  match d with
  | [] => None
  | (k', v) :: rest => if String.eqb k' k then Some v else dict_get k rest
  end.

(** [k in d] *)
Definition dict_has {V : Type} (k : string) (d : list (string * V)) : bool :=
  match dict_get k d with
  | Some _ => true
  | None => false
  end.

(** [d[k] = v]: the value is replaced where the key is, a new key goes to
    the end. *)
Fixpoint dict_set {V : Type} (k : string) (v : V) (d : list (string * V))
  : list (string * V) :=
  match d with
  | [] => [(k, v)]
  | (k', v') :: rest =>
      if String.eqb k' k then (k', v) :: rest else (k', v') :: dict_set k v rest
  end.

(** [d.get(k, default)] *)
Definition dict_get_default {V : Type} (k : string) (default : V)
    (d : list (string * V)) : V :=
  match dict_get k d with
  | Some v => v
  | None => default
  end.

(** [bool(v)] *)
Definition json_truthy (v : Json) : bool :=
  match v with
  | JNull => false
  | JBool b => b
  | JInt z => negb (z =? 0)%Z
  | JStr s => str_truthy s
  | JList l => match l with [] => false | _ :: _ => true end
  | JDict d => match d with [] => false | _ :: _ => true end
  end.

Module Config.

(** [if k not in item: item[k] = v] *)
Definition set_if_missing (k : string) (v : Json) (item : Dict) : Dict :=
  if negb (dict_has k item) then dict_set k v item else item.

(** The body of the migration loop of [load], lines 32-44. *)
Definition migrate (item : Dict) : Dict :=
  let item := set_if_missing "campaign_id" JNull item in
  let item := set_if_missing "campaign_channels" (JList []) item in
  let item := set_if_missing "required_category_id" JNull item in
  let item := set_if_missing "is_global_drop" (JBool false) item in
  let item := set_if_missing "cumulative_time" (JInt 0) item in
  set_if_missing "tried_channels" (JList []) item.

(** The keys the migration looks after, with the value each one gets when
    it is missing. *)
Definition migrated_keys : list (string * Json) :=
  [("campaign_id", JNull); ("campaign_channels", JList []);
   ("required_category_id", JNull); ("is_global_drop", JBool false);
   ("cumulative_time", JInt 0); ("tried_channels", JList [])].

(** The items after [load], lines 26-56, for a configuration file whose
    "items" are the list of objects that [save] writes; [None] when there is
    no file or no such key. *)
Definition load (stored : option (list Dict)) : list Dict :=
  match stored with
  | Some items => map migrate items
  | None => []
  end.

(** [add], lines 76-88: the items afterwards. *)
Definition add (items : list Dict) (url minutes campaign_id campaign_channels
                                      required_category_id is_global_drop : Json)
  : list Dict :=
  items ++ [[("url", url);
             ("minutes", minutes);
             ("campaign_id", campaign_id);
             ("campaign_channels",
              if json_truthy campaign_channels then campaign_channels else JList []);
             ("required_category_id", required_category_id);
             ("is_global_drop", is_global_drop);
             ("cumulative_time", JInt 0)]].

(** [remove], lines 90-93: [del self.items[idx]], which counts a negative
    index from the end and raises [IndexError] ([None]) out of range. *)
Definition remove {A : Type} (items : list A) (idx : Z) : option (list A) :=
  let n := Z.of_nat (length items) in
  if (idx <? - n)%Z || (n <=? idx)%Z then None
  else
    let i := Z.to_nat (if (idx <? 0)%Z then idx + n else idx)%Z in
    Some (firstn i items ++ skipn (S i) items).

End Config.

(** ** The queue: adding, finding and removing entries ([ui/app.py]) *)

(** [_is_channel_in_list], lines 2399-2401. *)
Definition _is_channel_in_list (url : string) (items : list QueueItem) : bool :=
  existsb (fun item => String.eqb (App.url (entry item)) url) items.

(** [_find_channel_index], lines 2403-2408: the loop from position [idx]. *)
Fixpoint find_channel_from (idx : Z) (url : string) (items : list QueueItem)
  : option Z :=
  match items with
  | [] => None
  | item :: rest =>
      if String.eqb (App.url (entry item)) url then Some idx
      else find_channel_from (idx + 1) url rest
  end.

Definition _find_channel_index (url : string) (items : list QueueItem) : option Z :=
  find_channel_from 0 url items.

(** The running workers: the dict [self.workers], from queue position to
    worker. *)
Definition Workers (W : Type) := list (Z * W).

Fixpoint workers_get {W : Type} (k : Z) (ws : Workers W) : option W :=
  match ws with
  | [] => None
  | (k', w) :: rest => if (k' =? k)%Z then Some w else workers_get k rest
  end.

(** [del self.workers[idx]] *)
Definition workers_del {W : Type} (k : Z) (ws : Workers W) : Workers W :=
  filter (fun p => negb (fst p =? k)%Z) ws.

(** [sorted(self.workers.keys())] *)
Fixpoint insert_key (k : Z) (l : list Z) : list Z :=
  match l with
  | [] => [k]
  | x :: rest => if (k <=? x)%Z then k :: l else x :: insert_key k rest
  end.

Definition sorted_keys {W : Type} (ws : Workers W) : list Z :=
  fold_right insert_key [] (map fst ws).

(** [enumerate(l)], counting from [start]. *)
Fixpoint enumerate_from {A : Type} (start : Z) (l : list A) : list (Z * A) :=
  match l with
  | [] => []
  | x :: rest => (start, x) :: enumerate_from (start + 1) rest
  end.

(** The dict comprehension of lines 751-755 and 2470-2474. *)
Definition reindex {W : Type} (ws : Workers W) (n_items : Z) : Workers W :=
  flat_map
    (fun p : Z * Z =>
       let (new_i, old_i) := p in
       if (old_i <? n_items)%Z then
         match workers_get old_i ws with
         | Some w => [(new_i, w)]
         | None => []
         end
       else [])
    (enumerate_from 0 (sorted_keys ws)).

(** [remove_selected], lines 742-758, for the selected position [idx]: the
    items, the workers and the workers that were stopped; [None] when
    [Config.remove] raises. *)
Definition remove_selected {W : Type} (items : list QueueItem) (workers : Workers W)
    (idx : Z) : option (list QueueItem * Workers W * list W) :=
  match Config.remove items idx with
  | None => None
  | Some items' =>
      let '(workers1, stopped) :=
        match workers_get idx workers with
        | Some w => (workers_del idx workers, [w])
        | None => (workers, [])
        end in
      Some (items', reindex workers1 (Z.of_nat (length items')), stopped)
  end.

(** [_remove_drop_channel], lines 2461-2479; every exception is caught and
    leaves what was done so far, so a failure shows as nothing removed. *)
Definition _remove_drop_channel {W : Type} (items : list QueueItem)
    (workers : Workers W) (url : string) : list QueueItem * Workers W * list W :=
  match _find_channel_index url items with
  | None => (items, workers, [])
  | Some idx =>
      match remove_selected items workers idx with
      | Some r => r
      | None => (items, workers, [])
      end
  end.

(** The target of a campaign, lines 2487-2496 (and 2418-2427, 1668-1676):
    the largest [required_units] of its rewards, [default] when there is no
    reward above zero. *)
Definition max_required (rewards : list Z) : Z :=
  fold_left (fun max_required required_units =>
               if (max_required <? required_units)%Z then required_units
               else max_required)
            rewards 0%Z.

Definition campaign_minutes (default : Z) (rewards : list Z) : Z :=
  if (0 <? max_required rewards)%Z then max_required rewards else default.

(** The item [Config.add] appends, as a [QueueItem]. *)
Definition added_item (url : string) (minutes0 : Z) (campaign_id : option string)
    (campaign_channels : list App.Channel) (is_global_drop0 : bool) : QueueItem :=
  {| entry := {| App.url := url; App.campaign_id := campaign_id;
                 App.campaign_channels := campaign_channels;
                 App.tried_channels := None |};
     minutes := minutes0; is_global_drop := is_global_drop0;
     cumulative_time := 0; finished := false |}.

(** The loop of [_auto_find_streamers_for_game], lines 1685-1712, over the
    addresses of the streamers found: the queue, [count] and [skipped]. *)
Fixpoint add_streamers (minutes0 : Z) (campaign_id : option string)
    (all_streamers : list App.Channel) (streamers : list string)
    (items : list QueueItem) (count skipped : nat) : list QueueItem * nat * nat :=
  match streamers with
  | [] => (items, count, skipped)
  | url :: rest =>
      if _is_channel_in_list url items
      then add_streamers minutes0 campaign_id all_streamers rest items count (S skipped)
      else add_streamers minutes0 campaign_id all_streamers rest
             (items ++ [added_item url minutes0 campaign_id all_streamers true])
             (S count) skipped
  end.

(** The addresses of a queue. *)
Definition queue_urls (items : list QueueItem) : list string :=
  map (fun item => App.url (entry item)) items.

(** ** Translations ([utils/translations.py]) *)

Module Translations.

(** The messages of one language, and the tables by language code. *)
Definition Table := list (string * string).
Definition Tables := list (string * Table).

(** [sorted(set(builtin.keys()) | set(external.keys()))] *)
Fixpoint insert_lang (k : string) (l : list string) : list string :=
  match l with
  | [] => [k]
  | x :: rest =>
      match String.compare k x with
      | Eq => l
      | Lt => k :: l
      | Gt => x :: insert_lang k rest
      end
  end.

Definition languages (external builtin : Tables) : list string :=
  fold_right insert_lang [] (map fst builtin ++ map fst external).

(** [merged = dict(base); merged.update(other)] *)
Definition dict_update {V : Type} (base other : list (string * V))
  : list (string * V) :=
  fold_left (fun merged kv => dict_set (fst kv) (snd kv) merged) other base.

(** [_merge_fallback], lines 219-227. *)
Definition _merge_fallback (external builtin : Tables) : Tables :=
  map (fun lang =>
         (lang, dict_update (dict_get_default lang [] builtin)
                            (dict_get_default lang [] external)))
      (languages external builtin).

(** [translate], lines 234-236, over the merged tables. *)
Definition translate (TRANSLATIONS : Tables) (lang key : string) : string :=
  dict_get_default key key
    (dict_get_default (if str_truthy lang then lang else "fr")
                      (dict_get_default "fr" [] TRANSLATIONS)
                      TRANSLATIONS).

(** The message of [key] in language [l]: the external one, else the
    built-in one, else the key itself. *)
Definition message (external builtin : Tables) (l key : string) : string :=
  match dict_get key (dict_get_default l [] external) with
  | Some v => v
  | None => dict_get_default key key (dict_get_default l [] builtin)
  end.

Definition known (external builtin : Tables) (l : string) : bool :=
  dict_has l external || dict_has l builtin.

End Translations.

(** Built-in French and English messages, and an external file that changes
    one English message. *)
Definition builtin_sample : Translations.Tables :=
  [("fr", [("retry", "Recommencer"); ("error", "Erreur")]);
   ("en", [("retry", "Retry")])].

Definition external_sample : Translations.Tables :=
  [("en", [("retry", "Try again")])].

(** ** Channel addresses ([core/api.py]) *)

(** [f"https://kick.com/{slug}"], the address given to a channel found by
    [fetch_live_streamers_by_category] (line 194) and by the campaign
    fetchers (lines 333 and 576), for a slug that is a string. *)
Definition channel_address (slug : string) : string :=
  String.append "https://kick.com/" slug.

(** * Properties *)

(** ** Arithmetic on readings of the clock *)

Lemma Qltb_true (x y : Q) : Qltb x y = true <-> (x < y)%Q.
Proof.
  unfold Qltb. rewrite negb_true_iff. split; intro H.
  - destruct (Qlt_le_dec x y) as [Hlt | Hle]; [exact Hlt |].
    apply Qle_bool_iff in Hle. congruence.
  - destruct (Qle_bool y x) eqn:E; [| reflexivity].
    apply Qle_bool_iff in E. exfalso. apply (Qlt_not_le _ _ H E).
Qed.

Lemma Qltb_false (x y : Q) : Qltb x y = false <-> (y <= x)%Q.
Proof.
  unfold Qltb. rewrite negb_false_iff. apply Qle_bool_iff.
Qed.

Example xqc_username : _kick_username_from_url urlparse_basic xqc = Some "xqc".
Proof. reflexivity. Qed.

Example bracket_rejected : urlparse_basic "https://[kick.com/xqc" = None.
Proof. reflexivity. Qed.

(** ** The liveness oracle *)

Lemma no_marker_inconclusive (body : string) :
  no_offline_marker body -> dom_source (DomUpper body) = None.
Proof.
  intro H. unfold dom_source.
  destruct (existsb (fun m => str_in m body) offline_markers) eqn:E.
  - apply existsb_exists in E. destruct E as [m [Hin Hm]].
    rewrite (H m Hin) in Hm. discriminate.
  - reflexivity.
Qed.

Lemma dom_source_offline_only (d : DomOutcome) : dom_source d <> Some true.
Proof.
  destruct d as [| body]; simpl; [discriminate |].
  match goal with |- context [if ?b then _ else _] => destruct b end; discriminate.
Qed.

Lemma dom_or_cached_inconclusive
    (w : StreamWorker) (e : LiveEnv) (evs : list Event) :
  dom_source (live_body e) = None ->
  dom_or_cached w e evs
  = (_last_live_value w, set_last_live_source w "unknown", evs ++ [EvLiveProbe "dom"]).
Proof. intro H. unfold dom_or_cached. rewrite H. reflexivity. Qed.

(** C9. A call of [is_stream_live] made while
    [now - _last_live_check] is below [_live_check_interval] returns the
    cached [_last_live_value], queries no source (the event list is empty)
    and leaves the worker, hence the cached value, interval and check time,
    as it was. *)
Theorem is_stream_live_cached
    (urlparse : string -> option ParseResult) (w : StreamWorker) (e : LiveEnv) :
  (live_now e - _last_live_check w < _live_check_interval w)%Q ->
  is_stream_live urlparse w e = (_last_live_value w, w, []).
Proof.
  intro H. unfold is_stream_live.
  apply Qltb_true in H. rewrite H. reflexivity.
Qed.

Lemma is_stream_live_cached_witness :
  is_stream_live urlparse_basic probed_live (live_env_at 1003 offline_payload)
  = (true, probed_live, []).
Proof.
  apply (is_stream_live_cached urlparse_basic probed_live
           (live_env_at 1003 offline_payload)).
  vm_compute. reflexivity.
Defined.

(** C6. The DOM heuristic never answers "live".  When a probe is due, the
    sources before it gave no answer (or were skipped for want of a user
    name) and the page text, upper-cased by Python as line 282 does, holds
    none of the offline phrases, or reading it raised, the call returns the
    cached value, leaves it unchanged and records the source "unknown"; this
    covers the case where every source raises.  A new worker starts with the
    cached value [True]. *)
Theorem dom_heuristic_falls_back_to_cache
    (urlparse : string -> option ParseResult) (w : StreamWorker) (e : LiveEnv) :
  (_live_check_interval w <= live_now e - _last_live_check w)%Q ->
  (_kick_username_from_url urlparse (url w) = None \/
   (browser_api_source (live_api e) = None /\
    page_state_source (live_state e) = None)) ->
  (live_body e = DomRaise \/
   exists body, live_body e = DomUpper body /\ no_offline_marker body) ->
  (forall d, dom_source d <> Some true) /\
  value_of (is_stream_live urlparse w e) = _last_live_value w /\
  _last_live_value (worker_of (is_stream_live urlparse w e)) = _last_live_value w /\
  _last_live_source (worker_of (is_stream_live urlparse w e)) = "unknown" /\
  (forall u m up fin st thr cat cum,
      _last_live_value (StreamWorker_init u m up fin st thr cat cum) = true).
Proof.
  intros Hdue Hearlier Hbody.
  assert (Hdom : dom_source (live_body e) = None).
  { destruct Hbody as [Hr | [body [Ht Hno]]]; rewrite ?Hr, ?Ht.
    - reflexivity.
    - apply no_marker_inconclusive, Hno. }
  split; [apply dom_source_offline_only |].
  assert (Hprobe : exists evs,
             probe_sources urlparse w e
             = (_last_live_value w, set_last_live_source w "unknown", evs)).
  { unfold probe_sources.
    destruct Hearlier as [Hu | [Ha Hs]].
    - rewrite Hu. eexists. apply dom_or_cached_inconclusive, Hdom.
    - destruct (_kick_username_from_url urlparse (url w)).
      + rewrite Ha, Hs. eexists. apply dom_or_cached_inconclusive, Hdom.
      + eexists. apply dom_or_cached_inconclusive, Hdom. }
  destruct Hprobe as [evs Hprobe].
  unfold is_stream_live. apply Qltb_false in Hdue. rewrite Hdue, Hprobe.
  repeat split.
Qed.

Lemma sample_text_has_no_marker : no_offline_marker "CHAT".
Proof.
  intros m Hin. simpl in Hin.
  repeat (destruct Hin as [<- | Hin]; [reflexivity |]). contradiction.
Qed.

Lemma dom_heuristic_falls_back_to_cache_witness :
  value_of (is_stream_live urlparse_basic probed_offline (state_env_at 1010 "{}")) = false
  /\ _last_live_source
       (worker_of (is_stream_live urlparse_basic probed_offline (state_env_at 1010 "{}")))
     = "unknown".
Proof.
  assert (Hdue : (_live_check_interval probed_offline
                  <= live_now (state_env_at 1010 "{}") - _last_live_check probed_offline)%Q)
    by (vm_compute; discriminate).
  assert (Hearlier :
            _kick_username_from_url urlparse_basic (url probed_offline) = None \/
            (browser_api_source (live_api (state_env_at 1010 "{}")) = None /\
             page_state_source (live_state (state_env_at 1010 "{}")) = None))
    by (right; split; reflexivity).
  assert (Hbody :
            live_body (state_env_at 1010 "{}") = DomRaise \/
            exists body, live_body (state_env_at 1010 "{}") = DomUpper body
                         /\ no_offline_marker body)
    by (right; exists "CHAT"; split; [reflexivity | exact sample_text_has_no_marker]).
  destruct (dom_heuristic_falls_back_to_cache urlparse_basic probed_offline
              (state_env_at 1010 "{}") Hdue Hearlier Hbody)
    as [_ [Hv [_ [Hs _]]]].
  split; [exact Hv | exact Hs].
Defined.

Example every_source_raises :
  is_stream_live urlparse_basic probed_offline (failing_env_at 1010)
  = (false,
     set_last_live_check (set_last_live_source probed_offline "unknown") 1010,
     [EvLiveProbe "browser_api"; EvLiveProbe "page_state"; EvLiveProbe "dom"]).
Proof. vm_compute. reflexivity. Qed.

Example offline_phrase_is_found :
  dom_source (DomUpper "THIS CHANNEL IS OFFLINE RIGHT NOW") = Some false.
Proof. reflexivity. Qed.

(** A page that spells "offline" with the ligature U+FB04: Python's
    [upper()] writes the ligature out as FFL, so the text that reaches the
    test is [STREAM OFFLINE] and the heuristic answers. *)
Example ligature_is_written_out :
  is_stream_live urlparse_basic probed_live
    {| live_now := 1010; live_api := ApiRaise; live_state := ScriptRaise;
       live_body := DomUpper "STREAM OFFLINE"; live_jitter := 0 |}
  = (false,
     set_live_check_interval
       (set_last_live_check (record_live probed_live false "dom_offline") 1010) 5,
     [EvLiveProbe "browser_api"; EvLiveProbe "page_state"; EvLiveProbe "dom"]).
Proof. vm_compute. reflexivity. Qed.

(** *** What the pattern of the page-state scrape needs *)

Lemma lower_is_backslash (b : ascii) :
  Ascii.eqb (ascii_lower backslash) (ascii_lower b) = true -> b = backslash.
Proof.
  destruct b as [b0 b1 b2 b3 b4 b5 b6 b7].
  destruct b0, b1, b2, b3, b4, b5, b6, b7; vm_compute; intro H;
    first [reflexivity | discriminate H].
Qed.

Lemma drop_prefix_suffix (p : string) :
  forall s r, drop_prefix p s = Some r -> s = String.append p r.
Proof.
  induction p as [| a p IH]; intros s r H; simpl in H.
  - injection H as <-. reflexivity.
  - destruct s as [| b s']; [discriminate |].
    destruct (Ascii.eqb a b) eqn:E; [| discriminate].
    apply Ascii.eqb_eq in E. subst b. simpl. rewrite (IH _ _ H). reflexivity.
Qed.

Lemma drop_first_prefix_suffix (ps : list string) (s r : string) :
  drop_first_prefix ps s = Some r -> exists pre, s = String.append pre r.
Proof.
  induction ps as [| p rest IH]; simpl; [discriminate |].
  destruct (drop_prefix p s) as [r' |] eqn:E.
  - intro H. injection H as <-. exists p. apply drop_prefix_suffix, E.
  - exact IH.
Qed.

Lemma re_char_suffix (a : ascii) (s r : string) :
  re_char a s = Some r -> exists pre, s = String.append pre r.
Proof.
  unfold re_char. destruct s as [| b s']; [discriminate |].
  destruct (Ascii.eqb (ascii_lower a) (ascii_lower b)).
  - intro H. injection H as <-. exists (String b EmptyString). reflexivity.
  - apply drop_first_prefix_suffix.
Qed.

Lemma append_assoc (a b c : string) :
  String.append (String.append a b) c = String.append a (String.append b c).
Proof. induction a as [| x a IH]; simpl; [reflexivity | rewrite IH; reflexivity]. Qed.

Lemma re_literal_suffix (p : string) :
  forall s r, re_literal p s = Some r -> exists pre, s = String.append pre r.
Proof.
  induction p as [| a p IH]; intros s r H; cbn [re_literal] in H.
  - injection H as <-. exists EmptyString. reflexivity.
  - unfold opt_bind in H. destruct (re_char a s) as [r1 |] eqn:E; [| discriminate].
    destruct (re_char_suffix _ _ _ E) as [pre1 ->].
    destruct (IH _ _ H) as [pre2 ->].
    exists (String.append pre1 pre2). symmetry. apply append_assoc.
Qed.

Lemma re_literal_backslash (s r : string) :
  re_literal (String backslash EmptyString) s = Some r -> s = String backslash r.
Proof.
  cbn [re_literal]. unfold opt_bind, re_char.
  destruct s as [| b s']; [discriminate |].
  destruct (Ascii.eqb (ascii_lower backslash) (ascii_lower b)) eqn:E.
  - intro H. injection H as <-. rewrite (lower_is_backslash b E). reflexivity.
  - vm_compute. discriminate.
Qed.

Lemma str_in_append (m pre post : string) :
  str_in m post = true -> str_in m (String.append pre post) = true.
Proof.
  intro H. induction pre as [| c pre IH]; [exact H |].
  cbn [String.append str_in]. rewrite IH.
  destruct (String.prefix m (String c (String.append pre post))); reflexivity.
Qed.

Lemma str_in_head (c : ascii) (s : string) :
  str_in (String c EmptyString) (String c s) = true.
Proof.
  cbn [str_in String.prefix].
  destruct (ascii_dec c c) as [_ | Hne]; [| contradiction].
  destruct s; reflexivity.
Qed.

Lemma pattern_here_needs_backslash (s : string) (b : bool) :
  is_live_pattern_here s = Some b ->
  str_in (String backslash EmptyString) s = true.
Proof.
  unfold is_live_pattern_here, opt_bind.
  destruct (re_literal (String dquote "is_live") s) as [r1 |] eqn:E1; [| discriminate].
  destruct (re_literal (String dquote EmptyString) r1) as [r2 |] eqn:E2; [| discriminate].
  destruct (re_literal (String backslash EmptyString) r2) as [r3 |] eqn:E3;
    [| discriminate].
  intros _.
  destruct (re_literal_suffix _ _ _ E1) as [pre1 ->].
  destruct (re_literal_suffix _ _ _ E2) as [pre2 ->].
  rewrite (re_literal_backslash _ _ E3).
  apply str_in_append, str_in_append, str_in_head.
Qed.

(** A match needs a backslash in the text: JSON text that has none, whatever
    its "is_live" field says, gets no answer from the page-state source. *)
Lemma page_state_needs_backslash (state_text : string) :
  str_in (String backslash EmptyString) state_text = false ->
  page_state_source (ScriptValue (Some state_text)) = None.
Proof.
  intro Hno. cbn [page_state_source].
  destruct (str_truthy state_text); [| reflexivity].
  induction state_text as [| c t IH]; cbn [re_search_is_live].
  - reflexivity.
  - destruct (is_live_pattern_here (String c t)) as [b |] eqn:E.
    + apply pattern_here_needs_backslash in E. congruence.
    + apply IH. cbn [str_in] in Hno.
      destruct (String.prefix (String backslash EmptyString) (String c t));
        [discriminate | exact Hno].
Qed.

(** The pattern does fold case the way [re.IGNORECASE] does on a [str]:
    the long s, U+017F, stands for an [s]. *)
Example long_s_matches :
  page_state_source
    (ScriptValue
       (Some (String.append (quoted "is_live")
                (String backslash
                   (String "197" (String "191"
                      (String ":" (String backslash "TRUE"))))))))
  = Some true.
Proof. vm_compute. reflexivity. Qed.

(** C7. The page-state source does not read the field out of JSON text.
    The pattern asks for a backslash after the closing quote of the key and
    another after the colon, so the text [{"livestream":{"is_live":true}}]
    gives no match: with the fetch failing, the call returns the cached
    [False] under the source "unknown" where "page_state" and [True] were
    due.  The text ["is_live"\:\true] is what the pattern accepts. *)
Theorem page_state_misses_json_field :
  page_state_source (ScriptValue (Some plain_state)) = None /\
  value_of (is_stream_live urlparse_basic probed_offline (state_env_at 1010 plain_state))
  = false /\
  _last_live_source
    (worker_of (is_stream_live urlparse_basic probed_offline
                               (state_env_at 1010 plain_state)))
  = "unknown" /\
  page_state_source (ScriptValue (Some escaped_state)) = Some true.
Proof. repeat split; vm_compute; reflexivity. Qed.

(** ** Frame properties of the phases *)

Ltac case_split :=
  repeat match goal with
         | |- context [if ?b then _ else _] => destruct b eqn:?
         | |- context [match ?x with _ => _ end] => destruct x eqn:?
         end.

Lemma probe_sources_frame
    (urlparse : string -> option ParseResult) (w : StreamWorker) (e : LiveEnv) :
  outside_cache (worker_of (probe_sources urlparse w e)) = outside_cache w.
Proof.
  unfold probe_sources, dom_or_cached, worker_of.
  case_split; reflexivity.
Qed.

Lemma probe_sources_events
    (urlparse : string -> option ParseResult) (w : StreamWorker) (e : LiveEnv) :
  forallb is_live_probe (snd (probe_sources urlparse w e)) = true.
Proof.
  unfold probe_sources, dom_or_cached.
  case_split; reflexivity.
Qed.

Lemma is_stream_live_frame
    (urlparse : string -> option ParseResult) (w : StreamWorker) (e : LiveEnv) :
  outside_cache (worker_of (is_stream_live urlparse w e)) = outside_cache w.
Proof.
  unfold is_stream_live.
  destruct (Qltb (live_now e - _last_live_check w) (_live_check_interval w));
    [reflexivity |].
  pose proof (probe_sources_frame urlparse w e) as H.
  destruct (probe_sources urlparse w e) as [[v w1] evs].
  exact H.
Qed.

Lemma is_stream_live_events
    (urlparse : string -> option ParseResult) (w : StreamWorker) (e : LiveEnv) :
  forallb is_live_probe (snd (is_stream_live urlparse w e)) = true.
Proof.
  unfold is_stream_live.
  destruct (Qltb (live_now e - _last_live_check w) (_live_check_interval w));
    [reflexivity |].
  pose proof (probe_sources_events urlparse w e) as H.
  destruct (probe_sources urlparse w e) as [[v w1] evs].
  exact H.
Qed.

(** After a probe the interval is at least 4 seconds. *)
Lemma is_stream_live_interval
    (urlparse : string -> option ParseResult) (w : StreamWorker) (e : LiveEnv) :
  (0 < _live_check_interval w)%Q ->
  (0 < _live_check_interval (worker_of (is_stream_live urlparse w e)))%Q.
Proof.
  intro Hpos. unfold is_stream_live, worker_of.
  destruct (Qltb (live_now e - _last_live_check w) (_live_check_interval w));
    [exact Hpos |].
  destruct (probe_sources urlparse w e) as [[v w1] evs]. simpl.
  destruct (Qltb 4 _) eqn:E.
  - apply Qltb_true in E. lra.
  - reflexivity.
Qed.

(** The test of line 119 tells a probe from a cached read. *)
Lemma fresh_check_iff_probed
    (urlparse : string -> option ParseResult) (w : StreamWorker) (e : LiveEnv) :
  (0 < _live_check_interval w)%Q ->
  negb (Qeq_bool (_last_live_check (worker_of (is_stream_live urlparse w e)))
                 (_last_live_check w))
  = negb (Qltb (live_now e - _last_live_check w) (_live_check_interval w)).
Proof.
  intro Hpos. unfold is_stream_live, worker_of.
  destruct (Qltb (live_now e - _last_live_check w) (_live_check_interval w)) eqn:E.
  - simpl. rewrite (proj2 (Qeq_bool_iff _ _) (Qeq_refl _)). reflexivity.
  - destruct (probe_sources urlparse w e) as [[v w1] evs]. simpl.
    apply Qltb_false in E.
    destruct (Qeq_bool (live_now e) (_last_live_check w)) eqn:Eq; [| reflexivity].
    apply Qeq_bool_iff in Eq. lra.
Qed.

Ltac unfold_tail :=
  unfold category_check, tick_and_report, completion_check, with_events.

Lemma category_check_flags
    (urlparse : string -> option ParseResult) (w : StreamWorker) (last_report : Q)
    (live : bool) (e : IterEnv) :
  flags_follow w (fst (category_check urlparse w last_report live e)).
Proof. unfold_tail. case_split; reflexivity. Qed.

Lemma category_check_no_finish
    (urlparse : string -> option ParseResult) (w : StreamWorker) (last_report : Q)
    (live : bool) (e : IterEnv) :
  no_finish (snd (category_check urlparse w last_report live e)).
Proof.
  unfold_tail. case_split; intros el c H; simpl in H; intuition discriminate.
Qed.

Lemma category_check_frame
    (urlparse : string -> option ParseResult) (w : StreamWorker) (last_report : Q)
    (live : bool) (e : IterEnv) :
  after_offline_test (step_worker (fst (category_check urlparse w last_report live e)))
  = after_offline_test w.
Proof. unfold_tail. case_split; reflexivity. Qed.

Lemma category_check_exit
    (urlparse : string -> option ParseResult) (w : StreamWorker) (last_report : Q)
    (live : bool) (e : IterEnv) :
  step_exit (fst (category_check urlparse w last_report live e)) <> Some ExitOffline /\
  step_exit (fst (category_check urlparse w last_report live e)) <> Some ExitStopped.
Proof. unfold_tail. case_split; split; discriminate. Qed.

(** ** Flags, configuration and events along the loop *)

Lemma flags_follow_from (w w1 : StreamWorker) (s : Step) :
  flags w1 = flags w -> flags_follow w1 s -> flags_follow w s.
Proof.
  unfold flags. intros H Hs. injection H as Hc Ho Hw.
  destruct s as [w' lr | w' reason]; [| destruct reason]; simpl in *;
    rewrite Hs; unfold flags; congruence.
Qed.

Lemma outside_cache_flags (w w1 : StreamWorker) :
  outside_cache w1 = outside_cache w -> flags w1 = flags w.
Proof. unfold outside_cache, flags. intro H. injection H. intros. congruence. Qed.

Lemma outside_cache_config (w w1 : StreamWorker) :
  outside_cache w1 = outside_cache w -> config w1 = config w.
Proof. unfold outside_cache, config. intro H. injection H. intros. congruence. Qed.

Lemma after_offline_test_config (w w1 : StreamWorker) :
  after_offline_test w1 = after_offline_test w -> config w1 = config w.
Proof. unfold after_offline_test, config. intro H. injection H. intros. congruence. Qed.

Lemma offline_check_flags
    (urlparse : string -> option ParseResult) (w : StreamWorker) (last_report : Q)
    (live fresh_check : bool) (e : IterEnv) :
  flags_follow w (fst (offline_check urlparse w last_report live fresh_check e)).
Proof.
  unfold offline_check.
  match goal with |- context [if ?b then _ else _] => destruct b end.
  - destruct fresh_check, live; reflexivity.
  - eapply flags_follow_from; [| apply category_check_flags].
    destruct fresh_check, live; reflexivity.
Qed.

Lemma offline_check_no_finish
    (urlparse : string -> option ParseResult) (w : StreamWorker) (last_report : Q)
    (live fresh_check : bool) (e : IterEnv) :
  no_finish (snd (offline_check urlparse w last_report live fresh_check e)).
Proof.
  unfold offline_check.
  match goal with |- context [if ?b then _ else _] => destruct b end.
  - intros el c H. exact H.
  - apply category_check_no_finish.
Qed.

Lemma offline_check_config
    (urlparse : string -> option ParseResult) (w : StreamWorker) (last_report : Q)
    (live fresh_check : bool) (e : IterEnv) :
  config (step_worker (fst (offline_check urlparse w last_report live fresh_check e)))
  = config w.
Proof.
  unfold offline_check.
  match goal with |- context [if ?b then _ else _] => destruct b end.
  - destruct fresh_check, live; reflexivity.
  - rewrite (after_offline_test_config _ _ (category_check_frame urlparse _ _ _ _)).
    destruct fresh_check, live; reflexivity.
Qed.

Lemma live_probes_no_finish (evs : list Event) :
  forallb is_live_probe evs = true -> no_finish evs.
Proof.
  intros H el c Hin.
  rewrite forallb_forall in H. specialize (H _ Hin). discriminate.
Qed.

Lemma no_finish_app (evs evs' : list Event) :
  no_finish evs -> no_finish evs' -> no_finish (evs ++ evs').
Proof.
  intros H H' el c Hin. apply in_app_or in Hin.
  destruct Hin as [Hin | Hin]; [exact (H _ _ Hin) | exact (H' _ _ Hin)].
Qed.

Lemma loop_body_flags
    (urlparse : string -> option ParseResult) (w : StreamWorker) (last_report : Q)
    (e : IterEnv) :
  flags_follow w (fst (loop_body urlparse w last_report e)).
Proof.
  unfold loop_body.
  pose proof (is_stream_live_frame urlparse w (live_env e)) as Hf.
  destruct (is_stream_live urlparse w (live_env e)) as [[live w1] evs].
  simpl. eapply flags_follow_from; [| apply offline_check_flags].
  apply outside_cache_flags, Hf.
Qed.

Lemma loop_body_no_finish
    (urlparse : string -> option ParseResult) (w : StreamWorker) (last_report : Q)
    (e : IterEnv) :
  no_finish (snd (loop_body urlparse w last_report e)).
Proof.
  unfold loop_body.
  pose proof (is_stream_live_events urlparse w (live_env e)) as Hev.
  destruct (is_stream_live urlparse w (live_env e)) as [[live w1] evs].
  simpl. apply no_finish_app.
  - apply live_probes_no_finish, Hev.
  - apply offline_check_no_finish.
Qed.

Lemma loop_body_config
    (urlparse : string -> option ParseResult) (w : StreamWorker) (last_report : Q)
    (e : IterEnv) :
  config (step_worker (fst (loop_body urlparse w last_report e))) = config w.
Proof.
  unfold loop_body.
  pose proof (is_stream_live_frame urlparse w (live_env e)) as Hf.
  destruct (is_stream_live urlparse w (live_env e)) as [[live w1] evs].
  simpl. rewrite offline_check_config.
  apply outside_cache_config, Hf.
Qed.

Lemma loop_iteration_flags
    (urlparse : string -> option ParseResult) (w : StreamWorker) (last_report : Q)
    (e : IterEnv) :
  flags_follow w (fst (loop_iteration urlparse w last_report e)).
Proof.
  unfold loop_iteration.
  destruct (stop_event (stop_if (is_stop_before (owner_stop e)) w)).
  - destruct (is_stop_before (owner_stop e)); reflexivity.
  - eapply flags_follow_from; [| apply loop_body_flags].
    destruct (is_stop_mid (owner_stop e)), (is_stop_before (owner_stop e)); reflexivity.
Qed.

Lemma loop_iteration_no_finish
    (urlparse : string -> option ParseResult) (w : StreamWorker) (last_report : Q)
    (e : IterEnv) :
  no_finish (snd (loop_iteration urlparse w last_report e)).
Proof.
  unfold loop_iteration.
  destruct (stop_event (stop_if (is_stop_before (owner_stop e)) w)).
  - intros el c H. exact H.
  - apply loop_body_no_finish.
Qed.

Lemma loop_iteration_config
    (urlparse : string -> option ParseResult) (w : StreamWorker) (last_report : Q)
    (e : IterEnv) :
  config (step_worker (fst (loop_iteration urlparse w last_report e))) = config w.
Proof.
  unfold loop_iteration.
  destruct (stop_event (stop_if (is_stop_before (owner_stop e)) w)).
  - destruct (is_stop_before (owner_stop e)); reflexivity.
  - rewrite loop_body_config.
    destruct (is_stop_mid (owner_stop e)), (is_stop_before (owner_stop e)); reflexivity.
Qed.

Lemma loop_sound (urlparse : string -> option ParseResult) (envs : list IterEnv) :
  forall (w : StreamWorker) (last_report : Q),
    loop_flags_follow w (fst (fst (loop urlparse w last_report envs)))
                      (snd (fst (loop urlparse w last_report envs)))
    /\ no_finish (snd (loop urlparse w last_report envs))
    /\ config (fst (fst (loop urlparse w last_report envs))) = config w.
Proof.
  induction envs as [| e rest IH]; intros w last_report; simpl.
  - repeat split. intros el c H. exact H.
  - pose proof (loop_iteration_flags urlparse w last_report e) as Hfl.
    pose proof (loop_iteration_no_finish urlparse w last_report e) as Hnf.
    pose proof (loop_iteration_config urlparse w last_report e) as Hcf.
    destruct (loop_iteration urlparse w last_report e) as [[w' lr' | w' reason] evs];
      simpl in Hfl, Hnf, Hcf.
    + specialize (IH w' lr').
      destruct (loop urlparse w' lr' rest) as [[wf r] evs']. simpl in *.
      destruct IH as [IHfl [IHnf IHcf]].
      split; [| split].
      * destruct r as [reason |]; simpl in *.
        -- exact (flags_follow_from w w' (Break wf reason) Hfl IHfl).
        -- congruence.
      * apply no_finish_app; assumption.
      * congruence.
    + simpl. repeat split; assumption.
Qed.

(** ** The run as a whole *)

Lemma startup_frame (w : StreamWorker) (domain : string) (s : StartEnv) :
  flags (fst (startup w domain s)) = flags w /\
  config (fst (startup w domain s)) = config w.
Proof. unfold startup. case_split; split; reflexivity. Qed.

Lemma config_on_finish (w w1 : StreamWorker) :
  config w1 = config w -> on_finish w1 = on_finish w.
Proof. unfold config. intro H. injection H. intros. congruence. Qed.

Lemma cleanup_ends_with_finish (w : StreamWorker) :
  on_finish w = true ->
  cleanup w
  = (if driver w then [EvQuit] else [])
      ++ [EvFinish (elapsed_seconds w) (completed w)].
Proof. intro H. unfold cleanup. rewrite H. reflexivity. Qed.

Lemma quit_no_finish (b : bool) : no_finish (if b then [EvQuit] else []).
Proof.
  intros el c H. destruct b; simpl in H; intuition discriminate.
Qed.

Lemma completed_iff_reason (w wf : StreamWorker) (reason : Exit) :
  completed w = false ->
  flags_follow w (Break wf reason) ->
  (completed wf = true <-> reason = ExitCompleted).
Proof.
  intros Hc H. unfold flags_follow, flags in H.
  destruct reason; injection H as H1 H2 H3; rewrite H1, ?Hc;
    split; intro; congruence.
Qed.

(** C1, amended to the addresses the parser accepts (the owner parses the
    address itself before it builds a worker, and line 65 does so before the
    [try]).  A run of a worker that was given an [on_finish] callback, and
    whose address the parser accepts, cannot leave [run] without the
    cleanup: for every startup outcome and every sequence of iterations,
    once the run has ended (by completion, offline, wrong category, stop, or
    an exception at startup or in the loop) its events are those of the
    session followed by exactly one [on_finish(elapsed_seconds, completed)],
    which is the last event, so it comes after every progress callback; and
    [completed] is true exactly when the loop ended by the completion check.
    While the loop is still going no [on_finish] has been called. *)
Theorem on_finish_exactly_once
    (urlparse : string -> option ParseResult) (w : StreamWorker) (s : StartEnv)
    (envs : list IterEnv) :
  on_finish w = true ->
  domain_from_url urlparse (url w) <> None ->
  completed w = false ->
  match run_end (run urlparse w s envs) with
  | Escaped => False
  | Running => no_finish (run_events (run urlparse w s envs))
  | Finished reason =>
      exists before,
        run_events (run urlparse w s envs)
        = before ++ [EvFinish (elapsed_seconds (run_worker (run urlparse w s envs)))
                              (completed (run_worker (run urlparse w s envs)))]
        /\ no_finish before
        /\ (completed (run_worker (run urlparse w s envs)) = true
            <-> reason = ExitCompleted)
  end.
Proof.
  intros Hfin Hurl Hc. unfold run, run_end, run_events, run_worker.
  destruct (domain_from_url urlparse (url w)) as [domain |]; [| contradiction].
  destruct (startup_frame w domain s) as [Hfl Hcf].
  destruct (startup w domain s) as [w1 started]. simpl in Hfl, Hcf.
  assert (Hc1 : completed w1 = false)
    by (unfold flags in Hfl; injection Hfl; intros; congruence).
  assert (Hfin1 : on_finish w1 = true)
    by (rewrite (config_on_finish _ _ Hcf); exact Hfin).
  destruct started.
  - destruct (loop_sound urlparse envs w1 0) as [Hl [Hnf Hlc]].
    destruct (loop urlparse w1 0 envs) as [[w2 r] evs]. simpl in Hl, Hnf, Hlc.
    destruct r as [reason |]; simpl.
    + exists (evs ++ (if driver w2 then [EvQuit] else [])).
      rewrite cleanup_ends_with_finish
        by (rewrite (config_on_finish _ _ Hlc); exact Hfin1).
      split; [apply app_assoc |].
      split; [apply no_finish_app; [exact Hnf | apply quit_no_finish] |].
      exact (completed_iff_reason w1 w2 reason Hc1 Hl).
    + exact Hnf.
  - simpl. exists (if driver w1 then [EvQuit] else []).
    rewrite cleanup_ends_with_finish by exact Hfin1.
    split; [reflexivity |].
    split; [apply quit_no_finish |].
    rewrite Hc1. split; intro; discriminate.
Qed.

Lemma on_finish_exactly_once_witness :
  exists before,
    run_events (run urlparse_basic (session 1 None false) start_ok
                    (ticks 60 1000 live_payload 0))
    = before ++ [EvFinish 60 true]
    /\ no_finish before.
Proof.
  assert (Hurl : domain_from_url urlparse_basic (url (session 1 None false)) <> None)
    by (vm_compute; discriminate).
  pose proof (on_finish_exactly_once urlparse_basic (session 1 None false) start_ok
                (ticks 60 1000 live_payload 0) eq_refl Hurl eq_refl) as H.
  assert (E : run_end (run urlparse_basic (session 1 None false) start_ok
                           (ticks 60 1000 live_payload 0))
              = Finished ExitCompleted) by (vm_compute; reflexivity).
  rewrite E in H. destruct H as [before [Hev [Hnf _]]].
  exists before. split; [| exact Hnf].
  rewrite Hev. vm_compute. reflexivity.
Defined.

(** Each way out of [run], on the sample session. *)

Example run_ends_completed :
  run_end (run urlparse_basic (session 1 None false) start_ok
               (ticks 60 1000 live_payload 0)) = Finished ExitCompleted.
Proof. vm_compute. reflexivity. Qed.

Example run_ends_offline :
  run_events (run urlparse_basic (session 0 None false) start_ok
                  (ticks 6 1000 offline_payload 0))
  = [EvLiveProbe "browser_api"; EvUpdate 0 false; EvUpdate 0 false;
     EvUpdate 0 false; EvUpdate 0 false; EvUpdate 0 false;
     EvLiveProbe "browser_api"; EvQuit; EvFinish 0 false]
  /\ run_end (run urlparse_basic (session 0 None false) start_ok
                  (ticks 6 1000 offline_payload 0)) = Finished ExitOffline.
Proof. split; vm_compute; reflexivity. Qed.

Example run_ends_wrong_category :
  run_end (run urlparse_basic (session 0 (Some 5%Z) false) start_ok
               (ticks 3 1000 (category_payload 7) 0)) = Finished ExitWrongCategory.
Proof. vm_compute. reflexivity. Qed.

Example run_ends_stopped :
  run_events (run urlparse_basic (session 0 None false) start_ok
                  (ticks 2 1000 live_payload 0
                   ++ [with_stop StopBeforeCheck (iter_at 1002 live_payload 0)]))
  = [EvLiveProbe "browser_api"; EvUpdate 1 true; EvUpdate 2 true; EvQuit;
     EvFinish 2 false]
  /\ run_end (run urlparse_basic (session 0 None false) start_ok
                  (ticks 2 1000 live_payload 0
                   ++ [with_stop StopBeforeCheck (iter_at 1002 live_payload 0)]))
     = Finished ExitStopped.
Proof. split; vm_compute; reflexivity. Qed.

Example run_ends_on_startup_exception :
  run_events (run urlparse_basic (session 1 None false) start_no_browser
                  (ticks 60 1000 live_payload 0)) = [EvFinish 0 false]
  /\ run_events (run urlparse_basic (session 1 None false) start_no_page
                     (ticks 60 1000 live_payload 0)) = [EvQuit; EvFinish 0 false].
Proof. split; vm_compute; reflexivity. Qed.

Example run_ends_on_callback_exception :
  run_events (run urlparse_basic (session 1 None false) start_ok
                  [iter_at 1000 live_payload 0; update_raises_at 1001])
  = [EvLiveProbe "browser_api"; EvUpdate 1 true; EvUpdate 2 true; EvQuit;
     EvFinish 2 false].
Proof. vm_compute. reflexivity. Qed.

(** The call of [domain_from_url] at line 65 stands before the [try]: an
    address that [urlparse] rejects takes the exception out of [run].
    [App._start_index] calls [domain_from_url] on the same address before
    it builds the worker, so no worker of the application is in this
    case. *)
(** The claim as stated fails: line 65 parses the address before the
    [try], so for an address that [urlparse] rejects the exception leaves
    [run] at once: a worker that was given an [on_finish] ends without any
    callback having been called. *)
Lemma rejected_address_never_finishes :
  on_finish bad_address = true
  /\ run_end (run urlparse_basic bad_address start_ok (ticks 3 1000 live_payload 0))
     = Escaped
  /\ run_events (run urlparse_basic bad_address start_ok (ticks 3 1000 live_payload 0))
     = [].
Proof. repeat split. Qed.

(** ** Sustained-offline promotion *)

Lemma not_live_skips_category
    (urlparse : string -> option ParseResult) (w : StreamWorker) (last_report : Q)
    (e : IterEnv) :
  category_check urlparse w last_report false e
  = tick_and_report w last_report false e.
Proof.
  unfold category_check. rewrite andb_false_r. reflexivity.
Qed.

Lemma unbounded_tick_continues (w : StreamWorker) (last_report : Q) (live : bool)
    (e : IterEnv) :
  minutes_target w = 0%Z ->
  on_update_raises e = false ->
  step_exit (fst (tick_and_report w last_report live e)) = None.
Proof.
  intros Ht Hup. unfold tick_and_report, completion_check, with_events.
  rewrite Hup.
  assert (Hm : forall v, minutes_target
                 (if live then set_elapsed_seconds w v else w) = 0%Z)
    by (intro v; destruct live; exact Ht).
  rewrite Hm. simpl. case_split; reflexivity.
Qed.

Lemma outside_cache_inv (w w1 : StreamWorker) :
  outside_cache w1 = outside_cache w ->
  url w1 = url w /\ minutes_target w1 = minutes_target w /\
  on_update w1 = on_update w /\ driver w1 = driver w /\
  elapsed_seconds w1 = elapsed_seconds w /\
  completed w1 = completed w /\
  ended_because_offline w1 = ended_because_offline w /\
  ended_because_wrong_category w1 = ended_because_wrong_category w /\
  required_category_id w1 = required_category_id w /\
  cumulative_time_callback w1 = cumulative_time_callback w /\
  _offline_fresh_checks w1 = _offline_fresh_checks w /\
  offline_fresh_checks_to_switch w1 = offline_fresh_checks_to_switch w /\
  _last_category_check w1 = _last_category_check w /\
  _category_check_interval w1 = _category_check_interval w.
Proof.
  unfold outside_cache, flags. intro H. injection H. intros.
  repeat split; assumption.
Qed.

Lemma after_offline_test_inv (w w1 : StreamWorker) :
  after_offline_test w1 = after_offline_test w ->
  _offline_fresh_checks w1 = _offline_fresh_checks w /\
  ended_because_offline w1 = ended_because_offline w /\
  minutes_target w1 = minutes_target w.
Proof.
  unfold after_offline_test. intro H. injection H. intros.
  repeat split; assumption.
Qed.

(** C2. With [offline_fresh_checks_to_switch = 2], in an iteration whose
    body runs: a cached liveness read leaves the counter of consecutive
    offline probes as it was; a fresh probe that finds the channel live sets
    it to zero; a fresh probe that finds it not live when the counter is zero
    brings it to one and does not end the session as offline (with no target
    and a progress callback that returns, the loop goes on); a fresh not-live
    probe that follows another one (counter at least one) ends the session
    with [ended_because_offline] set. *)
Theorem offline_promotion_threshold
    (urlparse : string -> option ParseResult) (w : StreamWorker) (last_report : Q)
    (e : IterEnv) :
  offline_fresh_checks_to_switch w = 2%Z ->
  (0 < _live_check_interval w)%Q ->
  let now := live_now (live_env e) in
  let live := value_of (is_stream_live urlparse w (live_env e)) in
  let s := fst (loop_body urlparse w last_report e) in
  ((now - _last_live_check w < _live_check_interval w)%Q ->
   _offline_fresh_checks (step_worker s) = _offline_fresh_checks w) /\
  ((_live_check_interval w <= now - _last_live_check w)%Q ->
   (live = true -> _offline_fresh_checks (step_worker s) = 0%Z) /\
   (live = false -> _offline_fresh_checks w = 0%Z ->
    _offline_fresh_checks (step_worker s) = 1%Z /\
    step_exit s <> Some ExitOffline /\
    ended_because_offline (step_worker s) = ended_because_offline w /\
    (minutes_target w = 0%Z -> on_update_raises e = false -> step_exit s = None)) /\
   (live = false -> (1 <= _offline_fresh_checks w)%Z ->
    step_exit s = Some ExitOffline /\
    ended_because_offline (step_worker s) = true)).
Proof.
  intros Hthr Hpos now live s. subst now live s.
  unfold loop_body, value_of.
  pose proof (fresh_check_iff_probed urlparse w (live_env e) Hpos) as Hfresh.
  pose proof (is_stream_live_frame urlparse w (live_env e)) as Hf.
  unfold worker_of in Hfresh, Hf.
  destruct (is_stream_live urlparse w (live_env e)) as [[live w1] evs].
  simpl in Hfresh, Hf. simpl fst. rewrite Hfresh. clear Hfresh.
  apply outside_cache_inv in Hf.
  destruct Hf as (_ & Hmt & _ & _ & _ & _ & Hoff & _ & _ & _ & Hcnt & Hsw & _ & _).
  unfold offline_check.
  split.
  - intro Hcached. apply Qltb_true in Hcached. rewrite Hcached. simpl.
    match goal with |- context [if ?b then _ else _] => destruct b end.
    + simpl. exact Hcnt.
    + destruct (after_offline_test_inv _ _
                  (category_check_frame urlparse w1 last_report live e))
        as (Hc & _ & _).
      congruence.
  - intro Hdue. apply Qltb_false in Hdue. rewrite Hdue. simpl negb.
    cbv iota.
    split; [| split].
    + intro Hlive. rewrite Hlive. simpl.
      destruct (after_offline_test_inv _ _
                  (category_check_frame urlparse (set_offline_fresh_checks w1 0)
                     last_report true e))
        as (Hc & _ & _).
      exact Hc.
    + intros Hlive Hzero. rewrite Hlive. simpl negb. simpl andb.
      rewrite Hsw, Hthr, Hcnt, Hzero. simpl.
      destruct (after_offline_test_inv _ _
                  (category_check_frame urlparse (set_offline_fresh_checks w1 1)
                     last_report false e))
        as (Hc & Ho & _).
      simpl in Hc, Ho.
      split; [exact Hc |].
      split; [apply category_check_exit |].
      split; [congruence |].
      intros Htarget Hraise. rewrite not_live_skips_category.
      apply unbounded_tick_continues; [simpl; congruence | exact Hraise].
    + intros Hlive Hone. rewrite Hlive. simpl negb. simpl andb.
      rewrite Hsw, Hthr, Hcnt.
      replace (2 <=? _offline_fresh_checks w + 1)%Z with true
        by (symmetry; apply Z.leb_le; lia).
      split; reflexivity.
Qed.

Lemma offline_promotion_threshold_witness :
  step_exit (fst (loop_body urlparse_basic (started 0 None false) 0
                            (iter_at 1000 offline_payload 0))) = None
  /\ step_exit
       (fst (loop_body urlparse_basic
               (step_worker (fst (loop_body urlparse_basic (started 0 None false) 0
                                            (iter_at 1000 offline_payload 0))))
               1000 (iter_at 1005 offline_payload 0)))
     = Some ExitOffline.
Proof.
  split.
  - assert (Hpos : (0 < _live_check_interval (started 0 None false))%Q)
      by (vm_compute; reflexivity).
    pose proof (offline_promotion_threshold urlparse_basic (started 0 None false) 0
                  (iter_at 1000 offline_payload 0) eq_refl Hpos) as H.
    cbv zeta in H. destruct H as [_ H].
    assert (Hdue : (_live_check_interval (started 0 None false)
                    <= live_now (live_env (iter_at 1000 offline_payload 0))
                       - _last_live_check (started 0 None false))%Q)
      by (vm_compute; discriminate).
    destruct (H Hdue) as [_ [Hfirst _]].
    destruct (Hfirst eq_refl eq_refl) as [_ [_ [_ Hgo]]].
    exact (Hgo eq_refl eq_refl).
  - set (w1 := step_worker (fst (loop_body urlparse_basic (started 0 None false) 0
                                           (iter_at 1000 offline_payload 0)))).
    assert (Hpos : (0 < _live_check_interval w1)%Q) by (vm_compute; reflexivity).
    pose proof (offline_promotion_threshold urlparse_basic w1 1000
                  (iter_at 1005 offline_payload 0) eq_refl Hpos) as H.
    cbv zeta in H. destruct H as [_ H].
    assert (Hdue : (_live_check_interval w1
                    <= live_now (live_env (iter_at 1005 offline_payload 0))
                       - _last_live_check w1)%Q)
      by (vm_compute; discriminate).
    destruct (H Hdue) as [_ [_ Hsecond]].
    assert (Hone : (1 <= _offline_fresh_checks w1)%Z) by (vm_compute; discriminate).
    exact (proj1 (Hsecond eq_refl Hone)).
Defined.

(** The interval stays positive along a session, which the theorem above
    asks for. *)
Lemma init_interval_positive (u : string) (m : Z) (up fin st : bool) (thr : Z)
    (cat : option Z) (cum : bool) :
  (0 < _live_check_interval (StreamWorker_init u m up fin st thr cat cum))%Q.
Proof. reflexivity. Qed.

Lemma loop_iteration_interval_positive
    (urlparse : string -> option ParseResult) (w : StreamWorker) (last_report : Q)
    (e : IterEnv) :
  (0 < _live_check_interval w)%Q ->
  (0 < _live_check_interval
         (step_worker (fst (loop_iteration urlparse w last_report e))))%Q.
Proof.
  intro Hpos. unfold loop_iteration.
  destruct (stop_event (stop_if (is_stop_before (owner_stop e)) w)).
  - destruct (is_stop_before (owner_stop e)); exact Hpos.
  - assert (Hpos' : (0 < _live_check_interval
                           (stop_if (is_stop_mid (owner_stop e))
                              (stop_if (is_stop_before (owner_stop e)) w)))%Q)
      by (destruct (is_stop_mid (owner_stop e)), (is_stop_before (owner_stop e));
          exact Hpos).
    revert Hpos'.
    generalize (stop_if (is_stop_mid (owner_stop e))
                  (stop_if (is_stop_before (owner_stop e)) w)) as w0.
    intros w0 Hpos0. unfold loop_body.
    pose proof (is_stream_live_interval urlparse w0 (live_env e) Hpos0) as Hi.
    unfold worker_of in Hi.
    destruct (is_stream_live urlparse w0 (live_env e)) as [[live w1] evs].
    simpl in Hi. simpl fst.
    generalize (negb (Qeq_bool (_last_live_check w1) (_last_live_check w0))) as fresh.
    intro fresh. unfold offline_check.
    match goal with |- context [if ?b then _ else _] => destruct b end.
    + destruct fresh, live; exact Hi.
    + pose proof (category_check_frame urlparse
                    (if fresh
                     then if live then set_offline_fresh_checks w1 0
                          else set_offline_fresh_checks w1 (_offline_fresh_checks w1 + 1)
                     else w1) last_report live e) as Hfr.
      unfold after_offline_test in Hfr. injection Hfr. intros.
      match goal with
      | H : _live_check_interval _ = _live_check_interval _ |- _ => rewrite H
      end.
      destruct fresh, live; exact Hi.
Qed.

(** ** Completion *)

Ltac z_bool :=
  repeat match goal with
         | H : (_ <=? _)%Z = true |- _ => apply Z.leb_le in H
         | H : (_ <=? _)%Z = false |- _ => apply Z.leb_gt in H
         | H : int_truthy _ = false |- _ =>
             unfold int_truthy in H; apply negb_false_iff in H; apply Z.eqb_eq in H
         | H : int_truthy _ = true |- _ =>
             unfold int_truthy in H; apply negb_true_iff in H; apply Z.eqb_neq in H
         end.

Lemma tail_individual
    (urlparse : string -> option ParseResult) (w : StreamWorker) (last_report : Q)
    (live : bool) (e : IterEnv) :
  (0 < minutes_target w)%Z ->
  cumulative_time_callback w = false ->
  individual_outcome (minutes_target w * 60)
                     (fst (category_check urlparse w last_report live e)).
Proof.
  intros Hpos Hcum.
  destruct w; simpl in Hpos, Hcum; subst.
  set (P := individual_outcome _).
  unfold_tail. cbn [minutes_target cumulative_time_callback].
  case_split; subst P; unfold individual_outcome; simpl in *; z_bool;
    try lia; try discriminate; auto.
Qed.

Lemma tail_cumulative
    (urlparse : string -> option ParseResult) (w : StreamWorker) (last_report : Q)
    (live : bool) (e : IterEnv) :
  (0 < minutes_target w)%Z ->
  cumulative_time_callback w = true ->
  cumulative_outcome (minutes_target w * 60)
                     (category_check urlparse w last_report live e).
Proof.
  intros Hpos Hcum.
  destruct w; simpl in Hpos, Hcum; subst.
  set (P := cumulative_outcome _).
  unfold_tail. cbn [minutes_target cumulative_time_callback].
  case_split; subst P; unfold cumulative_outcome; simpl in *; z_bool;
    intros total Hin;
    repeat match goal with
           | H : _ \/ _ |- _ => destruct H as [H | H]
           | H : False |- _ => contradiction
           | H : EvCumulative _ = EvCumulative _ |- _ => injection H as H; subst
           | H : _ = EvCumulative _ |- _ => discriminate H
           end;
    split; intro; try lia; try discriminate; auto.
Qed.

Lemma tail_unbounded
    (urlparse : string -> option ParseResult) (w : StreamWorker) (last_report : Q)
    (live : bool) (e : IterEnv) :
  minutes_target w = 0%Z ->
  step_exit (fst (category_check urlparse w last_report live e)) <> Some ExitCompleted.
Proof.
  intros Hzero.
  destruct w; simpl in Hzero; subst.
  unfold_tail. cbn [minutes_target].
  case_split; simpl; discriminate.
Qed.

Lemma counter_update_target (w : StreamWorker) (live fresh_check : bool) :
  minutes_target
    (if fresh_check
     then if live then set_offline_fresh_checks w 0
          else set_offline_fresh_checks w (_offline_fresh_checks w + 1)
     else w) = minutes_target w
  /\ cumulative_time_callback
       (if fresh_check
        then if live then set_offline_fresh_checks w 0
             else set_offline_fresh_checks w (_offline_fresh_checks w + 1)
        else w) = cumulative_time_callback w.
Proof. destruct fresh_check, live; split; reflexivity. Qed.

Lemma offline_check_individual
    (urlparse : string -> option ParseResult) (w : StreamWorker) (last_report : Q)
    (live fresh_check : bool) (e : IterEnv) :
  (0 < minutes_target w)%Z ->
  cumulative_time_callback w = false ->
  individual_outcome (minutes_target w * 60)
                     (fst (offline_check urlparse w last_report live fresh_check e)).
Proof.
  intros Hpos Hcum. unfold offline_check.
  destruct (counter_update_target w live fresh_check) as [Hmt Hcb].
  match goal with |- context [if ?b then _ else _] => destruct b end.
  - exact I.
  - rewrite <- Hmt. apply tail_individual; congruence.
Qed.

Lemma offline_check_cumulative
    (urlparse : string -> option ParseResult) (w : StreamWorker) (last_report : Q)
    (live fresh_check : bool) (e : IterEnv) :
  (0 < minutes_target w)%Z ->
  cumulative_time_callback w = true ->
  cumulative_outcome (minutes_target w * 60)
                     (offline_check urlparse w last_report live fresh_check e).
Proof.
  intros Hpos Hcum. unfold offline_check.
  destruct (counter_update_target w live fresh_check) as [Hmt Hcb].
  match goal with |- context [if ?b then _ else _] => destruct b end.
  - intros total Hin. contradiction.
  - rewrite <- Hmt. apply tail_cumulative; congruence.
Qed.

Lemma offline_check_unbounded
    (urlparse : string -> option ParseResult) (w : StreamWorker) (last_report : Q)
    (live fresh_check : bool) (e : IterEnv) :
  minutes_target w = 0%Z ->
  step_exit (fst (offline_check urlparse w last_report live fresh_check e))
  <> Some ExitCompleted.
Proof.
  intros Hzero. unfold offline_check.
  destruct (counter_update_target w live fresh_check) as [Hmt _].
  match goal with |- context [if ?b then _ else _] => destruct b end.
  - discriminate.
  - apply tail_unbounded. congruence.
Qed.

Lemma loop_body_individual
    (urlparse : string -> option ParseResult) (w : StreamWorker) (last_report : Q)
    (e : IterEnv) :
  (0 < minutes_target w)%Z ->
  cumulative_time_callback w = false ->
  individual_outcome (minutes_target w * 60) (fst (loop_body urlparse w last_report e)).
Proof.
  intros Hpos Hcum. unfold loop_body.
  destruct (outside_cache_inv _ _ (is_stream_live_frame urlparse w (live_env e)))
    as (_ & Hmt & _ & _ & _ & _ & _ & _ & _ & Hcb & _).
  unfold worker_of in Hmt, Hcb.
  destruct (is_stream_live urlparse w (live_env e)) as [[live w1] evs].
  simpl in Hmt, Hcb. simpl fst. rewrite <- Hmt.
  apply offline_check_individual; congruence.
Qed.

Lemma loop_body_cumulative
    (urlparse : string -> option ParseResult) (w : StreamWorker) (last_report : Q)
    (e : IterEnv) :
  (0 < minutes_target w)%Z ->
  cumulative_time_callback w = true ->
  cumulative_outcome (minutes_target w * 60) (loop_body urlparse w last_report e).
Proof.
  intros Hpos Hcum. unfold loop_body.
  destruct (outside_cache_inv _ _ (is_stream_live_frame urlparse w (live_env e)))
    as (_ & Hmt & _ & _ & _ & _ & _ & _ & _ & Hcb & _).
  pose proof (is_stream_live_events urlparse w (live_env e)) as Hev.
  unfold worker_of in Hmt, Hcb.
  destruct (is_stream_live urlparse w (live_env e)) as [[live w1] evs].
  simpl in Hmt, Hcb, Hev.
  intros total Hin. unfold with_events in *. simpl in Hin. simpl fst.
  apply in_app_or in Hin. destruct Hin as [Hin | Hin].
  - rewrite forallb_forall in Hev. specialize (Hev _ Hin). discriminate.
  - rewrite <- Hmt.
    apply (offline_check_cumulative urlparse w1 last_report live _ e); congruence.
Qed.

Lemma loop_iteration_unbounded
    (urlparse : string -> option ParseResult) (w : StreamWorker) (last_report : Q)
    (e : IterEnv) :
  minutes_target w = 0%Z ->
  step_exit (fst (loop_iteration urlparse w last_report e)) <> Some ExitCompleted.
Proof.
  intro Hzero. unfold loop_iteration.
  destruct (stop_event (stop_if (is_stop_before (owner_stop e)) w));
    [discriminate |].
  assert (Hz : minutes_target (stop_if (is_stop_mid (owner_stop e))
                                 (stop_if (is_stop_before (owner_stop e)) w)) = 0%Z)
    by (destruct (is_stop_mid (owner_stop e)), (is_stop_before (owner_stop e));
        exact Hzero).
  revert Hz.
  generalize (stop_if (is_stop_mid (owner_stop e))
                (stop_if (is_stop_before (owner_stop e)) w)) as w0.
  intros w0 Hz. unfold loop_body.
  destruct (outside_cache_inv _ _ (is_stream_live_frame urlparse w0 (live_env e)))
    as (_ & Hmt & _).
  unfold worker_of in Hmt.
  destruct (is_stream_live urlparse w0 (live_env e)) as [[live w1] evs].
  simpl in Hmt. simpl fst.
  apply offline_check_unbounded. congruence.
Qed.

Lemma config_target (w w1 : StreamWorker) :
  config w1 = config w -> minutes_target w1 = minutes_target w.
Proof. unfold config. intro H. injection H. intros. congruence. Qed.

Lemma loop_unbounded (urlparse : string -> option ParseResult) (envs : list IterEnv) :
  forall (w : StreamWorker) (last_report : Q),
    minutes_target w = 0%Z ->
    snd (fst (loop urlparse w last_report envs)) <> Ended ExitCompleted.
Proof.
  induction envs as [| e rest IH]; intros w last_report Hzero; simpl.
  - discriminate.
  - pose proof (loop_iteration_unbounded urlparse w last_report e Hzero) as Hne.
    pose proof (loop_iteration_config urlparse w last_report e) as Hcf.
    destruct (loop_iteration urlparse w last_report e) as [[w' lr' | w' reason] evs];
      simpl in Hne, Hcf.
    + apply config_target in Hcf.
      specialize (IH w' lr' (eq_trans Hcf Hzero)).
      destruct (loop urlparse w' lr' rest) as [[wf r] evs']. exact IH.
    + simpl. intro H. apply Hne. congruence.
Qed.

Lemma startup_target (w : StreamWorker) (domain : string) (s : StartEnv) :
  minutes_target (fst (startup w domain s)) = minutes_target w.
Proof. apply config_target, startup_frame. Qed.

Lemma run_unbounded
    (urlparse : string -> option ParseResult) (w : StreamWorker) (s : StartEnv)
    (envs : list IterEnv) :
  minutes_target w = 0%Z ->
  completed w = false ->
  run_end (run urlparse w s envs) <> Finished ExitCompleted
  /\ completed (run_worker (run urlparse w s envs)) = false.
Proof.
  intros Hzero Hc. unfold run, run_end, run_worker.
  destruct (domain_from_url urlparse (url w)) as [domain |];
    [| split; [discriminate | exact Hc]].
  pose proof (startup_target w domain s) as Hmt.
  destruct (startup_frame w domain s) as [Hfl _].
  destruct (startup w domain s) as [w1 started]. simpl in Hmt, Hfl.
  assert (Hc1 : completed w1 = false)
    by (unfold flags in Hfl; injection Hfl; intros; congruence).
  destruct started.
  - pose proof (loop_unbounded urlparse envs w1 0 (eq_trans Hmt Hzero)) as Hne.
    destruct (loop_sound urlparse envs w1 0) as [Hl _].
    destruct (loop urlparse w1 0 envs) as [[w2 r] evs]. simpl in Hne, Hl.
    destruct r as [reason |]; simpl.
    + split; [intro H; apply Hne; congruence |].
      pose proof (completed_iff_reason w1 w2 reason Hc1 Hl) as Hiff.
      destruct (completed w2); [| reflexivity].
      exfalso. apply Hne. f_equal. apply Hiff. reflexivity.
    + split; [discriminate |].
      unfold flags in Hl. injection Hl. intros. congruence.
  - simpl. split; [discriminate | exact Hc1].
Qed.

Lemma tail_record
    (urlparse : string -> option ParseResult) (w : StreamWorker) (last_report : Q)
    (live : bool) (e : IterEnv) :
  (0 < minutes_target w)%Z ->
  completion_record urlparse w e live
    (fst (category_check urlparse w last_report live e)).
Proof.
  intro Hpos.
  assert (Ht : int_truthy (minutes_target w) = true)
    by (unfold int_truthy; apply negb_true_iff, Z.eqb_neq; lia).
  set (P := completion_record urlparse w e live).
  unfold category_check, tick_and_report, completion_check, with_events.
  rewrite ?Ht.
  destruct w; simpl in *.
  repeat match goal with
         | |- context [if ?b then _ else _] => destruct b eqn:?
         | |- context [match ?x with _ => _ end] => destruct x eqn:?
         end;
    subst P; unfold completion_record; simpl in *; z_bool;
    repeat match goal with
           | H : _ && _ = true |- _ => apply andb_true_iff in H; destruct H
           end;
    subst;
    repeat split; try reflexivity; try lia; try discriminate; auto;
    try (eexists; split; [eassumption | lia]);
    try (eexists; split; [eassumption | assumption]).
Qed.

Lemma completion_record_from
    (urlparse : string -> option ParseResult) (w w1 : StreamWorker) (e : IterEnv)
    (live : bool) (s : Step) :
  minutes_target w1 = minutes_target w ->
  elapsed_seconds w1 = elapsed_seconds w ->
  cumulative_time_callback w1 = cumulative_time_callback w ->
  required_category_id w1 = required_category_id w ->
  on_update w1 = on_update w ->
  offline_fresh_checks_to_switch w1 = offline_fresh_checks_to_switch w ->
  _category_check_interval w1 = _category_check_interval w ->
  _last_category_check w1 = _last_category_check w ->
  driver w1 = driver w -> url w1 = url w ->
  completion_record urlparse w1 e live s -> completion_record urlparse w e live s.
Proof.
  unfold completion_record, get_streamer_category_id.
  intros -> -> -> -> -> -> -> -> -> -> H. exact H.
Qed.

Lemma offline_check_record
    (urlparse : string -> option ParseResult) (w : StreamWorker) (last_report : Q)
    (live fresh_check : bool) (e : IterEnv) :
  (0 < minutes_target w)%Z ->
  completion_record urlparse w e live
    (fst (offline_check urlparse w last_report live fresh_check e)).
Proof.
  intro Hpos. unfold offline_check.
  match goal with
  | |- context [category_check urlparse ?w1 last_report live e] =>
      assert (Hw1 : minutes_target w1 = minutes_target w
                    /\ elapsed_seconds w1 = elapsed_seconds w
                    /\ cumulative_time_callback w1 = cumulative_time_callback w
                    /\ required_category_id w1 = required_category_id w
                    /\ on_update w1 = on_update w
                    /\ offline_fresh_checks_to_switch w1 = offline_fresh_checks_to_switch w
                    /\ _category_check_interval w1 = _category_check_interval w
                    /\ _last_category_check w1 = _last_category_check w
                    /\ driver w1 = driver w /\ url w1 = url w)
        by (destruct fresh_check, live; repeat split; reflexivity);
      destruct Hw1 as (H1 & H2 & H3 & H4 & H5 & H6 & H7 & H8 & H9 & H10);
      pose proof (tail_record urlparse w1 last_report live e) as Htail
  end.
  match goal with |- context [if ?b then _ else _] => destruct b eqn:E end.
  - unfold completion_record. simpl.
    apply andb_true_iff in E. destruct E as [E Ele].
    apply andb_true_iff in E. destruct E as [E Etr].
    apply negb_true_iff in E. rewrite H6 in Etr, Ele. z_bool.
    split; [exact E |]. split; [exact H2 |]. split; [exact Etr | exact Ele].
  - apply (completion_record_from urlparse w _ e live _ H1 H2 H3 H4 H5 H6 H7 H8 H9 H10).
    apply Htail. rewrite H1. exact Hpos.
Qed.

Lemma loop_body_record
    (urlparse : string -> option ParseResult) (w : StreamWorker) (last_report : Q)
    (e : IterEnv) :
  (0 < minutes_target w)%Z ->
  completion_record urlparse w e (value_of (is_stream_live urlparse w (live_env e)))
                    (fst (loop_body urlparse w last_report e)).
Proof.
  intro Hpos. unfold loop_body.
  destruct (outside_cache_inv _ _ (is_stream_live_frame urlparse w (live_env e)))
    as (Hurl & Hmt & Hup & Hdr & Hel & _ & _ & _ & Hcat & Hcb & _ & Hthr & Hlc & Hci).
  unfold worker_of, value_of in *.
  destruct (is_stream_live urlparse w (live_env e)) as [[live w1] evs].
  simpl in Hurl, Hmt, Hup, Hdr, Hel, Hcat, Hcb, Hthr, Hlc, Hci. simpl fst.
  apply (completion_record_from urlparse w w1 e live _
           Hmt Hel Hcb Hcat Hup Hthr Hci Hlc Hdr Hurl).
  apply offline_check_record. rewrite Hmt. exact Hpos.
Qed.

Lemma plain_live_tick
    (urlparse : string -> option ParseResult) (w : StreamWorker) (last_report : Q)
    (e : IterEnv) :
  (0 < minutes_target w)%Z ->
  value_of (is_stream_live urlparse w (live_env e)) = true ->
  opt_int_truthy (required_category_id w) = false ->
  on_update w = false \/ on_update_raises e = false ->
  step_exit (fst (loop_body urlparse w last_report e))
  = if cumulative_time_callback w then
      match cumulative_result e with
      | None => Some ExitException
      | Some total =>
          if (minutes_target w * 60 <=? total)%Z then Some ExitCompleted else None
      end
    else if (minutes_target w * 60 <=? elapsed_seconds w + 1)%Z then Some ExitCompleted
         else None.
Proof.
  intros Hpos Hlive Hcat Hup.
  pose proof (loop_body_record urlparse w last_report e Hpos) as H.
  rewrite Hlive in H. unfold completion_record in H.
  destruct (step_exit (fst (loop_body urlparse w last_report e))) as [[| | | |] |].
  - destruct H as [Htick [_ H]].
    destruct (cumulative_time_callback w).
    + destruct H as [total [-> Hle]]. apply Z.leb_le in Hle. rewrite Hle. reflexivity.
    + rewrite Htick in H. apply Z.leb_le in H. rewrite H. reflexivity.
  - destruct H as [H _]. discriminate.
  - destruct H as [_ [H _]]. congruence.
  - contradiction.
  - destruct H as [[H1 H2] | [H1 H2]].
    + destruct Hup; congruence.
    + rewrite H1, H2. reflexivity.
  - destruct H as [Htick H].
    destruct (cumulative_time_callback w).
    + destruct H as [total [-> Hlt]]. apply Z.leb_gt in Hlt. rewrite Hlt. reflexivity.
    + rewrite Htick in H. apply Z.leb_gt in H. rewrite H. reflexivity.
Qed.

(** C3. For an iteration whose body runs, with a target above zero.
    What each ending tells: the loop goes on only with the target not
    reached and ends completed only with the target reached, measured by the
    total the accessor returns in cumulative mode and by the worker's own
    [elapsed_seconds] (raised by this very tick when the channel is live) in
    individual mode; an offline ending needs a channel read as not live and
    the counter of offline probes at the threshold, a wrong-category ending
    a live channel and a category probe that is due and returns another
    category than the required one, an exception a progress callback or an
    accessor that raises.  So on a live
    tick with no category to watch and a progress callback that returns, the
    session ends completed exactly when the target is reached, on that very
    tick: in individual mode when [elapsed_seconds + 1 >= minutes_target *
    60], in cumulative mode when the accessor's total is at least
    [minutes_target * 60], and otherwise the loop goes on.  With a target of
    zero no run ever ends completed. *)
Theorem completion_by_target
    (urlparse : string -> option ParseResult) (w : StreamWorker) (last_report : Q)
    (e : IterEnv) :
  ((0 < minutes_target w)%Z -> cumulative_time_callback w = true ->
   cumulative_outcome (minutes_target w * 60) (loop_body urlparse w last_report e))
  /\ ((0 < minutes_target w)%Z -> cumulative_time_callback w = false ->
      individual_outcome (minutes_target w * 60)
                         (fst (loop_body urlparse w last_report e)))
  /\ (minutes_target w = 0%Z -> completed w = false ->
      forall s envs,
        run_end (run urlparse w s envs) <> Finished ExitCompleted
        /\ completed (run_worker (run urlparse w s envs)) = false)
  /\ ((0 < minutes_target w)%Z ->
      completion_record urlparse w e
        (value_of (is_stream_live urlparse w (live_env e)))
        (fst (loop_body urlparse w last_report e)))
  /\ ((0 < minutes_target w)%Z ->
      value_of (is_stream_live urlparse w (live_env e)) = true ->
      opt_int_truthy (required_category_id w) = false ->
      on_update w = false \/ on_update_raises e = false ->
      (cumulative_time_callback w = false ->
       step_exit (fst (loop_body urlparse w last_report e))
       = if (minutes_target w * 60 <=? elapsed_seconds w + 1)%Z
         then Some ExitCompleted else None)
      /\ (cumulative_time_callback w = true ->
          step_exit (fst (loop_body urlparse w last_report e))
          = match cumulative_result e with
            | None => Some ExitException
            | Some total =>
                if (minutes_target w * 60 <=? total)%Z then Some ExitCompleted
                else None
            end)).
Proof.
  split; [| split; [| split; [| split]]].
  - apply loop_body_cumulative.
  - apply loop_body_individual.
  - intros Hzero Hc s envs. apply run_unbounded; assumption.
  - apply loop_body_record.
  - intros Hpos Hlive Hcat Hup.
    pose proof (plain_live_tick urlparse w last_report e Hpos Hlive Hcat Hup) as H.
    split; intro Hcb; rewrite Hcb in H; exact H.
Qed.

Ltac in_events := vm_compute; repeat (first [left; reflexivity | right]).

Lemma completion_by_target_witness :
  step_exit (fst (loop_body urlparse_basic (started 10 None true) 0
                            (iter_at 1000 live_payload 550))) = None
  /\ step_exit (fst (loop_body urlparse_basic (started 10 None true) 0
                               (iter_at 1000 live_payload 600)))
     = Some ExitCompleted
  /\ individual_outcome 60
       (fst (loop_body urlparse_basic (set_elapsed_seconds (started 1 None false) 59) 0
                       (iter_at 1000 live_payload 0)))
  /\ step_exit (fst (loop_body urlparse_basic
                               (set_elapsed_seconds (started 1 None false) 59) 0
                               (iter_at 1000 live_payload 0)))
     = Some ExitCompleted
  /\ step_exit (fst (loop_body urlparse_basic
                               (set_elapsed_seconds (started 1 None false) 58) 0
                               (iter_at 1000 live_payload 0)))
     = None.
Proof.
  split; [| split; [| split; [| split]]].
  - destruct (completion_by_target urlparse_basic (started 10 None true) 0
                (iter_at 1000 live_payload 550)) as [Hcum _].
    assert (Hin : In (EvCumulative (Some 550%Z))
                     (snd (loop_body urlparse_basic (started 10 None true) 0
                                     (iter_at 1000 live_payload 550))))
      by in_events.
    destruct (Hcum eq_refl eq_refl 550%Z Hin) as [_ Hbelow].
    apply Hbelow. reflexivity.
  - destruct (completion_by_target urlparse_basic (started 10 None true) 0
                (iter_at 1000 live_payload 600)) as [Hcum _].
    assert (Hin : In (EvCumulative (Some 600%Z))
                     (snd (loop_body urlparse_basic (started 10 None true) 0
                                     (iter_at 1000 live_payload 600))))
      by in_events.
    destruct (Hcum eq_refl eq_refl 600%Z Hin) as [Hreached _].
    apply Hreached. discriminate.
  - destruct (completion_by_target urlparse_basic
                (set_elapsed_seconds (started 1 None false) 59) 0
                (iter_at 1000 live_payload 0)) as [_ [Hind _]].
    exact (Hind eq_refl eq_refl).
  - destruct (completion_by_target urlparse_basic
                (set_elapsed_seconds (started 1 None false) 59) 0
                (iter_at 1000 live_payload 0)) as [_ [_ [_ [_ Htick]]]].
    assert (Hlive : value_of (is_stream_live urlparse_basic
                                (set_elapsed_seconds (started 1 None false) 59)
                                (live_env (iter_at 1000 live_payload 0))) = true)
      by (vm_compute; reflexivity).
    exact (proj1 (Htick eq_refl Hlive eq_refl (or_intror eq_refl)) eq_refl).
  - destruct (completion_by_target urlparse_basic
                (set_elapsed_seconds (started 1 None false) 58) 0
                (iter_at 1000 live_payload 0)) as [_ [_ [_ [_ Htick]]]].
    assert (Hlive : value_of (is_stream_live urlparse_basic
                                (set_elapsed_seconds (started 1 None false) 58)
                                (live_env (iter_at 1000 live_payload 0))) = true)
      by (vm_compute; reflexivity).
    exact (proj1 (Htick eq_refl Hlive eq_refl (or_intror eq_refl)) eq_refl).
Defined.

Example unbounded_session_keeps_running :
  run_end (run urlparse_basic (session 0 None false) start_ok
               (ticks 60 1000 live_payload 0)) = Running.
Proof. vm_compute. reflexivity. Qed.

(** ** The external stop *)

Lemma loop_body_stop_event
    (urlparse : string -> option ParseResult) (w : StreamWorker) (last_report : Q)
    (e : IterEnv) :
  stop_event (step_worker (fst (loop_body urlparse w last_report e))) = stop_event w.
Proof.
  unfold loop_body.
  pose proof (is_stream_live_frame urlparse w (live_env e)) as Hf.
  unfold worker_of in Hf.
  destruct (is_stream_live urlparse w (live_env e)) as [[live w1] evs].
  simpl in Hf. simpl fst.
  assert (Hst : stop_event w1 = stop_event w)
    by (unfold outside_cache in Hf; injection Hf; intros; assumption).
  rewrite <- Hst. unfold offline_check.
  match goal with |- context [if ?b then _ else _] => destruct b end.
  - match goal with |- context [if ?b then _ else _] => destruct b end;
      [destruct live |]; reflexivity.
  - pose proof (category_check_frame urlparse
                  (if negb (Qeq_bool (_last_live_check w1) (_last_live_check w))
                   then if live then set_offline_fresh_checks w1 0
                        else set_offline_fresh_checks w1 (_offline_fresh_checks w1 + 1)
                   else w1) last_report live e) as Hfr.
    unfold after_offline_test in Hfr. injection Hfr. intros.
    match goal with
    | H : stop_event _ = stop_event _ |- _ => rewrite H
    end.
    match goal with |- context [if ?b then _ else _] => destruct b end;
      [destruct live |]; reflexivity.
Qed.

Lemma loop_body_not_stopped
    (urlparse : string -> option ParseResult) (w : StreamWorker) (last_report : Q)
    (e : IterEnv) :
  step_exit (fst (loop_body urlparse w last_report e)) <> Some ExitStopped.
Proof.
  unfold loop_body.
  destruct (is_stream_live urlparse w (live_env e)) as [[live w1] evs].
  simpl fst. unfold offline_check.
  match goal with |- context [if ?b then _ else _] => destruct b end.
  - discriminate.
  - apply category_check_exit.
Qed.

Lemma stop_idempotent (w : StreamWorker) (b : bool) :
  stop_event w = true -> stop_if b w = w.
Proof.
  intro H. destruct b; [| reflexivity].
  destruct w. simpl in H. subst. reflexivity.
Qed.

(** The body never reads the event: with the event set it does what it
    does without, and hands the event on. *)
Lemma probe_sources_ignores_stop
    (urlparse : string -> option ParseResult) (w : StreamWorker) (e : LiveEnv) :
  probe_sources urlparse (stop w) e
  = (value_of (probe_sources urlparse w e),
     stop (worker_of (probe_sources urlparse w e)),
     snd (probe_sources urlparse w e)).
Proof.
  destruct w. unfold probe_sources, dom_or_cached, value_of, worker_of.
  simpl. case_split; reflexivity.
Qed.

Lemma is_stream_live_ignores_stop
    (urlparse : string -> option ParseResult) (w : StreamWorker) (e : LiveEnv) :
  is_stream_live urlparse (stop w) e
  = (value_of (is_stream_live urlparse w e),
     stop (worker_of (is_stream_live urlparse w e)),
     snd (is_stream_live urlparse w e)).
Proof.
  unfold is_stream_live. rewrite probe_sources_ignores_stop.
  change (_last_live_check (stop w)) with (_last_live_check w).
  change (_live_check_interval (stop w)) with (_live_check_interval w).
  change (_last_live_value (stop w)) with (_last_live_value w).
  destruct (Qltb (live_now e - _last_live_check w) (_live_check_interval w));
    [reflexivity |].
  destruct (probe_sources urlparse w e) as [[v w1] evs]. reflexivity.
Qed.

Lemma category_check_ignores_stop
    (urlparse : string -> option ParseResult) (w : StreamWorker) (last_report : Q)
    (live : bool) (e : IterEnv) :
  category_check urlparse (stop w) last_report live e
  = (map_step stop (fst (category_check urlparse w last_report live e)),
     snd (category_check urlparse w last_report live e)).
Proof.
  destruct w, live; unfold_tail; unfold get_streamer_category_id; simpl;
    repeat (match goal with
            | |- context [if ?b then _ else _] => destruct b
            | |- context [match ?x with _ => _ end] => destruct x
            end; simpl);
    reflexivity.
Qed.

Lemma offline_check_ignores_stop
    (urlparse : string -> option ParseResult) (w : StreamWorker) (last_report : Q)
    (live fresh_check : bool) (e : IterEnv) :
  offline_check urlparse (stop w) last_report live fresh_check e
  = (map_step stop (fst (offline_check urlparse w last_report live fresh_check e)),
     snd (offline_check urlparse w last_report live fresh_check e)).
Proof.
  unfold offline_check.
  replace (if fresh_check
           then if live then set_offline_fresh_checks (stop w) 0
                else set_offline_fresh_checks (stop w) (_offline_fresh_checks (stop w) + 1)
           else stop w)
    with (stop (if fresh_check
                then if live then set_offline_fresh_checks w 0
                     else set_offline_fresh_checks w (_offline_fresh_checks w + 1)
                else w))
    by (destruct fresh_check, live; reflexivity).
  generalize (if fresh_check
              then if live then set_offline_fresh_checks w 0
                   else set_offline_fresh_checks w (_offline_fresh_checks w + 1)
              else w) as w1.
  intro w1.
  change (offline_fresh_checks_to_switch (stop w1))
    with (offline_fresh_checks_to_switch w1).
  change (_offline_fresh_checks (stop w1)) with (_offline_fresh_checks w1).
  match goal with |- context [if ?b then _ else _] => destruct b end.
  - reflexivity.
  - apply category_check_ignores_stop.
Qed.

Lemma loop_body_ignores_stop
    (urlparse : string -> option ParseResult) (w : StreamWorker) (last_report : Q)
    (e : IterEnv) :
  loop_body urlparse (stop w) last_report e
  = (map_step stop (fst (loop_body urlparse w last_report e)),
     snd (loop_body urlparse w last_report e)).
Proof.
  unfold loop_body. rewrite is_stream_live_ignores_stop.
  unfold value_of, worker_of.
  destruct (is_stream_live urlparse w (live_env e)) as [[live w1] evs].
  simpl fst. simpl snd.
  change (_last_live_check (stop w1)) with (_last_live_check w1).
  change (_last_live_check (stop w)) with (_last_live_check w).
  rewrite offline_check_ignores_stop. reflexivity.
Qed.

(** C4, as the code has it.  The event is read by the test of the [while]
    and nowhere else.  When that test finds it set, the loop ends at once as
    stopped, calls nothing and raises none of the three flags.  When the
    owner sets it while the body of an iteration runs, that iteration goes
    to its end exactly as it would without the stop: it may still end the
    session by its own checks (completed, offline, wrong category, or an
    exception), and only if it does not does the next test end the session
    as stopped, with the three flags as they were. *)
Theorem stop_honored_at_loop_test
    (urlparse : string -> option ParseResult) (w : StreamWorker) (last_report : Q)
    (e : IterEnv) (rest : list IterEnv) :
  flags w = (false, false, false) ->
  ((stop_event w = true \/ owner_stop e = StopBeforeCheck) ->
   loop urlparse w last_report (e :: rest)
   = (stop_if (is_stop_before (owner_stop e)) w, Ended ExitStopped, [])
   /\ flags (stop_if (is_stop_before (owner_stop e)) w) = (false, false, false))
  /\ (stop_event w = false -> owner_stop e = StopMidIteration ->
      loop_iteration urlparse w last_report e
      = (map_step stop (fst (loop_body urlparse w last_report e)),
         snd (loop_body urlparse w last_report e))
      /\
      match loop_iteration urlparse w last_report e with
      | (Break w' reason, evs) =>
          reason <> ExitStopped
          /\ loop urlparse w last_report (e :: rest) = (w', Ended reason, evs)
      | (Continue w' last_report', evs) =>
          flags w' = (false, false, false)
          /\ forall e' rest',
               loop urlparse w last_report (e :: e' :: rest')
               = (w', Ended ExitStopped, evs)
      end).
Proof.
  intro Hfl. split.
  - intro Hseen. simpl. unfold loop_iteration.
    assert (Hset : stop_event (stop_if (is_stop_before (owner_stop e)) w) = true).
    { destruct Hseen as [Hs | Hb].
      - rewrite (stop_idempotent w _ Hs). exact Hs.
      - rewrite Hb. reflexivity. }
    rewrite Hset. split; [reflexivity |].
    destruct (is_stop_before (owner_stop e)); exact Hfl.
  - intros Hunset Hmid.
    pose proof (loop_iteration_flags urlparse w last_report e) as Hff.
    assert (Hiter : loop_iteration urlparse w last_report e
                    = loop_body urlparse (stop w) last_report e).
    { unfold loop_iteration. rewrite Hmid. simpl. rewrite Hunset. reflexivity. }
    pose proof (loop_body_not_stopped urlparse (stop w) last_report e) as Hns.
    pose proof (loop_body_stop_event urlparse (stop w) last_report e) as Hst.
    rewrite <- Hiter in Hns, Hst.
    split; [rewrite Hiter; apply loop_body_ignores_stop |].
    destruct (loop_iteration urlparse w last_report e) as [[w' lr' | w' reason] evs] eqn:E;
      simpl in Hff, Hns, Hst.
    + split; [congruence |].
      intros e' rest'. simpl. rewrite E. simpl. unfold loop_iteration.
      rewrite (stop_idempotent w' _ Hst), Hst.
      rewrite app_nil_r. reflexivity.
    + split; [intro H; apply Hns; congruence |].
      simpl. rewrite E. reflexivity.
Qed.

Lemma stop_honored_at_loop_test_witness :
  loop urlparse_basic (started 0 None false) 0
       [with_stop StopMidIteration (iter_at 1000 live_payload 0);
        iter_at 1001 live_payload 0]
  = (stop (set_elapsed_seconds probed_live_started 1), Ended ExitStopped,
     [EvLiveProbe "browser_api"; EvUpdate 1 true]).
Proof.
  pose proof (stop_honored_at_loop_test urlparse_basic (started 0 None false) 0
                (with_stop StopMidIteration (iter_at 1000 live_payload 0))
                [iter_at 1001 live_payload 0] eq_refl) as [_ H].
  specialize (H eq_refl eq_refl).
  assert (E : loop_iteration urlparse_basic (started 0 None false) 0
                (with_stop StopMidIteration (iter_at 1000 live_payload 0))
              = (Continue (stop (set_elapsed_seconds probed_live_started 1)) 1000,
                 [EvLiveProbe "browser_api"; EvUpdate 1 true]))
    by (vm_compute; reflexivity).
  destruct H as [_ H]. rewrite E in H. destruct H as [_ H].
  exact (H (iter_at 1001 live_payload 0) []).
Defined.

(** The claim as stated fails: a stop that arrives during the sixtieth
    second of a one-minute session does not keep the completion check of
    that iteration from ending the session as completed. *)
Lemma stop_mid_iteration_still_completes :
  run_end (run urlparse_basic (session 1 None false) start_ok stop_during_sixtieth)
  = Finished ExitCompleted
  /\ completed (run_worker (run urlparse_basic (session 1 None false) start_ok
                                stop_during_sixtieth)) = true
  /\ stop_event (run_worker (run urlparse_basic (session 1 None false) start_ok
                                 stop_during_sixtieth)) = true
  /\ In (EvFinish 60 true)
        (run_events (run urlparse_basic (session 1 None false) start_ok
                         stop_during_sixtieth)).
Proof.
  split; [vm_compute; reflexivity |].
  split; [vm_compute; reflexivity |].
  split; [vm_compute; reflexivity |].
  in_events.
Qed.

(** ** The category monitor *)

Lemma get_streamer_category_id_ext
    (urlparse : string -> option ParseResult) (w w1 : StreamWorker) (o : ApiOutcome) :
  driver w1 = driver w -> url w1 = url w ->
  get_streamer_category_id urlparse w1 o = get_streamer_category_id urlparse w o.
Proof.
  intros Hd Hu. unfold get_streamer_category_id. rewrite Hd, Hu. reflexivity.
Qed.

Lemma opt_int_differs_true (current required : Z) :
  current <> required -> opt_int_differs current (Some required) = true.
Proof.
  intro H. simpl. apply negb_true_iff, Z.eqb_neq, H.
Qed.

Lemma int_truthy_true (z : Z) : z <> 0%Z -> int_truthy z = true.
Proof. intro H. apply negb_true_iff, Z.eqb_neq, H. Qed.

(** The category branch, when the probe is due on a live channel. *)
Lemma category_check_mismatch
    (urlparse : string -> option ParseResult) (w : StreamWorker) (last_report : Q)
    (e : IterEnv) (required current : Z) :
  required_category_id w = Some required -> required <> 0%Z ->
  (_category_check_interval w <= category_now e - _last_category_check w)%Q ->
  get_streamer_category_id urlparse w (category_api e) = Some current ->
  current <> required ->
  category_check urlparse w last_report true e
  = (Break (set_ended_because_wrong_category
              (set_last_category_check w (category_now e)) true) ExitWrongCategory,
     [EvCategoryProbe (category_now e) true]).
Proof.
  intros Hreq Hnz Hdue Hprobe Hne. unfold category_check.
  rewrite Hreq. simpl opt_int_truthy. rewrite (int_truthy_true _ Hnz). simpl andb.
  apply Qle_bool_iff in Hdue. rewrite Hdue.
  rewrite (get_streamer_category_id_ext urlparse w
             (set_last_category_check w (category_now e)) (category_api e)
             eq_refl eq_refl).
  rewrite Hprobe. simpl required_category_id. rewrite Hreq.
  rewrite (opt_int_differs_true _ _ Hne). reflexivity.
Qed.

Lemma category_check_unavailable
    (urlparse : string -> option ParseResult) (w : StreamWorker) (last_report : Q)
    (e : IterEnv) (required : Z) :
  required_category_id w = Some required -> required <> 0%Z ->
  (_category_check_interval w <= category_now e - _last_category_check w)%Q ->
  get_streamer_category_id urlparse w (category_api e) = None ->
  category_check urlparse w last_report true e
  = with_events [EvCategoryProbe (category_now e) true]
      (tick_and_report (set_last_category_check w (category_now e)) last_report true e).
Proof.
  intros Hreq Hnz Hdue Hprobe. unfold category_check.
  rewrite Hreq. simpl opt_int_truthy. rewrite (int_truthy_true _ Hnz). simpl andb.
  apply Qle_bool_iff in Hdue. rewrite Hdue.
  rewrite (get_streamer_category_id_ext urlparse w
             (set_last_category_check w (category_now e)) (category_api e)
             eq_refl eq_refl).
  rewrite Hprobe. reflexivity.
Qed.

Lemma tick_and_report_category (w : StreamWorker) (last_report : Q) (live : bool)
    (e : IterEnv) :
  step_exit (fst (tick_and_report w last_report live e)) <> Some ExitWrongCategory
  /\ ended_because_wrong_category (step_worker (fst (tick_and_report w last_report live e)))
     = ended_because_wrong_category w
  /\ _last_category_check (step_worker (fst (tick_and_report w last_report live e)))
     = _last_category_check w.
Proof.
  unfold tick_and_report, completion_check, with_events.
  case_split; repeat split; simpl; try discriminate; reflexivity.
Qed.

(** A live channel never trips the offline test. *)
Lemma offline_check_live
    (urlparse : string -> option ParseResult) (w : StreamWorker) (last_report : Q)
    (fresh_check : bool) (e : IterEnv) :
  offline_check urlparse w last_report true fresh_check e
  = category_check urlparse (if fresh_check then set_offline_fresh_checks w 0 else w)
                   last_report true e.
Proof. unfold offline_check. reflexivity. Qed.

Lemma category_check_probe_record
    (urlparse : string -> option ParseResult) (w : StreamWorker) (last_report : Q)
    (live : bool) (e : IterEnv) :
  probe_record w e (category_check urlparse w last_report live e).
Proof.
  destruct w. set (P := probe_record _ e).
  unfold_tail.
  case_split; subst P; unfold probe_record; simpl in *;
    first [ left; split; reflexivity
          | right; split; [reflexivity |]; split; [reflexivity |];
            apply Qle_bool_iff; assumption ].
Qed.

Lemma category_check_probes_while_live
    (urlparse : string -> option ParseResult) (w : StreamWorker) (last_report : Q)
    (live : bool) (e : IterEnv) :
  probes_while_live (snd (category_check urlparse w last_report live e)).
Proof.
  destruct w. set (P := probes_while_live).
  unfold_tail.
  case_split; subst P; intros t l Hin; simpl in *;
    repeat match goal with
           | H : _ \/ _ |- _ => destruct H as [H | H]
           | H : False |- _ => contradiction
           | H : EvCategoryProbe _ _ = EvCategoryProbe _ _ |- _ =>
               injection H as H1 H2; subst
           | H : _ = EvCategoryProbe _ _ |- _ => discriminate H
           end;
    try reflexivity;
    match goal with
    | H : _ && ?b = true |- ?b = true => apply andb_true_iff in H; apply H
    end.
Qed.

Lemma live_probes_no_category (evs : list Event) :
  forallb is_live_probe evs = true -> category_probe_times evs = [].
Proof.
  induction evs as [| ev evs IH]; [reflexivity |].
  simpl. intro H. apply andb_true_iff in H. destruct H as [Hev Hrest].
  destruct ev; try discriminate. apply IH, Hrest.
Qed.

Lemma category_probe_times_app (evs evs' : list Event) :
  category_probe_times (evs ++ evs')
  = category_probe_times evs ++ category_probe_times evs'.
Proof.
  induction evs as [| ev evs IH]; [reflexivity |].
  destruct ev; simpl; rewrite IH; reflexivity.
Qed.

Lemma probe_record_from (w w1 : StreamWorker) (e : IterEnv) (r : Step * list Event) :
  _last_category_check w1 = _last_category_check w ->
  _category_check_interval w1 = _category_check_interval w ->
  probe_record w1 e r -> probe_record w e r.
Proof.
  unfold probe_record. intros Hl Hi H. rewrite <- Hl, <- Hi. exact H.
Qed.

Lemma probe_record_with_events (w : StreamWorker) (e : IterEnv) (evs : list Event)
    (r : Step * list Event) :
  category_probe_times evs = [] ->
  probe_record w e r -> probe_record w e (with_events evs r).
Proof.
  unfold probe_record, with_events. simpl. intros Hevs H.
  rewrite category_probe_times_app, Hevs. exact H.
Qed.

Lemma offline_check_probe_record
    (urlparse : string -> option ParseResult) (w : StreamWorker) (last_report : Q)
    (live fresh_check : bool) (e : IterEnv) :
  probe_record w e (offline_check urlparse w last_report live fresh_check e).
Proof.
  unfold offline_check.
  match goal with |- context [if ?b then _ else _] => destruct b end.
  - left. split; [reflexivity |]. destruct fresh_check, live; reflexivity.
  - eapply probe_record_from; [| | apply category_check_probe_record];
      destruct fresh_check, live; reflexivity.
Qed.

Lemma loop_body_probe_record
    (urlparse : string -> option ParseResult) (w : StreamWorker) (last_report : Q)
    (e : IterEnv) :
  probe_record w e (loop_body urlparse w last_report e).
Proof.
  unfold loop_body.
  destruct (outside_cache_inv _ _ (is_stream_live_frame urlparse w (live_env e)))
    as (_ & _ & _ & _ & _ & _ & _ & _ & _ & _ & _ & _ & Hl & Hi).
  pose proof (is_stream_live_events urlparse w (live_env e)) as Hev.
  unfold worker_of in Hl, Hi.
  destruct (is_stream_live urlparse w (live_env e)) as [[live w1] evs].
  simpl in Hl, Hi, Hev.
  apply probe_record_with_events; [apply live_probes_no_category, Hev |].
  eapply probe_record_from; [exact Hl | exact Hi | apply offline_check_probe_record].
Qed.

Lemma loop_iteration_probe_record
    (urlparse : string -> option ParseResult) (w : StreamWorker) (last_report : Q)
    (e : IterEnv) :
  probe_record w e (loop_iteration urlparse w last_report e).
Proof.
  unfold loop_iteration.
  destruct (stop_event (stop_if (is_stop_before (owner_stop e)) w)).
  - left. split; [reflexivity |].
    destruct (is_stop_before (owner_stop e)); reflexivity.
  - eapply probe_record_from; [| | apply loop_body_probe_record];
      destruct (is_stop_mid (owner_stop e)), (is_stop_before (owner_stop e));
      reflexivity.
Qed.

Lemma config_category_interval (w w1 : StreamWorker) :
  config w1 = config w -> _category_check_interval w1 = _category_check_interval w.
Proof. unfold config. intro H. injection H. intros. congruence. Qed.

(** Along the loop, successive calls of the category probe are at least the
    interval apart, counting from the last call before the loop. *)
Lemma loop_probes_spaced (urlparse : string -> option ParseResult) (envs : list IterEnv) :
  forall (w : StreamWorker) (last_report : Q),
    _category_check_interval w = 30%Q ->
    spaced 30 (_last_category_check w
               :: category_probe_times (snd (loop urlparse w last_report envs))).
Proof.
  induction envs as [| e rest IH]; intros w last_report Hint.
  - exact I.
  - simpl loop.
    pose proof (loop_iteration_probe_record urlparse w last_report e) as Hrec.
    pose proof (loop_iteration_config urlparse w last_report e) as Hcf.
    apply config_category_interval in Hcf.
    destruct (loop_iteration urlparse w last_report e) as [[w' lr' | w' reason] evs];
      unfold probe_record in Hrec; simpl in Hrec, Hcf.
    + specialize (IH w' lr' (eq_trans Hcf Hint)).
      destruct (loop urlparse w' lr' rest) as [[wf r] evs']. simpl in IH. simpl snd.
      rewrite category_probe_times_app.
      destruct Hrec as [[Hts Hlast] | [Hts [Hlast Hdue]]]; rewrite Hts.
      * simpl app. rewrite <- Hlast. exact IH.
      * rewrite Hlast in IH. simpl app.
        change (spaced 30 (_last_category_check w :: category_now e
                           :: category_probe_times evs'))
          with ((_last_category_check w + 30 <= category_now e)%Q
                /\ spaced 30 (category_now e :: category_probe_times evs')).
        split; [rewrite Hint in Hdue; lra | exact IH].
    + simpl snd.
      destruct Hrec as [[Hts Hlast] | [Hts [Hlast Hdue]]]; rewrite Hts.
      * exact I.
      * split; [rewrite Hint in Hdue; lra | exact I].
Qed.

Lemma probes_while_live_app (evs evs' : list Event) :
  probes_while_live evs -> probes_while_live evs' -> probes_while_live (evs ++ evs').
Proof.
  intros H H' t l Hin. apply in_app_or in Hin.
  destruct Hin as [Hin | Hin]; [exact (H _ _ Hin) | exact (H' _ _ Hin)].
Qed.

Lemma live_probes_while_live (evs : list Event) :
  forallb is_live_probe evs = true -> probes_while_live evs.
Proof.
  intros H t l Hin. rewrite forallb_forall in H. specialize (H _ Hin). discriminate.
Qed.

Lemma loop_iteration_probes_while_live
    (urlparse : string -> option ParseResult) (w : StreamWorker) (last_report : Q)
    (e : IterEnv) :
  probes_while_live (snd (loop_iteration urlparse w last_report e)).
Proof.
  unfold loop_iteration.
  destruct (stop_event (stop_if (is_stop_before (owner_stop e)) w));
    [intros t l H; contradiction |].
  unfold loop_body.
  pose proof (is_stream_live_events urlparse
                (stop_if (is_stop_mid (owner_stop e))
                   (stop_if (is_stop_before (owner_stop e)) w)) (live_env e)) as Hev.
  destruct (is_stream_live urlparse _ (live_env e)) as [[live w1] evs].
  simpl in Hev. unfold with_events. simpl snd.
  apply probes_while_live_app; [apply live_probes_while_live, Hev |].
  unfold offline_check.
  match goal with |- context [if ?b then _ else _] => destruct b end.
  - intros t l H. contradiction.
  - apply category_check_probes_while_live.
Qed.

Lemma loop_probes_while_live
    (urlparse : string -> option ParseResult) (envs : list IterEnv) :
  forall (w : StreamWorker) (last_report : Q),
    probes_while_live (snd (loop urlparse w last_report envs)).
Proof.
  induction envs as [| e rest IH]; intros w last_report.
  - intros t l H. contradiction.
  - simpl.
    pose proof (loop_iteration_probes_while_live urlparse w last_report e) as H.
    destruct (loop_iteration urlparse w last_report e) as [[w' lr' | w' reason] evs];
      simpl in H.
    + specialize (IH w' lr').
      destruct (loop urlparse w' lr' rest) as [[wf r] evs']. simpl in *.
      apply probes_while_live_app; assumption.
    + exact H.
Qed.

Lemma cleanup_no_category (w : StreamWorker) :
  category_probe_times (cleanup w) = [] /\ probes_while_live (cleanup w).
Proof.
  unfold cleanup. destruct (driver w), (on_finish w); split; try reflexivity;
    intros t l H; simpl in H; intuition discriminate.
Qed.

Lemma startup_category (w : StreamWorker) (domain : string) (s : StartEnv) :
  _last_category_check (fst (startup w domain s)) = _last_category_check w
  /\ _category_check_interval (fst (startup w domain s)) = _category_check_interval w.
Proof. unfold startup. case_split; split; reflexivity. Qed.

Lemma run_probes
    (urlparse : string -> option ParseResult) (w : StreamWorker) (s : StartEnv)
    (envs : list IterEnv) :
  _category_check_interval w = 30%Q ->
  spaced 30 (_last_category_check w
             :: category_probe_times (run_events (run urlparse w s envs)))
  /\ probes_while_live (run_events (run urlparse w s envs)).
Proof.
  intro Hint. unfold run, run_events.
  destruct (domain_from_url urlparse (url w)) as [domain |];
    [| split; [exact I | intros t l H; contradiction]].
  destruct (startup_category w domain s) as [Hl Hi].
  destruct (startup w domain s) as [w1 started]. simpl in Hl, Hi.
  destruct (cleanup_no_category w1) as [Hc1 Hc2].
  destruct started.
  - pose proof (loop_probes_spaced urlparse envs w1 0 (eq_trans Hi Hint)) as Hsp.
    pose proof (loop_probes_while_live urlparse envs w1 0) as Hpl.
    destruct (loop urlparse w1 0 envs) as [[w2 r] evs]. simpl in Hsp, Hpl.
    destruct (cleanup_no_category w2) as [Hc3 Hc4].
    rewrite Hl in Hsp.
    destruct r as [reason |]; simpl snd.
    + rewrite category_probe_times_app, Hc3, app_nil_r.
      split; [exact Hsp | apply probes_while_live_app; assumption].
    + split; assumption.
  - simpl snd. rewrite Hc1. split; [exact I | exact Hc2].
Qed.

(** C8. In an iteration whose body runs, for a worker with a required
    category, a channel found live and a category check that is due: if the
    probe returns an id different from the required one, the session ends
    with [ended_because_wrong_category] set; if it returns [None], the
    session does not end as wrong category, the flag stays as it was, and
    (with no target and a progress callback that returns) the loop goes on.
    Over a whole run the probe is called only with the channel live, and two
    successive calls are at least 30 seconds apart. *)
Theorem category_mismatch_ends_session
    (urlparse : string -> option ParseResult) (w : StreamWorker) (last_report : Q)
    (e : IterEnv) (required : Z) :
  required_category_id w = Some required ->
  required <> 0%Z ->
  value_of (is_stream_live urlparse w (live_env e)) = true ->
  (_category_check_interval w <= category_now e - _last_category_check w)%Q ->
  (forall current,
      get_streamer_category_id urlparse w (category_api e) = Some current ->
      current <> required ->
      step_exit (fst (loop_body urlparse w last_report e)) = Some ExitWrongCategory
      /\ ended_because_wrong_category
           (step_worker (fst (loop_body urlparse w last_report e))) = true)
  /\ (get_streamer_category_id urlparse w (category_api e) = None ->
      step_exit (fst (loop_body urlparse w last_report e)) <> Some ExitWrongCategory
      /\ ended_because_wrong_category
           (step_worker (fst (loop_body urlparse w last_report e)))
         = ended_because_wrong_category w
      /\ (minutes_target w = 0%Z -> on_update_raises e = false ->
          step_exit (fst (loop_body urlparse w last_report e)) = None))
  /\ (forall s envs,
         _category_check_interval w = 30%Q ->
         spaced 30 (_last_category_check w
                    :: category_probe_times (run_events (run urlparse w s envs)))
         /\ probes_while_live (run_events (run urlparse w s envs))).
Proof.
  intros Hreq Hnz Hlive Hdue.
  split; [| split]; [| | intros s envs; apply run_probes].
  - intros current Hprobe Hne. unfold loop_body.
    destruct (outside_cache_inv _ _ (is_stream_live_frame urlparse w (live_env e)))
      as (Hu & _ & _ & Hd & _ & _ & _ & _ & Hr & _ & _ & _ & Hl & Hi).
    unfold value_of in Hlive. unfold worker_of in *.
    destruct (is_stream_live urlparse w (live_env e)) as [[live w1] evs].
    simpl in *. subst live. rewrite offline_check_live.
    assert (Hgen : forall w0,
               url w0 = url w1 -> driver w0 = driver w1 ->
               required_category_id w0 = required_category_id w1 ->
               _last_category_check w0 = _last_category_check w1 ->
               _category_check_interval w0 = _category_check_interval w1 ->
               step_exit (fst (with_events evs
                                 (category_check urlparse w0 last_report true e)))
               = Some ExitWrongCategory
               /\ ended_because_wrong_category
                    (step_worker (fst (with_events evs
                                         (category_check urlparse w0 last_report true e))))
                  = true).
    { intros w0 Hu0 Hd0 Hr0 Hl0 Hi0.
      assert (H1 : required_category_id w0 = Some required) by congruence.
      assert (H3 : (_category_check_interval w0
                    <= category_now e - _last_category_check w0)%Q)
        by (rewrite Hl0, Hi0, Hl, Hi; exact Hdue).
      assert (H4 : get_streamer_category_id urlparse w0 (category_api e) = Some current)
        by (rewrite (get_streamer_category_id_ext urlparse w w0);
            [exact Hprobe | congruence | congruence]).
      rewrite (category_check_mismatch urlparse w0 last_report e required current
                 H1 Hnz H3 H4 Hne).
      split; reflexivity. }
    match goal with |- context [if ?b then _ else _] => destruct b end;
      apply Hgen; reflexivity.
  - intros Hprobe. unfold loop_body.
    destruct (outside_cache_inv _ _ (is_stream_live_frame urlparse w (live_env e)))
      as (Hu & Hmt & _ & Hd & _ & _ & _ & Hw & Hr & _ & _ & _ & Hl & Hi).
    unfold value_of in Hlive. unfold worker_of in *.
    destruct (is_stream_live urlparse w (live_env e)) as [[live w1] evs].
    simpl in *. subst live. rewrite offline_check_live.
    assert (Hgen : forall w0,
               url w0 = url w1 -> driver w0 = driver w1 ->
               required_category_id w0 = required_category_id w1 ->
               _last_category_check w0 = _last_category_check w1 ->
               _category_check_interval w0 = _category_check_interval w1 ->
               ended_because_wrong_category w0 = ended_because_wrong_category w1 ->
               minutes_target w0 = minutes_target w1 ->
               let s := fst (with_events evs
                               (category_check urlparse w0 last_report true e)) in
               step_exit s <> Some ExitWrongCategory
               /\ ended_because_wrong_category (step_worker s)
                  = ended_because_wrong_category w
               /\ (minutes_target w = 0%Z -> on_update_raises e = false ->
                   step_exit s = None)).
    { intros w0 Hu0 Hd0 Hr0 Hl0 Hi0 Hw0 Hm0.
      assert (H1 : required_category_id w0 = Some required) by congruence.
      assert (H3 : (_category_check_interval w0
                    <= category_now e - _last_category_check w0)%Q)
        by (rewrite Hl0, Hi0, Hl, Hi; exact Hdue).
      assert (H4 : get_streamer_category_id urlparse w0 (category_api e) = None)
        by (rewrite (get_streamer_category_id_ext urlparse w w0);
            [exact Hprobe | congruence | congruence]).
      rewrite (category_check_unavailable urlparse w0 last_report e required
                 H1 Hnz H3 H4).
      unfold with_events. simpl fst.
      destruct (tick_and_report_category
                  (set_last_category_check w0 (category_now e)) last_report true e)
        as (Hx & Hy & _).
      split; [exact Hx |].
      split; [rewrite Hy; simpl; congruence |].
      intros Htarget Hraise.
      apply unbounded_tick_continues; [simpl; congruence | exact Hraise]. }
    match goal with |- context [if ?b then _ else _] => destruct b end;
      apply Hgen; reflexivity.
Qed.

Lemma category_mismatch_ends_session_witness :
  step_exit (fst (loop_body urlparse_basic (started 0 (Some 5%Z) false) 0
                            (iter_at 1000 (category_payload 7) 0)))
  = Some ExitWrongCategory
  /\ step_exit (fst (loop_body urlparse_basic (started 0 (Some 5%Z) false) 0
                               (with_category ApiRaise (iter_at 1000 live_payload 0))))
     = None.
Proof.
  assert (Hnz : 5%Z <> 0%Z) by discriminate.
  split.
  - assert (Hdue : (_category_check_interval (started 0 (Some 5%Z) false)
                    <= category_now (iter_at 1000 (category_payload 7) 0)
                       - _last_category_check (started 0 (Some 5%Z) false))%Q)
      by (vm_compute; discriminate).
    destruct (category_mismatch_ends_session urlparse_basic
                (started 0 (Some 5%Z) false) 0 (iter_at 1000 (category_payload 7) 0)
                5%Z eq_refl Hnz eq_refl Hdue) as [Hmis _].
    assert (Hne : 7%Z <> 5%Z) by discriminate.
    exact (proj1 (Hmis 7%Z eq_refl Hne)).
  - assert (Hdue : (_category_check_interval (started 0 (Some 5%Z) false)
                    <= category_now (with_category ApiRaise (iter_at 1000 live_payload 0))
                       - _last_category_check (started 0 (Some 5%Z) false))%Q)
      by (vm_compute; discriminate).
    destruct (category_mismatch_ends_session urlparse_basic
                (started 0 (Some 5%Z) false) 0
                (with_category ApiRaise (iter_at 1000 live_payload 0))
                5%Z eq_refl Hnz eq_refl Hdue) as [_ [Hnone _]].
    destruct (Hnone eq_refl) as [_ [_ Hgo]].
    exact (Hgo eq_refl eq_refl).
Defined.

(** ** The channel fallback *)

Lemma list_in_In (x : string) (l : list string) : list_in x l = true <-> In x l.
Proof.
  unfold list_in. rewrite existsb_exists. split.
  - intros [y [Hin Heq]]. apply String.eqb_eq in Heq. subst. exact Hin.
  - intro Hin. exists x. split; [exact Hin | apply String.eqb_refl].
Qed.

Lemma all_channel_urls_nonempty (current_url : string) (chs : list App.Channel) :
  (0 < length (App.all_channel_urls current_url chs))%nat.
Proof.
  unfold App.all_channel_urls.
  destruct (list_in current_url (App.channel_urls chs)) eqn:E.
  - apply list_in_In in E. destruct (App.channel_urls chs); [contradiction | simpl; lia].
  - rewrite length_app. simpl. lia.
Qed.

Lemma mark_current_in (current_url : string) (tried : list string) :
  In current_url (App.mark_current current_url tried).
Proof.
  unfold App.mark_current.
  destruct (list_in current_url tried) eqn:E.
  - apply list_in_In, E.
  - apply in_or_app. right. left. reflexivity.
Qed.

(** After the reset test the tried list is shorter than the candidate
    list, so line 2854 always stores it. *)
Lemma reset_leaves_room (tried all : list string) :
  (0 < length all)%nat ->
  (length (App.reset_if_exhausted tried all) <? length all)%nat = true.
Proof.
  intro Hpos. unfold App.reset_if_exhausted.
  destruct (length all <=? length tried)%nat eqn:E; apply Nat.ltb_lt.
  - exact Hpos.
  - apply Nat.leb_gt in E. exact E.
Qed.

(** The scan returns the first address, in stored order, that is eligible
    and that the probe finds live. *)
Lemma scan_first (is_live : string -> bool) (current_url : string) (tried : list string)
    (chs : list App.Channel) :
  forall pre alt post,
    App.channel_urls chs = pre ++ alt :: post ->
    (forall u, In u pre -> App.eligible current_url tried u && is_live u = false) ->
    App.eligible current_url tried alt && is_live alt = true ->
    App.scan is_live current_url tried chs = Some alt.
Proof.
  induction chs as [| ch rest IH]; intros pre alt post Hsplit Hpre Halt.
  - destruct pre; discriminate.
  - simpl in Hsplit. simpl.
    destruct (App.channel_url ch) as [u |]; [| exact (IH _ _ _ Hsplit Hpre Halt)].
    destruct pre as [| p pre']; simpl in Hsplit; injection Hsplit as Hu Hrest; subst.
    + unfold App.eligible in Halt. apply andb_true_iff in Halt.
      destruct Halt as [Hel Hlive]. rewrite Hel, Hlive. reflexivity.
    + assert (Hp : App.eligible current_url tried p && is_live p = false)
        by (apply Hpre; left; reflexivity).
      assert (Hscan : App.scan is_live current_url tried rest = Some alt)
        by (apply (IH pre' alt post Hrest);
            [intros v Hv; apply Hpre; right; exact Hv | exact Halt]).
      unfold App.eligible in Hp.
      destruct (negb (p =? current_url)%string && negb (list_in p tried));
        [| exact Hscan].
      simpl in Hp. rewrite Hp. exact Hscan.
Qed.

Lemma scan_none (is_live : string -> bool) (current_url : string) (tried : list string)
    (chs : list App.Channel) :
  (forall u, In u (App.channel_urls chs) ->
             App.eligible current_url tried u && is_live u = false) ->
  App.scan is_live current_url tried chs = None.
Proof.
  induction chs as [| ch rest IH]; intro Hall; [reflexivity |].
  simpl in Hall. simpl.
  destruct (App.channel_url ch) as [u |]; [| exact (IH Hall)].
  assert (Hu : App.eligible current_url tried u && is_live u = false)
    by (apply Hall; left; reflexivity).
  assert (Hrest : App.scan is_live current_url tried rest = None)
    by (apply IH; intros v Hv; apply Hall; right; exact Hv).
  unfold App.eligible in Hu.
  destruct (negb (u =? current_url)%string && negb (list_in u tried));
    [| exact Hrest].
  simpl in Hu. rewrite Hu. exact Hrest.
Qed.

(** With no repetition and nothing foreign in the tried list, the length
    test of line 2825 says that the tried list covers every candidate. *)
Lemma exhausted_iff_covers (tried all : list string) :
  NoDup tried -> NoDup all -> incl tried all ->
  ((length all <=? length tried)%nat = true <-> incl all tried).
Proof.
  intros Ht Ha Hincl. rewrite Nat.leb_le. split.
  - intro Hlen. apply NoDup_length_incl; assumption.
  - intro Hcov. apply NoDup_incl_length; assumption.
Qed.

Lemma switch_runs (is_live : string -> bool) (item : App.Item) (id : string) :
  App.campaign_id item = Some id -> str_truthy id = true ->
  App.campaign_channels item <> [] ->
  App.on_worker_finish_switch is_live item
  = match App.scan is_live (App.url item) (App.tried_after_reset item)
                   (App.campaign_channels item) with
    | Some alt_url => (App.switched_to item alt_url (App.tried_after_reset item), true)
    | None => (App.left_for_retry item (App.tried_after_reset item), false)
    end.
Proof.
  intros Hid Htruthy Hchs. unfold App.on_worker_finish_switch.
  rewrite Hid. destruct (App.campaign_channels item) as [| ch rest] eqn:E;
    [contradiction |].
  rewrite Htruthy. simpl negb. cbv iota.
  unfold App.tried_after_reset. rewrite E.
  destruct (App.scan is_live (App.url item) _ (ch :: rest)).
  - unfold App.switched_to. rewrite Hid, E. reflexivity.
  - rewrite reset_leaves_room by apply all_channel_urls_nonempty.
    unfold App.left_for_retry. rewrite Hid, E. reflexivity.
Qed.

(** C5. For an entry with a campaign and sibling channels whose session
    ended offline or in the wrong category: the tried list, with the channel
    that just ended recorded in it, is emptied when it is as long as the
    candidate list (siblings plus current channel), which for lists without
    repetition and without foreign entries means that it covers every
    candidate; the siblings are then scanned in stored order and the first
    one that is not the current channel, not in the tried list and found
    live by the direct probe becomes the entry's channel and is appended to
    the tried list; when no sibling qualifies, nothing is selected and the
    tried list is stored as the reset test left it: unless that test emptied
    it, it still holds every entry it had, the current channel included. *)
Theorem fallback_selects_first_live_untried
    (is_live : string -> bool) (item : App.Item) (id : string) :
  App.campaign_id item = Some id -> str_truthy id = true ->
  App.campaign_channels item <> [] ->
  let current := App.url item in
  let recorded :=
    App.mark_current current
      (match App.tried_channels item with Some l => l | None => [] end) in
  let all := App.all_channel_urls current (App.campaign_channels item) in
  let tried := App.tried_after_reset item in
  ((length all <= length recorded)%nat -> tried = [])
  /\ ((length recorded < length all)%nat -> tried = recorded)
  /\ (NoDup recorded -> NoDup all -> incl recorded all ->
      ((length all <= length recorded)%nat <-> incl all recorded))
  /\ (forall pre alt post,
         App.channel_urls (App.campaign_channels item) = pre ++ alt :: post ->
         (forall u, In u pre -> App.eligible current tried u && is_live u = false) ->
         App.eligible current tried alt && is_live alt = true ->
         App.on_worker_finish_switch is_live item
         = (App.switched_to item alt tried, true))
  /\ ((forall u, In u (App.channel_urls (App.campaign_channels item)) ->
                 App.eligible current tried u && is_live u = false) ->
      App.on_worker_finish_switch is_live item = (App.left_for_retry item tried, false)
      /\ ((length recorded < length all)%nat -> tried = recorded /\ In current tried)).
Proof.
  intros Hid Htruthy Hchs current recorded all tried.
  split; [| split; [| split; [| split]]].
  - intro Hlen. subst tried. unfold App.tried_after_reset, App.reset_if_exhausted.
    fold current. fold recorded. fold all.
    apply Nat.leb_le in Hlen. rewrite Hlen. reflexivity.
  - intro Hlen. subst tried. unfold App.tried_after_reset, App.reset_if_exhausted.
    fold current. fold recorded. fold all.
    apply Nat.leb_gt in Hlen. rewrite Hlen. reflexivity.
  - intros Hr Ha Hincl. rewrite <- Nat.leb_le.
    apply exhausted_iff_covers; assumption.
  - intros pre alt post Hsplit Hpre Halt. subst current tried.
    rewrite (switch_runs is_live item id Hid Htruthy Hchs).
    rewrite (scan_first is_live _ _ _ pre alt post Hsplit Hpre Halt).
    reflexivity.
  - intro Hnone. split.
    + subst current tried.
      rewrite (switch_runs is_live item id Hid Htruthy Hchs).
      rewrite (scan_none is_live _ _ _ Hnone).
      reflexivity.
    + intro Hlen.
      assert (Htried : tried = recorded).
      { subst tried. unfold App.tried_after_reset, App.reset_if_exhausted.
        fold current. fold recorded. fold all.
        apply Nat.leb_gt in Hlen. rewrite Hlen. reflexivity. }
      split; [exact Htried |].
      rewrite Htried. apply mark_current_in.
Qed.

Lemma fallback_selects_first_live_untried_witness :
  App.on_worker_finish_switch only_c_live example_item
  = ({| App.url := chan_c;
        App.campaign_id := Some "42";
        App.campaign_channels :=
          [App.ChannelStr chan_a; App.ChannelStr chan_b; App.ChannelStr chan_c];
        App.tried_channels := Some [chan_a; chan_c] |}, true).
Proof.
  assert (Hchs : App.campaign_channels example_item <> []) by discriminate.
  destruct (fallback_selects_first_live_untried only_c_live example_item "42"
              eq_refl eq_refl Hchs) as [_ [_ [_ [Hsel _]]]].
  apply (Hsel [chan_a; chan_b] chan_c []).
  - reflexivity.
  - intros u Hu. simpl in Hu.
    destruct Hu as [<- | [<- | []]]; reflexivity.
  - reflexivity.
Defined.

Example exhausted_cycle_restarts :
  App.on_worker_finish_switch (fun _ => true)
    {| App.url := chan_b; App.campaign_id := Some "42";
       App.campaign_channels := [App.ChannelStr chan_a; App.ChannelStr chan_b];
       App.tried_channels := Some [chan_a; chan_b] |}
  = ({| App.url := chan_a; App.campaign_id := Some "42";
        App.campaign_channels := [App.ChannelStr chan_a; App.ChannelStr chan_b];
        App.tried_channels := Some [chan_a] |}, true).
Proof. reflexivity. Qed.

Example no_live_sibling_keeps_tried :
  App.on_worker_finish_switch (fun _ => false) example_item
  = (example_item, false).
Proof. reflexivity. Qed.

(** ** The direct probe *)

Lemma status_none_is_live
    (urlparse : string -> option ParseResult) (urlopen : string -> HttpOutcome)
    (u : string) :
  kick_live_status_by_api urlparse urlopen u = None ->
  kick_is_live_by_api urlparse urlopen u = true.
Proof. intro H. unfold kick_is_live_by_api. rewrite H. reflexivity. Qed.

(** C10. The status check gives [None] when the address does not parse,
    when its host does not contain kick.com, when its path holds no user
    name and when the request fails; [kick_is_live_by_api] then answers
    [True]; so the fallback scan, which asks [kick_is_live_by_api], switches
    to a sibling that is not the current channel and not tried as soon as
    the scan reaches it, although nothing is known about its liveness. *)
Theorem inconclusive_probe_counts_as_live
    (urlparse : string -> option ParseResult) (urlopen : string -> HttpOutcome)
    (u : string) :
  (urlparse u = None -> kick_live_status_by_api urlparse urlopen u = None)
  /\ (forall p, urlparse u = Some p -> str_in "kick.com" (netloc p) = false ->
                kick_live_status_by_api urlparse urlopen u = None)
  /\ (forall p, urlparse u = Some p ->
                str_truthy (split_head slash (strip slash (path p))) = false ->
                kick_live_status_by_api urlparse urlopen u = None)
  /\ (forall p, urlparse u = Some p ->
                urlopen (String.append "https://kick.com/api/v2/channels/"
                           (split_head slash (strip slash (path p)))) = HttpRaise ->
                kick_live_status_by_api urlparse urlopen u = None)
  /\ (kick_live_status_by_api urlparse urlopen u = None ->
      kick_is_live_by_api urlparse urlopen u = true
      /\ forall item id pre post,
           App.campaign_id item = Some id -> str_truthy id = true ->
           App.channel_urls (App.campaign_channels item) = pre ++ u :: post ->
           (forall v, In v pre ->
                      App.eligible (App.url item) (App.tried_after_reset item) v
                      && kick_is_live_by_api urlparse urlopen v = false) ->
           App.eligible (App.url item) (App.tried_after_reset item) u = true ->
           App.on_worker_finish_switch (kick_is_live_by_api urlparse urlopen) item
           = (App.switched_to item u (App.tried_after_reset item), true)).
Proof.
  unfold kick_live_status_by_api at 1 2 3 4.
  split; [| split; [| split; [| split]]].
  - intro H. rewrite H. reflexivity.
  - intros p H Hhost. rewrite H, Hhost. reflexivity.
  - intros p H Hname. rewrite H, Hname.
    destruct (negb (str_in "kick.com" (netloc p))); reflexivity.
  - intros p H Hfail. rewrite H, Hfail.
    destruct (negb (str_in "kick.com" (netloc p))),
             (negb (str_truthy (split_head slash (strip slash (path p)))));
      reflexivity.
  - intro Hnone.
    pose proof (status_none_is_live urlparse urlopen u Hnone) as Hlive.
    split; [exact Hlive |].
    intros item id pre post Hid Htruthy Hsplit Hpre Hel.
    assert (Hchs : App.campaign_channels item <> []).
    { intro Hnil. rewrite Hnil in Hsplit. destruct pre; discriminate. }
    rewrite (switch_runs _ item id Hid Htruthy Hchs).
    rewrite (scan_first _ _ _ _ pre u post Hsplit Hpre);
      [reflexivity | rewrite Hel, Hlive; reflexivity].
Qed.

Lemma inconclusive_probe_counts_as_live_witness :
  kick_live_status_by_api urlparse_basic urlopen_flaky chan_c = None
  /\ App.on_worker_finish_switch (kick_is_live_by_api urlparse_basic urlopen_flaky)
       example_item
     = (App.switched_to example_item chan_c [chan_a], true).
Proof.
  split; [reflexivity |].
  destruct (inconclusive_probe_counts_as_live urlparse_basic urlopen_flaky chan_c)
    as [_ [_ [_ [_ H]]]].
  destruct (H eq_refl) as [_ Hsel].
  apply (Hsel example_item "42" [chan_a; chan_b] []).
  - reflexivity.
  - reflexivity.
  - reflexivity.
  - intros v Hv. simpl in Hv.
    destruct Hv as [<- | [<- | []]]; reflexivity.
  - reflexivity.
Defined.

(** * Further properties of the code *)

(** ** The liveness oracle, beyond the cache *)

Lemma probe_sources_records_value
    (urlparse : string -> option ParseResult) (w : StreamWorker) (e : LiveEnv) :
  _last_live_value (worker_of (probe_sources urlparse w e))
  = value_of (probe_sources urlparse w e).
Proof.
  unfold probe_sources, dom_or_cached, worker_of, value_of.
  case_split; reflexivity.
Qed.

Lemma returned_value_cached
    (urlparse : string -> option ParseResult) (w : StreamWorker) (e : LiveEnv) :
  _last_live_value (worker_of (is_stream_live urlparse w e))
  = value_of (is_stream_live urlparse w e).
Proof.
  unfold is_stream_live.
  destruct (Qltb (live_now e - _last_live_check w) (_live_check_interval w));
    [reflexivity |].
  pose proof (probe_sources_records_value urlparse w e) as H.
  unfold worker_of, value_of in *.
  destruct (probe_sources urlparse w e) as [[v w1] evs]. exact H.
Qed.

Lemma reschedule_bounds (w : StreamWorker) (e : LiveEnv) :
  (4 <= _live_check_interval (reschedule w e))%Q
  /\ _last_live_check (reschedule w e) = live_now e
  /\ ((-3 <= live_jitter e)%Q -> (live_jitter e <= 3)%Q ->
      (_live_check_interval (reschedule w e) <= 11)%Q
      /\ (_last_live_value w = true -> (5 <= _live_check_interval (reschedule w e))%Q)
      /\ (_last_live_value w = false -> (_live_check_interval (reschedule w e) <= 8)%Q)).
Proof.
  unfold reschedule. simpl.
  destruct (_last_live_value w);
    match goal with |- context [Qltb 4 ?x] => destruct (Qltb 4 x) eqn:E end;
    [apply Qltb_true in E | apply Qltb_false in E
     | apply Qltb_true in E | apply Qltb_false in E];
    (split; [lra |]); (split; [reflexivity |]);
    intros Hlo Hhi; (split; [lra |]); split; intro Hv; try discriminate; lra.
Qed.

(** X1. After a call of [is_stream_live] that probes, the next-check
    interval is at least 4 seconds and the check time is the reading of the
    clock of that call; with the jitter in [-3, 3], as [random.uniform]
    draws it, the interval is at most 11 seconds, at least 5 when the
    channel was found live and at most 8 when it was not. *)
Theorem interval_after_probe
    (urlparse : string -> option ParseResult) (w : StreamWorker) (e : LiveEnv) :
  (_live_check_interval w <= live_now e - _last_live_check w)%Q ->
  (4 <= _live_check_interval (worker_of (is_stream_live urlparse w e)))%Q
  /\ _last_live_check (worker_of (is_stream_live urlparse w e)) = live_now e
  /\ ((-3 <= live_jitter e)%Q -> (live_jitter e <= 3)%Q ->
      (_live_check_interval (worker_of (is_stream_live urlparse w e)) <= 11)%Q
      /\ (value_of (is_stream_live urlparse w e) = true ->
          (5 <= _live_check_interval (worker_of (is_stream_live urlparse w e)))%Q)
      /\ (value_of (is_stream_live urlparse w e) = false ->
          (_live_check_interval (worker_of (is_stream_live urlparse w e)) <= 8)%Q)).
Proof.
  intro Hdue. unfold is_stream_live.
  apply Qltb_false in Hdue. rewrite Hdue.
  pose proof (probe_sources_records_value urlparse w e) as Hv.
  unfold worker_of, value_of in *.
  destruct (probe_sources urlparse w e) as [[v w1] evs]. simpl in *.
  rewrite <- Hv. apply reschedule_bounds.
Qed.

Lemma interval_after_probe_witness :
  (4 <= _live_check_interval
          (worker_of (is_stream_live urlparse_basic (session 0 None false)
                                     (live_env_at 1000 offline_payload))))%Q
  /\ (_live_check_interval
        (worker_of (is_stream_live urlparse_basic (session 0 None false)
                                   (live_env_at 1000 offline_payload))) <= 8)%Q.
Proof.
  assert (Hdue : (_live_check_interval (session 0 None false)
                  <= live_now (live_env_at 1000 offline_payload)
                     - _last_live_check (session 0 None false))%Q)
    by (vm_compute; discriminate).
  destruct (interval_after_probe urlparse_basic (session 0 None false)
              (live_env_at 1000 offline_payload) Hdue) as [Hlo [_ Hj]].
  assert (H1 : (-3 <= live_jitter (live_env_at 1000 offline_payload))%Q)
    by (vm_compute; discriminate).
  assert (H2 : (live_jitter (live_env_at 1000 offline_payload) <= 3)%Q)
    by (vm_compute; discriminate).
  destruct (Hj H1 H2) as [_ [_ Hoff]].
  split; [exact Hlo | exact (Hoff eq_refl)].
Defined.

(** X2. A probe is never followed by another within 4 seconds: after a
    call that probed at time [t], every call whose clock reads less than
    [t + 4] returns the value of that probe, queries no source and leaves
    the worker as it is. *)
Theorem no_probe_within_four_seconds
    (urlparse : string -> option ParseResult) (w : StreamWorker) (e e' : LiveEnv) :
  (_live_check_interval w <= live_now e - _last_live_check w)%Q ->
  (live_now e' - live_now e < 4)%Q ->
  is_stream_live urlparse (worker_of (is_stream_live urlparse w e)) e'
  = (value_of (is_stream_live urlparse w e),
     worker_of (is_stream_live urlparse w e), []).
Proof.
  intros Hdue Hsoon.
  pose proof (returned_value_cached urlparse w e) as Hv.
  assert (Hb : (4 <= _live_check_interval (worker_of (is_stream_live urlparse w e)))%Q
               /\ _last_live_check (worker_of (is_stream_live urlparse w e)) = live_now e).
  { unfold is_stream_live. apply Qltb_false in Hdue. rewrite Hdue.
    unfold worker_of.
    destruct (probe_sources urlparse w e) as [[v w1] evs]. simpl snd. simpl fst.
    destruct (reschedule_bounds w1 e) as [H4 [Hc _]]. split; assumption. }
  destruct Hb as [H4 Hc].
  unfold is_stream_live at 1. rewrite Hc.
  assert (Hcached : Qltb (live_now e' - live_now e)
                      (_live_check_interval (worker_of (is_stream_live urlparse w e)))
                    = true) by (apply Qltb_true; lra).
  rewrite Hcached, Hv. reflexivity.
Qed.

Lemma no_probe_within_four_seconds_witness :
  is_stream_live urlparse_basic probed_offline (live_env_at 1003 live_payload)
  = (false, probed_offline, []).
Proof.
  assert (Hdue : (_live_check_interval (session 0 None false)
                  <= live_now (live_env_at 1000 offline_payload)
                     - _last_live_check (session 0 None false))%Q)
    by (vm_compute; discriminate).
  assert (Hsoon : (live_now (live_env_at 1003 live_payload)
                   - live_now (live_env_at 1000 offline_payload) < 4)%Q)
    by (vm_compute; reflexivity).
  exact (no_probe_within_four_seconds urlparse_basic (session 0 None false)
           (live_env_at 1000 offline_payload) (live_env_at 1003 live_payload)
           Hdue Hsoon).
Defined.

Lemma probe_sources_order
    (urlparse : string -> option ParseResult) (w : StreamWorker) (e : LiveEnv) :
  In (snd (probe_sources urlparse w e)) source_orders
  /\ snd (probe_sources urlparse w e) <> []
  /\ (_kick_username_from_url urlparse (url w) = None ->
      snd (probe_sources urlparse w e) = [EvLiveProbe "dom"]).
Proof.
  unfold probe_sources, dom_or_cached, source_orders.
  case_split; simpl; repeat split; try discriminate; auto 10.
Qed.

Lemma probe_sources_first_answer
    (urlparse : string -> option ParseResult) (w : StreamWorker) (e : LiveEnv) :
  let dom_or_cache :=
    match dom_source (live_body e) with
    | Some v => v
    | None => _last_live_value w
    end in
  match _kick_username_from_url urlparse (url w) with
  | Some _ =>
      match browser_api_source (live_api e) with
      | Some v =>
          snd (probe_sources urlparse w e) = [EvLiveProbe "browser_api"]
          /\ value_of (probe_sources urlparse w e) = v
      | None =>
          match page_state_source (live_state e) with
          | Some v =>
              snd (probe_sources urlparse w e)
              = [EvLiveProbe "browser_api"; EvLiveProbe "page_state"]
              /\ value_of (probe_sources urlparse w e) = v
          | None =>
              snd (probe_sources urlparse w e)
              = [EvLiveProbe "browser_api"; EvLiveProbe "page_state"; EvLiveProbe "dom"]
              /\ value_of (probe_sources urlparse w e) = dom_or_cache
          end
      end
  | None =>
      snd (probe_sources urlparse w e) = [EvLiveProbe "dom"]
      /\ value_of (probe_sources urlparse w e) = dom_or_cache
  end.
Proof.
  unfold probe_sources, dom_or_cached, value_of. cbv zeta.
  destruct (_kick_username_from_url urlparse (url w));
    [destruct (browser_api_source (live_api e));
     [| destruct (page_state_source (live_state e))] |];
    try (split; reflexivity);
    destruct (dom_source (live_body e)); split; reflexivity.
Qed.

(** X3. A call of [is_stream_live] queries the sources in the fixed order
    browser_api, page_state, dom, each at most once, and stops at the first
    that answers: a cached read queries none; a call that probes, for an
    address with a Kick user name, queries the browser API alone when it
    answers, the browser API and then the page state when only the latter
    answers, and all three otherwise; for an address without a user name it
    queries the DOM heuristic alone.  The value returned is the answer of
    the last source queried, and the cached value when the DOM heuristic,
    queried last, has none. *)
Theorem sources_in_priority_order
    (urlparse : string -> option ParseResult) (w : StreamWorker) (e : LiveEnv) :
  In (snd (is_stream_live urlparse w e)) source_orders
  /\ (snd (is_stream_live urlparse w e) = [] <->
      (live_now e - _last_live_check w < _live_check_interval w)%Q)
  /\ (_kick_username_from_url urlparse (url w) = None ->
      snd (is_stream_live urlparse w e) = []
      \/ snd (is_stream_live urlparse w e) = [EvLiveProbe "dom"])
  /\ ((_live_check_interval w <= live_now e - _last_live_check w)%Q ->
      let dom_or_cache :=
        match dom_source (live_body e) with
        | Some v => v
        | None => _last_live_value w
        end in
      match _kick_username_from_url urlparse (url w) with
      | Some _ =>
          match browser_api_source (live_api e) with
          | Some v =>
              snd (is_stream_live urlparse w e) = [EvLiveProbe "browser_api"]
              /\ value_of (is_stream_live urlparse w e) = v
          | None =>
              match page_state_source (live_state e) with
              | Some v =>
                  snd (is_stream_live urlparse w e)
                  = [EvLiveProbe "browser_api"; EvLiveProbe "page_state"]
                  /\ value_of (is_stream_live urlparse w e) = v
              | None =>
                  snd (is_stream_live urlparse w e)
                  = [EvLiveProbe "browser_api"; EvLiveProbe "page_state";
                     EvLiveProbe "dom"]
                  /\ value_of (is_stream_live urlparse w e) = dom_or_cache
              end
          end
      | None =>
          snd (is_stream_live urlparse w e) = [EvLiveProbe "dom"]
          /\ value_of (is_stream_live urlparse w e) = dom_or_cache
      end).
Proof.
  split; [| split; [| split]].
  - unfold is_stream_live.
    destruct (Qltb (live_now e - _last_live_check w) (_live_check_interval w));
      [left; reflexivity |].
    destruct (probe_sources_order urlparse w e) as [Hin _].
    destruct (probe_sources urlparse w e) as [[v w1] evs]. exact Hin.
  - unfold is_stream_live.
    destruct (Qltb (live_now e - _last_live_check w) (_live_check_interval w)) eqn:E.
    + apply Qltb_true in E. simpl. split; [intros _; exact E | reflexivity].
    + apply Qltb_false in E.
      destruct (probe_sources_order urlparse w e) as [_ [Hne _]].
      destruct (probe_sources urlparse w e) as [[v w1] evs]. simpl in *.
      split; [intro H; contradiction | intro H; lra].
  - intro Hu. unfold is_stream_live.
    destruct (Qltb (live_now e - _last_live_check w) (_live_check_interval w));
      [left; reflexivity |].
    destruct (probe_sources_order urlparse w e) as [_ [_ Hdom]].
    destruct (probe_sources urlparse w e) as [[v w1] evs]. simpl in *.
    right. exact (Hdom Hu).
  - intro Hdue. apply Qltb_false in Hdue.
    pose proof (probe_sources_first_answer urlparse w e) as H.
    unfold is_stream_live. rewrite Hdue. unfold value_of in *.
    destruct (probe_sources urlparse w e) as [[v w1] evs]. exact H.
Qed.

Lemma sources_in_priority_order_witness :
  snd (is_stream_live urlparse_basic (session 0 None false)
         (live_env_at 1000 offline_payload))
  = [EvLiveProbe "browser_api"]
  /\ value_of (is_stream_live urlparse_basic (session 0 None false)
                 (live_env_at 1000 offline_payload)) = false.
Proof.
  assert (Hdue : (_live_check_interval (session 0 None false)
                  <= live_now (live_env_at 1000 offline_payload)
                     - _last_live_check (session 0 None false))%Q)
    by (vm_compute; discriminate).
  destruct (sources_in_priority_order urlparse_basic (session 0 None false)
              (live_env_at 1000 offline_payload)) as [_ [_ [_ H]]].
  exact (H Hdue).
Defined.

(** X4. Whatever path a call of [is_stream_live] takes (cached read, an
    answer of one of the three sources, or the fall-through), the value it
    returns is the [_last_live_value] the worker holds afterwards. *)
Theorem returned_value_is_cached_value
    (urlparse : string -> option ParseResult) (w : StreamWorker) (e : LiveEnv) :
  _last_live_value (worker_of (is_stream_live urlparse w e))
  = value_of (is_stream_live urlparse w e).
Proof. apply returned_value_cached. Qed.

(** ** The run, beyond the terminal callback *)

Lemma run_flags
    (urlparse : string -> option ParseResult) (w : StreamWorker) (s : StartEnv)
    (envs : list IterEnv) :
  flags w = (false, false, false) ->
  match run_end (run urlparse w s envs) with
  | Finished reason => flags (run_worker (run urlparse w s envs)) = reason_flags reason
  | Running | Escaped => flags (run_worker (run urlparse w s envs)) = (false, false, false)
  end.
Proof.
  intro Hfl. unfold run, run_end, run_worker.
  destruct (domain_from_url urlparse (url w)) as [domain |]; [| exact Hfl].
  destruct (startup_frame w domain s) as [Hsf _].
  destruct (startup w domain s) as [w1 started]. simpl in Hsf.
  rewrite Hfl in Hsf.
  destruct started.
  - destruct (loop_sound urlparse envs w1 0) as [Hl _].
    destruct (loop urlparse w1 0 envs) as [[w2 r] evs]. simpl in Hl.
    destruct r as [reason |]; simpl in *.
    + unfold flags in Hsf. injection Hsf as Hc Ho Hw.
      destruct reason; simpl in Hl; rewrite Hl; rewrite ?Hc, ?Ho, ?Hw;
        unfold flags; rewrite ?Hc, ?Ho, ?Hw; reflexivity.
    + congruence.
  - simpl. exact Hsf.
Qed.

(** X5. For a worker whose three flags are down, as [__init__] leaves
    them, a finished run leaves exactly the flag of its ending up:
    [completed] for the completion check, [ended_because_offline] for the
    offline test, [ended_because_wrong_category] for the category check, and
    none for a stop or an exception; at most one flag is ever up, which is
    what [App.on_worker_finish] relies on when it reads them. *)
Theorem flags_tell_the_ending
    (urlparse : string -> option ParseResult) (w : StreamWorker) (s : StartEnv)
    (envs : list IterEnv) :
  flags w = (false, false, false) ->
  match run_end (run urlparse w s envs) with
  | Finished reason => flags (run_worker (run urlparse w s envs)) = reason_flags reason
  | Running | Escaped => flags (run_worker (run urlparse w s envs)) = (false, false, false)
  end.
Proof. exact (run_flags urlparse w s envs). Qed.

Lemma flags_tell_the_ending_witness :
  flags (run_worker (run urlparse_basic (session 0 None false) start_ok
                         (ticks 6 1000 offline_payload 0)))
  = (false, true, false).
Proof.
  pose proof (flags_tell_the_ending urlparse_basic (session 0 None false) start_ok
                (ticks 6 1000 offline_payload 0) eq_refl) as H.
  assert (E : run_end (run urlparse_basic (session 0 None false) start_ok
                           (ticks 6 1000 offline_payload 0))
              = Finished ExitOffline) by (vm_compute; reflexivity).
  rewrite E in H. exact H.
Defined.

(** X6. A run assigns none of the attributes that configure the session:
    the address, the target, the callbacks, the required category, the
    offline threshold and the category interval are at the end what they
    were at the start, however the run went. *)
Theorem run_keeps_configuration
    (urlparse : string -> option ParseResult) (w : StreamWorker) (s : StartEnv)
    (envs : list IterEnv) :
  config (run_worker (run urlparse w s envs)) = config w.
Proof.
  unfold run, run_worker.
  destruct (domain_from_url urlparse (url w)) as [domain |]; [| reflexivity].
  destruct (startup_frame w domain s) as [_ Hcf].
  destruct (startup w domain s) as [w1 started]. simpl in Hcf.
  destruct started.
  - destruct (loop_sound urlparse envs w1 0) as [_ [_ Hl]].
    destruct (loop urlparse w1 0 envs) as [[w2 r] evs]. simpl in Hl.
    destruct r; simpl; congruence.
  - simpl. exact Hcf.
Qed.

Lemma reported_from_mono (evs : list Event) :
  forall lo lo', (lo' <= lo)%Z -> reported_from lo evs -> reported_from lo' evs.
Proof.
  induction evs as [| ev evs IH]; intros lo lo' Hle H; [exact I |].
  destruct ev; simpl in *; try (eapply IH; eassumption);
    (split; [lia | apply H]).
Qed.

Lemma last_reported_app (evs evs' : list Event) :
  forall lo, last_reported lo (evs ++ evs') = last_reported (last_reported lo evs) evs'.
Proof.
  induction evs as [| ev evs IH]; intro lo; [reflexivity |].
  destruct ev; simpl; apply IH.
Qed.

Lemma reported_from_app (evs evs' : list Event) :
  forall lo,
    reported_from lo evs -> reported_from (last_reported lo evs) evs' ->
    reported_from lo (evs ++ evs').
Proof.
  induction evs as [| ev evs IH]; intros lo H H'; [exact H' |].
  destruct ev; simpl in *; try (apply IH; assumption);
    (split; [apply H | apply IH; [apply H | exact H']]).
Qed.

Lemma live_probes_report_nothing (evs : list Event) (lo : Z) :
  forallb is_live_probe evs = true ->
  reported_from lo evs /\ last_reported lo evs = lo.
Proof.
  induction evs as [| ev evs IH]; intro H; [split; [exact I | reflexivity] |].
  simpl in H. apply andb_true_iff in H. destruct H as [Hev Hrest].
  destruct ev; try discriminate. simpl. apply IH, Hrest.
Qed.

Lemma last_reported_mono (evs : list Event) :
  forall a b, (a <= b)%Z -> reported_from b evs ->
              (last_reported a evs <= last_reported b evs)%Z.
Proof.
  induction evs as [| ev evs IH]; intros a b Hab Hr; simpl; [exact Hab |].
  destruct ev; simpl in *; try (apply IH; assumption); lia.
Qed.

Lemma tick_record_from (w w1 : StreamWorker) (r : Step * list Event) :
  elapsed_seconds w1 = elapsed_seconds w -> tick_record w1 r -> tick_record w r.
Proof. unfold tick_record. intros H Hr. rewrite <- H. exact Hr. Qed.

Lemma tick_record_with_events (w : StreamWorker) (evs : list Event)
    (r : Step * list Event) :
  forallb is_live_probe evs = true ->
  tick_record w r -> tick_record w (with_events evs r).
Proof.
  unfold tick_record, with_events. simpl. intros Hev (H1 & H2 & H3 & H4).
  destruct (live_probes_report_nothing evs (elapsed_seconds w) Hev) as [Hr Hl].
  repeat split; try assumption.
  - apply reported_from_app; [exact Hr | rewrite Hl; exact H3].
  - rewrite last_reported_app, Hl. exact H4.
Qed.

Lemma category_check_tick_record
    (urlparse : string -> option ParseResult) (w : StreamWorker) (last_report : Q)
    (live : bool) (e : IterEnv) :
  tick_record w (category_check urlparse w last_report live e).
Proof.
  destruct w. set (P := tick_record _).
  unfold_tail.
  case_split; subst P; unfold tick_record; simpl; repeat split; lia.
Qed.

Lemma offline_check_tick_record
    (urlparse : string -> option ParseResult) (w : StreamWorker) (last_report : Q)
    (live fresh_check : bool) (e : IterEnv) :
  tick_record w (offline_check urlparse w last_report live fresh_check e).
Proof.
  unfold offline_check.
  match goal with |- context [if ?b then _ else _] => destruct b end.
  - unfold tick_record. destruct fresh_check, live; simpl; repeat split; lia.
  - eapply tick_record_from; [| apply category_check_tick_record].
    destruct fresh_check, live; reflexivity.
Qed.

Lemma loop_iteration_tick_record
    (urlparse : string -> option ParseResult) (w : StreamWorker) (last_report : Q)
    (e : IterEnv) :
  tick_record w (loop_iteration urlparse w last_report e).
Proof.
  unfold loop_iteration.
  destruct (stop_event (stop_if (is_stop_before (owner_stop e)) w)).
  - unfold tick_record. destruct (is_stop_before (owner_stop e)); simpl;
      repeat split; lia.
  - apply (tick_record_from w (stop_if (is_stop_mid (owner_stop e))
                                 (stop_if (is_stop_before (owner_stop e)) w)));
      [destruct (is_stop_mid (owner_stop e)), (is_stop_before (owner_stop e));
       reflexivity |].
    generalize (stop_if (is_stop_mid (owner_stop e))
                  (stop_if (is_stop_before (owner_stop e)) w)) as w0.
    intro w0. unfold loop_body.
    destruct (outside_cache_inv _ _ (is_stream_live_frame urlparse w0 (live_env e)))
      as (_ & _ & _ & _ & Hel & _).
    pose proof (is_stream_live_events urlparse w0 (live_env e)) as Hev.
    unfold worker_of in Hel.
    destruct (is_stream_live urlparse w0 (live_env e)) as [[live w1] evs].
    simpl in Hel, Hev.
    apply tick_record_with_events; [exact Hev |].
    eapply tick_record_from; [exact Hel | apply offline_check_tick_record].
Qed.

Lemma loop_elapsed (urlparse : string -> option ParseResult) (envs : list IterEnv) :
  forall (w : StreamWorker) (last_report : Q),
    (elapsed_seconds w <= elapsed_seconds (fst (fst (loop urlparse w last_report envs))))%Z
    /\ (elapsed_seconds (fst (fst (loop urlparse w last_report envs)))
        <= elapsed_seconds w + Z.of_nat (length envs))%Z
    /\ reported_from (elapsed_seconds w) (snd (loop urlparse w last_report envs))
    /\ (last_reported (elapsed_seconds w) (snd (loop urlparse w last_report envs))
        <= elapsed_seconds (fst (fst (loop urlparse w last_report envs))))%Z.
Proof.
  induction envs as [| e rest IH]; intros w last_report.
  - simpl. repeat split; lia.
  - cbn [loop length].
    pose proof (loop_iteration_tick_record urlparse w last_report e) as Ht.
    unfold tick_record in Ht.
    destruct (loop_iteration urlparse w last_report e) as [[w' lr' | w' reason] evs];
      simpl in Ht; destruct Ht as (H1 & H2 & H3 & H4).
    + specialize (IH w' lr').
      destruct (loop urlparse w' lr' rest) as [[wf r] evs'].
      simpl in IH. destruct IH as (I1 & I2 & I3 & I4). simpl fst. simpl snd.
      split; [lia |]. split; [lia |].
      split.
      * apply reported_from_app; [exact H3 |].
        eapply reported_from_mono; [exact H4 | exact I3].
      * rewrite last_reported_app.
        pose proof (last_reported_mono evs' _ _ H4 I3). lia.
    + simpl fst. simpl snd. repeat split; try assumption; lia.
Qed.

(** X7. Along a run the elapsed seconds only grow, by at most one per
    iteration, so they end between their initial value and that value plus
    the number of iterations; the values handed to [on_update], and last to
    [on_finish], never go down. *)
Theorem elapsed_only_grows
    (urlparse : string -> option ParseResult) (w : StreamWorker) (s : StartEnv)
    (envs : list IterEnv) :
  (elapsed_seconds w <= elapsed_seconds (run_worker (run urlparse w s envs)))%Z
  /\ (elapsed_seconds (run_worker (run urlparse w s envs))
      <= elapsed_seconds w + Z.of_nat (length envs))%Z
  /\ reported_from (elapsed_seconds w) (run_events (run urlparse w s envs)).
Proof.
  unfold run, run_worker, run_events.
  destruct (domain_from_url urlparse (url w)) as [domain |];
    [| simpl; repeat split; lia].
  assert (Hel : elapsed_seconds (fst (startup w domain s)) = elapsed_seconds w)
    by (unfold startup; case_split; reflexivity).
  destruct (startup w domain s) as [w1 started]. simpl in Hel.
  assert (Hclean : forall w2, (elapsed_seconds w <= elapsed_seconds w2)%Z ->
             forall lo, (lo <= elapsed_seconds w2)%Z -> reported_from lo (cleanup w2)).
  { intros w2 _ lo Hlo. unfold cleanup.
    destruct (driver w2), (on_finish w2); simpl; auto. }
  destruct started.
  - destruct (loop_elapsed urlparse envs w1 0) as (H1 & H2 & H3 & H4).
    destruct (loop urlparse w1 0 envs) as [[w2 r] evs]. simpl in *.
    rewrite Hel in *.
    destruct r as [reason |]; simpl; (split; [lia |]); (split; [lia |]).
    + apply reported_from_app; [exact H3 |].
      apply (Hclean w2); lia.
    + exact H3.
  - simpl. rewrite Hel. split; [lia |]. split; [lia |].
    apply (Hclean w1); lia.
Qed.

(** ** The offline threshold in general *)

Lemma category_check_counter_record
    (urlparse : string -> option ParseResult) (w : StreamWorker) (last_report : Q)
    (live : bool) (e : IterEnv) (threshold : Z) :
  (0 <= _offline_fresh_checks w < threshold)%Z ->
  counter_record threshold (fst (category_check urlparse w last_report live e)).
Proof.
  intro Hc.
  destruct (after_offline_test_inv _ _ (category_check_frame urlparse w last_report live e))
    as (Hcnt & _ & _).
  destruct (category_check_exit urlparse w last_report live e) as [Hno _].
  destruct (fst (category_check urlparse w last_report live e)) as [w' lr | w' reason];
    simpl in *.
  - rewrite Hcnt. exact Hc.
  - destruct reason; try exact I. exfalso. apply Hno. reflexivity.
Qed.

Lemma offline_check_counter_record
    (urlparse : string -> option ParseResult) (w : StreamWorker) (last_report : Q)
    (live fresh_check : bool) (e : IterEnv) :
  (0 < offline_fresh_checks_to_switch w)%Z ->
  (0 <= _offline_fresh_checks w < offline_fresh_checks_to_switch w)%Z ->
  counter_record (offline_fresh_checks_to_switch w)
                 (fst (offline_check urlparse w last_report live fresh_check e)).
Proof.
  intros Hthr Hc. unfold offline_check.
  destruct fresh_check, live; simpl;
    try (apply category_check_counter_record; simpl; lia);
    rewrite (int_truthy_true (offline_fresh_checks_to_switch w)) by lia; simpl.
  - destruct (offline_fresh_checks_to_switch w <=? _offline_fresh_checks w + 1)%Z eqn:E.
    + apply Z.leb_le in E. simpl. lia.
    + apply Z.leb_gt in E.
      apply category_check_counter_record. simpl. lia.
  - destruct (offline_fresh_checks_to_switch w <=? _offline_fresh_checks w)%Z eqn:E.
    + apply Z.leb_le in E. lia.
    + apply category_check_counter_record. exact Hc.
Qed.

Lemma offline_check_zero_threshold
    (urlparse : string -> option ParseResult) (w : StreamWorker) (last_report : Q)
    (live fresh_check : bool) (e : IterEnv) :
  offline_fresh_checks_to_switch w = 0%Z ->
  step_exit (fst (offline_check urlparse w last_report live fresh_check e))
  <> Some ExitOffline.
Proof.
  intro Hz. unfold offline_check.
  assert (Hz1 : offline_fresh_checks_to_switch
                  (if fresh_check
                   then if live then set_offline_fresh_checks w 0
                        else set_offline_fresh_checks w (_offline_fresh_checks w + 1)
                   else w) = 0%Z)
    by (destruct fresh_check, live; exact Hz).
  rewrite Hz1. simpl. rewrite andb_false_r. simpl.
  apply category_check_exit.
Qed.

Lemma loop_iteration_counter_record
    (urlparse : string -> option ParseResult) (w : StreamWorker) (last_report : Q)
    (e : IterEnv) :
  (0 < offline_fresh_checks_to_switch w)%Z ->
  (0 <= _offline_fresh_checks w < offline_fresh_checks_to_switch w)%Z ->
  counter_record (offline_fresh_checks_to_switch w)
                 (fst (loop_iteration urlparse w last_report e)).
Proof.
  intros Hthr Hc. unfold loop_iteration.
  destruct (stop_event (stop_if (is_stop_before (owner_stop e)) w)); [exact I |].
  assert (H0 : offline_fresh_checks_to_switch
                 (stop_if (is_stop_mid (owner_stop e))
                    (stop_if (is_stop_before (owner_stop e)) w))
               = offline_fresh_checks_to_switch w
               /\ _offline_fresh_checks
                    (stop_if (is_stop_mid (owner_stop e))
                       (stop_if (is_stop_before (owner_stop e)) w))
                  = _offline_fresh_checks w)
    by (destruct (is_stop_mid (owner_stop e)), (is_stop_before (owner_stop e));
        split; reflexivity).
  destruct H0 as [Ht0 Hc0]. rewrite <- Ht0 in *. rewrite <- Hc0 in Hc.
  clear Ht0 Hc0.
  generalize dependent (stop_if (is_stop_mid (owner_stop e))
                          (stop_if (is_stop_before (owner_stop e)) w)).
  intros w0 Hthr Hc. unfold loop_body.
  destruct (outside_cache_inv _ _ (is_stream_live_frame urlparse w0 (live_env e)))
    as (_ & _ & _ & _ & _ & _ & _ & _ & _ & _ & Hcnt & Hsw & _).
  unfold worker_of in Hcnt, Hsw.
  destruct (is_stream_live urlparse w0 (live_env e)) as [[live w1] evs].
  simpl in Hcnt, Hsw. simpl fst. rewrite <- Hsw.
  apply offline_check_counter_record; rewrite ?Hsw, ?Hcnt; assumption.
Qed.

Lemma loop_iteration_zero_threshold
    (urlparse : string -> option ParseResult) (w : StreamWorker) (last_report : Q)
    (e : IterEnv) :
  offline_fresh_checks_to_switch w = 0%Z ->
  step_exit (fst (loop_iteration urlparse w last_report e)) <> Some ExitOffline.
Proof.
  intro Hz. unfold loop_iteration.
  destruct (stop_event (stop_if (is_stop_before (owner_stop e)) w)); [discriminate |].
  assert (Hz0 : offline_fresh_checks_to_switch
                  (stop_if (is_stop_mid (owner_stop e))
                     (stop_if (is_stop_before (owner_stop e)) w)) = 0%Z)
    by (destruct (is_stop_mid (owner_stop e)), (is_stop_before (owner_stop e));
        exact Hz).
  revert Hz0.
  generalize (stop_if (is_stop_mid (owner_stop e))
                (stop_if (is_stop_before (owner_stop e)) w)) as w0.
  intros w0 Hz0. unfold loop_body.
  destruct (outside_cache_inv _ _ (is_stream_live_frame urlparse w0 (live_env e)))
    as (_ & _ & _ & _ & _ & _ & _ & _ & _ & _ & _ & Hsw & _).
  unfold worker_of in Hsw.
  destruct (is_stream_live urlparse w0 (live_env e)) as [[live w1] evs].
  simpl in Hsw. simpl fst.
  apply offline_check_zero_threshold. congruence.
Qed.

Lemma config_threshold (w w1 : StreamWorker) :
  config w1 = config w ->
  offline_fresh_checks_to_switch w1 = offline_fresh_checks_to_switch w.
Proof. unfold config. intro H. injection H. intros. congruence. Qed.

Lemma loop_counter (urlparse : string -> option ParseResult) (envs : list IterEnv) :
  forall (w : StreamWorker) (last_report : Q),
    (0 < offline_fresh_checks_to_switch w)%Z ->
    (0 <= _offline_fresh_checks w < offline_fresh_checks_to_switch w)%Z ->
    match snd (fst (loop urlparse w last_report envs)) with
    | StillRunning =>
        (0 <= _offline_fresh_checks (fst (fst (loop urlparse w last_report envs)))
         < offline_fresh_checks_to_switch w)%Z
    | Ended ExitOffline =>
        _offline_fresh_checks (fst (fst (loop urlparse w last_report envs)))
        = offline_fresh_checks_to_switch w
    | Ended _ => True
    end.
Proof.
  induction envs as [| e rest IH]; intros w last_report Hthr Hc.
  - exact Hc.
  - cbn [loop].
    pose proof (loop_iteration_counter_record urlparse w last_report e Hthr Hc) as Hr.
    pose proof (config_threshold _ _ (loop_iteration_config urlparse w last_report e))
      as Hsw.
    destruct (loop_iteration urlparse w last_report e) as [[w' lr' | w' reason] evs];
      simpl in Hr, Hsw.
    + rewrite <- Hsw in Hr, Hthr.
      specialize (IH w' lr' Hthr Hr).
      destruct (loop urlparse w' lr' rest) as [[wf r] evs']. simpl in *.
      rewrite <- Hsw. exact IH.
    + simpl. destruct reason; try exact I. exact Hr.
Qed.

Lemma loop_zero_threshold (urlparse : string -> option ParseResult) (envs : list IterEnv) :
  forall (w : StreamWorker) (last_report : Q),
    offline_fresh_checks_to_switch w = 0%Z ->
    snd (fst (loop urlparse w last_report envs)) <> Ended ExitOffline.
Proof.
  induction envs as [| e rest IH]; intros w last_report Hz; simpl.
  - discriminate.
  - pose proof (loop_iteration_zero_threshold urlparse w last_report e Hz) as Hne.
    pose proof (config_threshold _ _ (loop_iteration_config urlparse w last_report e))
      as Hsw.
    destruct (loop_iteration urlparse w last_report e) as [[w' lr' | w' reason] evs];
      simpl in Hne, Hsw.
    + specialize (IH w' lr' (eq_trans Hsw Hz)).
      destruct (loop urlparse w' lr' rest) as [[wf r] evs']. exact IH.
    + simpl. intro H. apply Hne. congruence.
Qed.

Lemma startup_counter (w : StreamWorker) (domain : string) (s : StartEnv) :
  _offline_fresh_checks (fst (startup w domain s)) = _offline_fresh_checks w
  /\ offline_fresh_checks_to_switch (fst (startup w domain s))
     = offline_fresh_checks_to_switch w.
Proof. unfold startup. case_split; split; reflexivity. Qed.

(** X8. For any threshold above zero and a counter that starts below it
    (at zero, as [__init__] sets it): as long as the loop goes on the counter
    of consecutive offline probes stays below the threshold, and a run that
    ends as offline ends with the counter exactly at the threshold. *)
Theorem offline_exit_at_threshold
    (urlparse : string -> option ParseResult) (w : StreamWorker) (s : StartEnv)
    (envs : list IterEnv) :
  (0 < offline_fresh_checks_to_switch w)%Z ->
  (0 <= _offline_fresh_checks w < offline_fresh_checks_to_switch w)%Z ->
  match run_end (run urlparse w s envs) with
  | Finished ExitOffline =>
      _offline_fresh_checks (run_worker (run urlparse w s envs))
      = offline_fresh_checks_to_switch w
  | Running =>
      (0 <= _offline_fresh_checks (run_worker (run urlparse w s envs))
       < offline_fresh_checks_to_switch w)%Z
  | Finished _ | Escaped => True
  end.
Proof.
  intros Hthr Hc. unfold run, run_end, run_worker.
  destruct (domain_from_url urlparse (url w)) as [domain |]; [| exact I].
  destruct (startup_counter w domain s) as [Hc1 Ht1].
  destruct (startup w domain s) as [w1 started]. simpl in Hc1, Ht1.
  destruct started; [| exact I].
  rewrite <- Ht1 in Hthr, Hc. rewrite <- Hc1 in Hc.
  pose proof (loop_counter urlparse envs w1 0 Hthr Hc) as H.
  destruct (loop urlparse w1 0 envs) as [[w2 r] evs]. simpl in H.
  destruct r as [reason |]; simpl.
  - destruct reason; try exact I. congruence.
  - rewrite <- Ht1. exact H.
Qed.

Lemma offline_exit_at_threshold_witness :
  _offline_fresh_checks
    (run_worker (run urlparse_basic (session 0 None false) start_ok
                     (ticks 6 1000 offline_payload 0))) = 2%Z.
Proof.
  assert (Hthr : (0 < offline_fresh_checks_to_switch (session 0 None false))%Z)
    by reflexivity.
  assert (Hc : (0 <= _offline_fresh_checks (session 0 None false)
                < offline_fresh_checks_to_switch (session 0 None false))%Z)
    by (split; [discriminate | reflexivity]).
  pose proof (offline_exit_at_threshold urlparse_basic (session 0 None false) start_ok
                (ticks 6 1000 offline_payload 0) Hthr Hc) as H.
  assert (E : run_end (run urlparse_basic (session 0 None false) start_ok
                           (ticks 6 1000 offline_payload 0))
              = Finished ExitOffline) by (vm_compute; reflexivity).
  rewrite E in H. exact H.
Defined.

(** X9. A threshold of zero switches the offline exit off: [__init__]
    turns every threshold that is not positive into zero, and a worker with
    threshold zero never ends a run as offline, however many probes find the
    channel not live, and never raises [ended_because_offline]. *)
Theorem zero_threshold_never_offline
    (urlparse : string -> option ParseResult) (w : StreamWorker) (s : StartEnv)
    (envs : list IterEnv) :
  offline_fresh_checks_to_switch w = 0%Z ->
  run_end (run urlparse w s envs) <> Finished ExitOffline
  /\ ended_because_offline (run_worker (run urlparse w s envs))
     = ended_because_offline w
  /\ (forall u m up fin st thr cat cum,
         (thr <= 0)%Z ->
         offline_fresh_checks_to_switch (StreamWorker_init u m up fin st thr cat cum)
         = 0%Z).
Proof.
  intro Hz.
  assert (Hinit : forall u m up fin st thr cat cum,
             (thr <= 0)%Z ->
             offline_fresh_checks_to_switch (StreamWorker_init u m up fin st thr cat cum)
             = 0%Z)
    by (intros; simpl; lia).
  unfold run, run_end, run_worker.
  destruct (domain_from_url urlparse (url w)) as [domain |];
    [| split; [discriminate | split; [reflexivity | exact Hinit]]].
  destruct (startup_counter w domain s) as [_ Ht1].
  destruct (startup_frame w domain s) as [Hfl _].
  destruct (startup w domain s) as [w1 started]. simpl in Ht1, Hfl.
  assert (Ho1 : ended_because_offline w1 = ended_because_offline w)
    by (unfold flags in Hfl; injection Hfl; intros; assumption).
  destruct started.
  - pose proof (loop_zero_threshold urlparse envs w1 0 (eq_trans Ht1 Hz)) as Hne.
    destruct (loop_sound urlparse envs w1 0) as [Hl _].
    destruct (loop urlparse w1 0 envs) as [[w2 r] evs]. simpl in Hne, Hl.
    destruct r as [reason |]; simpl.
    + split; [intro H; apply Hne; congruence |].
      split; [| exact Hinit].
      unfold flags in Hl.
      destruct reason; simpl in Hl; injection Hl; intros; congruence.
    + split; [discriminate |]. split; [| exact Hinit].
      unfold flags in Hl. injection Hl. intros. congruence.
  - simpl. split; [discriminate |]. split; [exact Ho1 | exact Hinit].
Qed.

Lemma zero_threshold_never_offline_witness :
  run_end (run urlparse_basic
               (StreamWorker_init xqc 0 true true false 0 None false) start_ok
               (ticks 30 1000 offline_payload 0)) <> Finished ExitOffline.
Proof.
  exact (proj1 (zero_threshold_never_offline urlparse_basic
                  (StreamWorker_init xqc 0 true true false 0 None false) start_ok
                  (ticks 30 1000 offline_payload 0) eq_refl)).
Defined.

(** ** What a run never calls *)

Section Silent.

Variable urlparse : string -> option ParseResult.

(** A kind of event, and a condition on the configuration under which the
    body after the offline test produces none of that kind. *)
Variable kind : Event -> bool.
Variable quiet : StreamWorker -> Prop.

Hypothesis kind_not_probe : forall source, kind (EvLiveProbe source) = false.
Hypothesis quiet_config : forall w w1, config w1 = config w -> quiet w -> quiet w1.
Hypothesis tail_silent :
  forall w last_report live e,
    quiet w -> existsb kind (snd (category_check urlparse w last_report live e)) = false.

Lemma live_probes_silent (evs : list Event) :
  forallb is_live_probe evs = true -> existsb kind evs = false.
Proof.
  induction evs as [| ev evs IH]; intro H; [reflexivity |].
  simpl in H. apply andb_true_iff in H. destruct H as [Hev Hrest].
  destruct ev; try discriminate. simpl. rewrite kind_not_probe. apply IH, Hrest.
Qed.

Lemma loop_iteration_silent (w : StreamWorker) (last_report : Q) (e : IterEnv) :
  quiet w -> existsb kind (snd (loop_iteration urlparse w last_report e)) = false.
Proof.
  intro Hq. unfold loop_iteration.
  destruct (stop_event (stop_if (is_stop_before (owner_stop e)) w)); [reflexivity |].
  assert (Hq0 : quiet (stop_if (is_stop_mid (owner_stop e))
                         (stop_if (is_stop_before (owner_stop e)) w))).
  { apply (quiet_config w); [| exact Hq].
    destruct (is_stop_mid (owner_stop e)), (is_stop_before (owner_stop e));
      reflexivity. }
  revert Hq0.
  generalize (stop_if (is_stop_mid (owner_stop e))
                (stop_if (is_stop_before (owner_stop e)) w)) as w0.
  intros w0 Hq0. unfold loop_body.
  pose proof (outside_cache_config _ _ (is_stream_live_frame urlparse w0 (live_env e)))
    as Hcf.
  pose proof (is_stream_live_events urlparse w0 (live_env e)) as Hev.
  unfold worker_of in Hcf.
  destruct (is_stream_live urlparse w0 (live_env e)) as [[live w1] evs].
  simpl in Hcf, Hev. unfold with_events. simpl snd.
  rewrite existsb_app, (live_probes_silent evs Hev). simpl.
  unfold offline_check.
  match goal with |- context [if ?b then _ else _] => destruct b end;
    [reflexivity |].
  apply tail_silent. apply (quiet_config w0); [| exact Hq0].
  rewrite <- Hcf.
  match goal with |- context [if ?b then _ else _] => destruct b end;
    [destruct live |]; reflexivity.
Qed.

Lemma loop_silent (envs : list IterEnv) :
  forall (w : StreamWorker) (last_report : Q),
    quiet w -> existsb kind (snd (loop urlparse w last_report envs)) = false.
Proof.
  induction envs as [| e rest IH]; intros w last_report Hq; [reflexivity |].
  simpl.
  pose proof (loop_iteration_silent w last_report e Hq) as Hs.
  pose proof (loop_iteration_config urlparse w last_report e) as Hcf.
  destruct (loop_iteration urlparse w last_report e) as [[w' lr' | w' reason] evs];
    simpl in Hs, Hcf.
  - specialize (IH w' lr' (quiet_config w w' Hcf Hq)).
    destruct (loop urlparse w' lr' rest) as [[wf r] evs']. simpl in *.
    rewrite existsb_app, Hs, IH. reflexivity.
  - exact Hs.
Qed.

End Silent.

Lemma tail_no_update
    (urlparse : string -> option ParseResult) (w : StreamWorker) (last_report : Q)
    (live : bool) (e : IterEnv) :
  on_update w = false ->
  existsb is_update (snd (category_check urlparse w last_report live e)) = false.
Proof.
  intro H. destruct w; simpl in H; subst. unfold_tail.
  case_split; simpl in *; congruence.
Qed.

Lemma tail_no_cumulative
    (urlparse : string -> option ParseResult) (w : StreamWorker) (last_report : Q)
    (live : bool) (e : IterEnv) :
  cumulative_time_callback w = false \/ minutes_target w = 0%Z ->
  existsb is_cumulative_call (snd (category_check urlparse w last_report live e)) = false.
Proof.
  intro H. destruct w; simpl in H. unfold_tail.
  case_split; simpl in *; z_bool; try reflexivity;
    destruct H; congruence.
Qed.

Lemma tail_no_category
    (urlparse : string -> option ParseResult) (w : StreamWorker) (last_report : Q)
    (live : bool) (e : IterEnv) :
  opt_int_truthy (required_category_id w) = false ->
  existsb is_category_probe (snd (category_check urlparse w last_report live e)) = false.
Proof.
  intro H. unfold category_check. rewrite H. simpl.
  unfold tick_and_report, completion_check, with_events.
  case_split; reflexivity.
Qed.

Lemma tail_no_quit_no_finish
    (urlparse : string -> option ParseResult) (w : StreamWorker) (last_report : Q)
    (live : bool) (e : IterEnv) :
  existsb is_quit (snd (category_check urlparse w last_report live e)) = false
  /\ existsb is_finish (snd (category_check urlparse w last_report live e)) = false.
Proof. unfold_tail. case_split; split; reflexivity. Qed.

Lemma config_fields (w w1 : StreamWorker) :
  config w1 = config w ->
  on_update w1 = on_update w /\ on_finish w1 = on_finish w
  /\ required_category_id w1 = required_category_id w
  /\ cumulative_time_callback w1 = cumulative_time_callback w
  /\ minutes_target w1 = minutes_target w.
Proof. unfold config. intro H. injection H. intros. repeat split; assumption. Qed.

Lemma cleanup_kinds (w : StreamWorker) :
  existsb is_update (cleanup w) = false
  /\ existsb is_cumulative_call (cleanup w) = false
  /\ existsb is_category_probe (cleanup w) = false
  /\ (on_finish w = false -> existsb is_finish (cleanup w) = false).
Proof.
  unfold cleanup. destruct (driver w), (on_finish w); repeat split;
    try reflexivity; intro; discriminate.
Qed.

(** The events of a run are those of the loop, when it was reached, and
    those of the cleanup, when the run ended. *)
Lemma run_events_shape
    (urlparse : string -> option ParseResult) (w : StreamWorker) (s : StartEnv)
    (envs : list IterEnv) :
  run_events (run urlparse w s envs) = []
  \/ (exists domain,
         domain_from_url urlparse (url w) = Some domain
         /\ ((snd (startup w domain s) = false
              /\ run_events (run urlparse w s envs) = cleanup (fst (startup w domain s)))
             \/ (snd (startup w domain s) = true
                 /\ (run_events (run urlparse w s envs)
                     = snd (loop urlparse (fst (startup w domain s)) 0 envs)
                     \/ run_events (run urlparse w s envs)
                        = snd (loop urlparse (fst (startup w domain s)) 0 envs)
                          ++ cleanup (fst (fst (loop urlparse (fst (startup w domain s))
                                                     0 envs))))))).
Proof.
  unfold run, run_events.
  destruct (domain_from_url urlparse (url w)) as [domain |]; [| left; reflexivity].
  right. exists domain. split; [reflexivity |].
  destruct (startup w domain s) as [w1 started]. simpl.
  destruct started.
  - right. split; [reflexivity |].
    destruct (loop urlparse w1 0 envs) as [[w2 r] evs].
    destruct r; simpl; [right | left]; reflexivity.
  - left. split; reflexivity.
Qed.

(** X10. A run calls no callback it was not given and no probe it has no
    use for: without [on_update] no progress callback, without [on_finish]
    no terminal callback, without a cumulative accessor or without a target
    no call of the accessor, and without a required category (none, or the
    falsy id 0) no category probe. *)
Theorem nothing_called_needlessly
    (urlparse : string -> option ParseResult) (w : StreamWorker) (s : StartEnv)
    (envs : list IterEnv) :
  (on_update w = false ->
   existsb is_update (run_events (run urlparse w s envs)) = false)
  /\ (on_finish w = false ->
      existsb is_finish (run_events (run urlparse w s envs)) = false)
  /\ (cumulative_time_callback w = false \/ minutes_target w = 0%Z ->
      existsb is_cumulative_call (run_events (run urlparse w s envs)) = false)
  /\ (opt_int_truthy (required_category_id w) = false ->
      existsb is_category_probe (run_events (run urlparse w s envs)) = false).
Proof.
  assert (Hgen : forall (kind : Event -> bool) (quiet : StreamWorker -> Prop),
             (forall source, kind (EvLiveProbe source) = false) ->
             (forall w0 w1, config w1 = config w0 -> quiet w0 -> quiet w1) ->
             (forall w0 lr live e,
                 quiet w0 ->
                 existsb kind (snd (category_check urlparse w0 lr live e)) = false) ->
             (forall w0, quiet w0 -> existsb kind (cleanup w0) = false) ->
             quiet w ->
             existsb kind (run_events (run urlparse w s envs)) = false).
  { intros kind quiet Hk Hc Ht Hcl Hq.
    destruct (run_events_shape urlparse w s envs)
      as [-> | [domain [_ [[_ ->] | [_ Hev]]]]]; [reflexivity | |].
    - apply Hcl. apply (Hc w); [apply startup_frame | exact Hq].
    - assert (Hq1 : quiet (fst (startup w domain s)))
        by (apply (Hc w); [apply startup_frame | exact Hq]).
      pose proof (loop_silent urlparse kind quiet Hk Hc Ht envs _ 0 Hq1) as Hl.
      destruct (loop_sound urlparse envs (fst (startup w domain s)) 0) as [_ [_ Hlc]].
      destruct Hev as [-> | ->]; [exact Hl |].
      rewrite existsb_app, Hl. simpl. apply Hcl.
      apply (Hc (fst (startup w domain s))); [exact Hlc | exact Hq1]. }
  split; [| split; [| split]].
  - apply (Hgen is_update (fun w0 => on_update w0 = false)).
    + reflexivity.
    + intros w0 w1 Hcf H. destruct (config_fields _ _ Hcf) as (E & _). congruence.
    + intros. apply tail_no_update. assumption.
    + intros. apply cleanup_kinds.
  - apply (Hgen is_finish (fun w0 => on_finish w0 = false)).
    + reflexivity.
    + intros w0 w1 Hcf H. destruct (config_fields _ _ Hcf) as (_ & E & _). congruence.
    + intros. apply tail_no_quit_no_finish.
    + intros w0 H. apply cleanup_kinds. exact H.
  - apply (Hgen is_cumulative_call
             (fun w0 => cumulative_time_callback w0 = false \/ minutes_target w0 = 0%Z)).
    + reflexivity.
    + intros w0 w1 Hcf H. destruct (config_fields _ _ Hcf) as (_ & _ & _ & E1 & E2).
      destruct H; [left | right]; congruence.
    + intros. apply tail_no_cumulative. assumption.
    + intros. apply cleanup_kinds.
  - apply (Hgen is_category_probe
             (fun w0 => opt_int_truthy (required_category_id w0) = false)).
    + reflexivity.
    + intros w0 w1 Hcf H. destruct (config_fields _ _ Hcf) as (_ & _ & E & _).
      congruence.
    + intros. apply tail_no_category. assumption.
    + intros. apply cleanup_kinds.
Qed.

Lemma nothing_called_needlessly_witness :
  existsb is_update
    (run_events (run urlparse_basic
                     (StreamWorker_init xqc 1 false true false 2 (Some 0%Z) false)
                     start_ok (ticks 60 1000 live_payload 0))) = false
  /\ existsb is_category_probe
       (run_events (run urlparse_basic
                        (StreamWorker_init xqc 1 false true false 2 (Some 0%Z) false)
                        start_ok (ticks 60 1000 live_payload 0))) = false.
Proof.
  destruct (nothing_called_needlessly urlparse_basic
              (StreamWorker_init xqc 1 false true false 2 (Some 0%Z) false)
              start_ok (ticks 60 1000 live_payload 0)) as [Hu [_ [_ Hc]]].
  split; [exact (Hu eq_refl) | exact (Hc eq_refl)].
Defined.

(** ** The browser session *)

Lemma loop_iteration_driver
    (urlparse : string -> option ParseResult) (w : StreamWorker) (last_report : Q)
    (e : IterEnv) :
  driver (step_worker (fst (loop_iteration urlparse w last_report e))) = driver w.
Proof.
  unfold loop_iteration.
  destruct (stop_event (stop_if (is_stop_before (owner_stop e)) w)).
  - destruct (is_stop_before (owner_stop e)); reflexivity.
  - transitivity (driver (stop_if (is_stop_mid (owner_stop e))
                            (stop_if (is_stop_before (owner_stop e)) w)));
      [| destruct (is_stop_mid (owner_stop e)), (is_stop_before (owner_stop e));
         reflexivity].
    generalize (stop_if (is_stop_mid (owner_stop e))
                  (stop_if (is_stop_before (owner_stop e)) w)) as w0.
    intro w0. unfold loop_body.
    destruct (outside_cache_inv _ _ (is_stream_live_frame urlparse w0 (live_env e)))
      as (_ & _ & _ & Hd & _).
    unfold worker_of in Hd.
    destruct (is_stream_live urlparse w0 (live_env e)) as [[live w1] evs].
    simpl in Hd. simpl fst. rewrite <- Hd. unfold offline_check.
    match goal with |- context [if ?b then _ else _] => destruct b end.
    + match goal with |- context [if ?b then _ else _] => destruct b end;
        [destruct live |]; reflexivity.
    + match goal with
      | |- context [category_check urlparse ?w2 last_report live e] =>
          pose proof (category_check_frame urlparse w2 last_report live e) as Hfr;
          assert (Hw2 : driver w2 = driver w1)
      end.
      { match goal with |- context [if ?b then _ else _] => destruct b end;
          [destruct live |]; reflexivity. }
      unfold after_offline_test in Hfr. injection Hfr. intros. congruence.
Qed.

Lemma loop_driver (urlparse : string -> option ParseResult) (envs : list IterEnv) :
  forall (w : StreamWorker) (last_report : Q),
    driver (fst (fst (loop urlparse w last_report envs))) = driver w.
Proof.
  induction envs as [| e rest IH]; intros w last_report; [reflexivity |].
  simpl.
  pose proof (loop_iteration_driver urlparse w last_report e) as Hd.
  destruct (loop_iteration urlparse w last_report e) as [[w' lr' | w' reason] evs];
    simpl in Hd.
  - specialize (IH w' lr').
    destruct (loop urlparse w' lr' rest) as [[wf r] evs']. simpl in *. congruence.
  - exact Hd.
Qed.

Lemma loop_no_quit (urlparse : string -> option ParseResult) (envs : list IterEnv)
    (w : StreamWorker) (last_report : Q) :
  existsb is_quit (snd (loop urlparse w last_report envs)) = false.
Proof.
  apply (loop_silent urlparse is_quit (fun _ => True)).
  - reflexivity.
  - intros. exact I.
  - intros. apply tail_no_quit_no_finish.
  - exact I.
Qed.

(** X11. For a worker that holds no driver yet, a run that ends tears the
    browser down exactly once if [make_chrome_driver] returned one, and not
    at all if it raised; the teardown comes after everything the loop did and
    before the terminal callback.  A run that is still going has not torn it
    down. *)
Theorem browser_torn_down_once
    (urlparse : string -> option ParseResult) (w : StreamWorker) (s : StartEnv)
    (envs : list IterEnv) :
  driver w = false ->
  match run_end (run urlparse w s envs) with
  | Finished _ =>
      exists before,
        run_events (run urlparse w s envs)
        = before
            ++ (if make_chrome_driver_raises s then [] else [EvQuit])
            ++ (if on_finish w
                then [EvFinish (elapsed_seconds (run_worker (run urlparse w s envs)))
                               (completed (run_worker (run urlparse w s envs)))]
                else [])
        /\ existsb is_quit before = false
  | Running | Escaped => existsb is_quit (run_events (run urlparse w s envs)) = false
  end.
Proof.
  intro Hd. unfold run, run_end, run_events, run_worker.
  destruct (domain_from_url urlparse (url w)) as [domain |]; [| reflexivity].
  assert (Hs : driver (fst (startup w domain s))
               = negb (make_chrome_driver_raises s)
               /\ (make_chrome_driver_raises s = true -> snd (startup w domain s) = false)).
  { unfold startup. case_split; simpl; split; try reflexivity; try exact Hd;
      intro; congruence. }
  destruct (startup_frame w domain s) as [_ Hcf].
  apply config_on_finish in Hcf.
  destruct (startup w domain s) as [w1 started]. simpl in Hs, Hcf.
  destruct Hs as [Hd1 Hraise].
  destruct started.
  - pose proof (loop_driver urlparse envs w1 0) as Hld.
    pose proof (loop_no_quit urlparse envs w1 0) as Hnq.
    destruct (loop_sound urlparse envs w1 0) as [_ [_ Hlc]].
    apply config_on_finish in Hlc.
    destruct (loop urlparse w1 0 envs) as [[w2 r] evs]. simpl in Hld, Hnq, Hlc.
    destruct r as [reason |]; simpl; [| exact Hnq].
    exists evs. split; [| exact Hnq].
    unfold cleanup. rewrite Hld, Hd1, Hlc, Hcf.
    destruct (make_chrome_driver_raises s); reflexivity.
  - simpl. exists []. split; [| reflexivity].
    unfold cleanup. rewrite Hd1, Hcf.
    destruct (make_chrome_driver_raises s); reflexivity.
Qed.

Lemma browser_torn_down_once_witness :
  exists before,
    run_events (run urlparse_basic (session 1 None false) start_no_page
                    (ticks 60 1000 live_payload 0))
    = before ++ [EvQuit] ++ [EvFinish 0 false]
    /\ existsb is_quit before = false.
Proof.
  pose proof (browser_torn_down_once urlparse_basic (session 1 None false)
                start_no_page (ticks 60 1000 live_payload 0) eq_refl) as H.
  assert (E : run_end (run urlparse_basic (session 1 None false) start_no_page
                           (ticks 60 1000 live_payload 0))
              = Finished ExitException) by (vm_compute; reflexivity).
  rewrite E in H. exact H.
Defined.

(** ** The direct probe and the user name *)

Lemma split_head_no_sep (c : ascii) (s : string) :
  str_in (String c EmptyString) (split_head c s) = false.
Proof.
  induction s as [| a t IH]; [reflexivity |].
  simpl split_head. destruct (Ascii.eqb a c) eqn:E; [reflexivity |].
  cbn [str_in String.prefix].
  destruct (ascii_dec c a) as [Heq | Hne].
  - subst. rewrite Ascii.eqb_refl in E. discriminate.
  - exact IH.
Qed.

Lemma str_truthy_nonempty (s : string) : str_truthy s = true <-> s <> "".
Proof. destruct s; simpl; split; intro H; congruence. Qed.

(** X12. The user name read off a channel address is never empty and holds
    no slash, and it is only given for a host that contains kick.com. *)
Theorem username_is_one_path_segment
    (urlparse : string -> option ParseResult) (u name : string) :
  _kick_username_from_url urlparse u = Some name ->
  name <> ""
  /\ str_in "/" name = false
  /\ exists p, urlparse u = Some p
               /\ str_in "kick.com" (netloc p) = true
               /\ name = split_head slash (strip slash (path p)).
Proof.
  unfold _kick_username_from_url. intro H.
  destruct (urlparse u) as [p |]; [| discriminate].
  destruct (str_in "kick.com" (netloc p)) eqn:Hhost; [| discriminate].
  simpl in H.
  destruct (str_truthy (split_head slash (strip slash (path p)))) eqn:Ht;
    [| discriminate].
  injection H as <-.
  split; [apply str_truthy_nonempty, Ht |].
  split; [apply (split_head_no_sep slash) |].
  exists p. split; [reflexivity |]. split; [exact Hhost | reflexivity].
Qed.

Lemma username_is_one_path_segment_witness :
  "xqc" <> "" /\ str_in "/" "xqc" = false.
Proof.
  destruct (username_is_one_path_segment urlparse_basic
              "https://kick.com/xqc/videos/" "xqc" eq_refl) as [H1 [H2 _]].
  split; [exact H1 | exact H2].
Defined.

(** X13. The direct probe gives a definite answer only from a payload the
    endpoint returned for the user name that [_kick_username_from_url] reads
    off the same address, and the answer is that payload's; so
    [kick_is_live_by_api] says "offline" only on such a payload, and an
    address without a user name never gets a definite answer. *)
Theorem definite_status_comes_from_endpoint
    (urlparse : string -> option ParseResult) (urlopen : string -> HttpOutcome)
    (u : string) :
  (forall b, kick_live_status_by_api urlparse urlopen u = Some b ->
             exists name livestream,
               _kick_username_from_url urlparse u = Some name
               /\ urlopen (String.append "https://kick.com/api/v2/channels/" name)
                  = HttpData livestream
               /\ livestream_is_live livestream = b
               /\ kick_is_live_by_api urlparse urlopen u = b)
  /\ (kick_is_live_by_api urlparse urlopen u = false ->
      kick_live_status_by_api urlparse urlopen u = Some false)
  /\ (_kick_username_from_url urlparse u = None ->
      kick_live_status_by_api urlparse urlopen u = None).
Proof.
  split; [| split].
  - intros b H. unfold kick_is_live_by_api. rewrite H.
    unfold kick_live_status_by_api in H. unfold _kick_username_from_url.
    destruct (urlparse u) as [p |]; [| discriminate].
    destruct (negb (str_in "kick.com" (netloc p))); [discriminate |].
    destruct (str_truthy (split_head slash (strip slash (path p)))); [| discriminate].
    simpl in H.
    destruct (urlopen _) as [| livestream] eqn:E; [discriminate |].
    injection H as <-.
    exists (split_head slash (strip slash (path p))), livestream.
    repeat split. exact E.
  - unfold kick_is_live_by_api.
    destruct (kick_live_status_by_api urlparse urlopen u) as [[|] |];
      intro H; congruence.
  - unfold kick_live_status_by_api, _kick_username_from_url.
    destruct (urlparse u) as [p |]; [| reflexivity].
    destruct (negb (str_in "kick.com" (netloc p))); [reflexivity |].
    destruct (str_truthy (split_head slash (strip slash (path p))));
      [discriminate | reflexivity].
Qed.

Lemma definite_status_comes_from_endpoint_witness :
  kick_live_status_by_api urlparse_basic urlopen_flaky chan_b = Some false.
Proof.
  destruct (definite_status_comes_from_endpoint urlparse_basic urlopen_flaky chan_b)
    as [_ [H _]].
  apply H. reflexivity.
Defined.

(** ** More on the channel fallback *)

Lemma scan_some (is_live : string -> bool) (current_url : string) (tried : list string)
    (chs : list App.Channel) (alt : string) :
  App.scan is_live current_url tried chs = Some alt ->
  In alt (App.channel_urls chs)
  /\ App.eligible current_url tried alt = true
  /\ is_live alt = true.
Proof.
  induction chs as [| ch rest IH]; simpl; [discriminate |].
  destruct (App.channel_url ch) as [v |]; [| exact IH].
  unfold App.eligible in *.
  destruct (negb (v =? current_url)%string && negb (list_in v tried)) eqn:Hel.
  - destruct (is_live v) eqn:Hlive.
    + intro H. injection H as <-.
      split; [left; reflexivity |]. split; [exact Hel | exact Hlive].
    + intro H. destruct (IH H) as [Hin Hrest]. split; [right; exact Hin | exact Hrest].
  - intro H. destruct (IH H) as [Hin Hrest]. split; [right; exact Hin | exact Hrest].
Qed.

Lemma eligible_true (current_url : string) (tried : list string) (u : string) :
  App.eligible current_url tried u = true -> u <> current_url /\ ~ In u tried.
Proof.
  unfold App.eligible. intro H. apply andb_true_iff in H. destruct H as [H1 H2].
  apply negb_true_iff in H1, H2. split.
  - apply String.eqb_neq, H1.
  - intro Hin. apply list_in_In in Hin. congruence.
Qed.

(** X14. Whatever the probe answers, the fallback of [on_worker_finish]
    leaves the campaign and its channel list alone; when it reports no
    switch the entry keeps its channel; when it reports a switch the new
    channel differs from the one that just ended, is one of the stored
    siblings, was not in the tried list the scan used, was found live by the
    probe, and is now the last entry of the tried list. *)
Theorem switch_only_to_live_untried_sibling
    (is_live : string -> bool) (item : App.Item) :
  let r := App.on_worker_finish_switch is_live item in
  App.campaign_id (fst r) = App.campaign_id item
  /\ App.campaign_channels (fst r) = App.campaign_channels item
  /\ (snd r = false -> App.url (fst r) = App.url item)
  /\ (snd r = true ->
      App.url (fst r) <> App.url item
      /\ In (App.url (fst r)) (App.channel_urls (App.campaign_channels item))
      /\ ~ In (App.url (fst r)) (App.tried_after_reset item)
      /\ is_live (App.url (fst r)) = true
      /\ App.tried_channels (fst r)
         = Some (App.tried_after_reset item ++ [App.url (fst r)])).
Proof.
  assert (Hskip : forall r0 : App.Item * bool, r0 = (item, false) ->
            App.campaign_id (fst r0) = App.campaign_id item
            /\ App.campaign_channels (fst r0) = App.campaign_channels item
            /\ (snd r0 = false -> App.url (fst r0) = App.url item)
            /\ (snd r0 = true ->
                App.url (fst r0) <> App.url item
                /\ In (App.url (fst r0)) (App.channel_urls (App.campaign_channels item))
                /\ ~ In (App.url (fst r0)) (App.tried_after_reset item)
                /\ is_live (App.url (fst r0)) = true
                /\ App.tried_channels (fst r0)
                   = Some (App.tried_after_reset item ++ [App.url (fst r0)]))).
  { intros r0 ->. simpl. repeat split; discriminate. }
  cbv zeta.
  destruct (App.campaign_id item) as [id |] eqn:Hid;
    [| apply Hskip; unfold App.on_worker_finish_switch; rewrite Hid; reflexivity].
  destruct (str_truthy id) eqn:Ht;
    [| apply Hskip; unfold App.on_worker_finish_switch; rewrite Hid, Ht;
       destruct (App.campaign_channels item); reflexivity].
  destruct (App.campaign_channels item) as [| ch rest] eqn:Hchs;
    [apply Hskip; unfold App.on_worker_finish_switch; rewrite Hid, Hchs; reflexivity |].
  assert (Hne : App.campaign_channels item <> []) by (rewrite Hchs; discriminate).
  rewrite (switch_runs is_live item id Hid Ht Hne). rewrite Hchs in *.
  destruct (App.scan is_live (App.url item) (App.tried_after_reset item) (ch :: rest))
    as [alt |] eqn:Hscan; simpl.
  - split; [congruence |]. split; [congruence |].
    split; [discriminate |].
    intros _. apply scan_some in Hscan. destruct Hscan as [Hin [Hel Hlive]].
    apply eligible_true in Hel. destruct Hel as [Helne Hnt].
    repeat split; assumption.
  - split; [congruence |]. split; [congruence |].
    split; [reflexivity | discriminate].
Qed.

Lemma mark_current_NoDup (current_url : string) (tried : list string) :
  NoDup tried -> NoDup (App.mark_current current_url tried).
Proof.
  intro H. unfold App.mark_current.
  destruct (list_in current_url tried) eqn:E; [exact H |].
  apply NoDup_app; [exact H | repeat constructor; simpl; tauto |].
  intros x Hx [<- | []]. apply list_in_In in Hx. congruence.
Qed.

Lemma reset_NoDup (tried all : list string) :
  NoDup tried -> NoDup (App.reset_if_exhausted tried all).
Proof.
  intro H. unfold App.reset_if_exhausted.
  destruct (length all <=? length tried)%nat; [constructor | exact H].
Qed.

Lemma tried_after_reset_NoDup (item : App.Item) :
  NoDup (tried_of item) -> NoDup (App.tried_after_reset item).
Proof.
  intro H. unfold App.tried_after_reset. apply reset_NoDup, mark_current_NoDup, H.
Qed.

Lemma tried_after_reset_short (item : App.Item) :
  (length (App.tried_after_reset item)
   < length (App.all_channel_urls (App.url item) (App.campaign_channels item)))%nat.
Proof.
  unfold App.tried_after_reset. apply Nat.ltb_lt, reset_leaves_room.
  apply all_channel_urls_nonempty.
Qed.

Lemma snoc_NoDup (l : list string) (x : string) :
  NoDup l -> ~ In x l -> NoDup (l ++ [x]).
Proof.
  intros Hl Hx. apply NoDup_app; [exact Hl | repeat constructor; simpl; tauto |].
  intros y Hy [<- | []]. exact (Hx Hy).
Qed.

(** X15. A tried list without repetition stays without repetition through
    the fallback of [on_worker_finish], switch or not; and when the fallback
    ran (campaign and siblings present) the stored tried list is never
    longer than the candidate list of that call. *)
Theorem tried_list_stays_duplicate_free
    (is_live : string -> bool) (item : App.Item) :
  NoDup (tried_of item) ->
  NoDup (tried_of (fst (App.on_worker_finish_switch is_live item)))
  /\ (forall id, App.campaign_id item = Some id -> str_truthy id = true ->
                 App.campaign_channels item <> [] ->
                 (length (tried_of (fst (App.on_worker_finish_switch is_live item)))
                  <= length (App.all_channel_urls (App.url item)
                               (App.campaign_channels item)))%nat).
Proof.
  intro Hnd.
  pose proof (tried_after_reset_NoDup item Hnd) as Hnd2.
  pose proof (tried_after_reset_short item) as Hshort.
  split.
  - destruct (App.campaign_id item) as [id |] eqn:Hid;
      [| unfold App.on_worker_finish_switch; rewrite Hid; exact Hnd].
    destruct (str_truthy id) eqn:Ht;
      [| unfold App.on_worker_finish_switch; rewrite Hid, Ht;
         destruct (App.campaign_channels item); exact Hnd].
    destruct (App.campaign_channels item) as [| ch rest] eqn:Hchs;
      [unfold App.on_worker_finish_switch; rewrite Hid, Hchs; exact Hnd |].
    assert (Hne : App.campaign_channels item <> []) by (rewrite Hchs; discriminate).
    rewrite (switch_runs is_live item id Hid Ht Hne).
    destruct (App.scan is_live (App.url item) (App.tried_after_reset item)
                (App.campaign_channels item)) as [alt |] eqn:Hscan; simpl.
    + apply scan_some in Hscan. destruct Hscan as [_ [Hel _]].
      apply eligible_true in Hel. unfold tried_of. simpl.
      apply snoc_NoDup; [exact Hnd2 | apply Hel].
    + exact Hnd2.
  - intros id Hid Ht Hne.
    rewrite (switch_runs is_live item id Hid Ht Hne).
    destruct (App.scan is_live (App.url item) (App.tried_after_reset item)
                (App.campaign_channels item)) as [alt |]; unfold tried_of; simpl.
    + rewrite length_app. simpl. lia.
    + lia.
Qed.

Lemma tried_list_stays_duplicate_free_witness :
  NoDup (tried_of (fst (App.on_worker_finish_switch only_c_live example_item))).
Proof.
  assert (H : NoDup (tried_of example_item))
    by (repeat constructor; simpl; tauto).
  exact (proj1 (tried_list_stays_duplicate_free only_c_live example_item H)).
Defined.

(** X16. For an entry with a campaign whose channel the probe finds
    offline, the fallback of [_start_index] decides like the one of
    [on_worker_finish]: the same switch, to the same sibling; the two leave
    the same entry whenever they switch or the entry already had a tried
    list.  Only when nothing is found for an entry without a tried list does
    [_start_index] store none where [on_worker_finish] stores one. *)
Theorem start_fallback_agrees
    (is_live : string -> bool) (item : App.Item) (id : string) :
  App.campaign_id item = Some id -> str_truthy id = true ->
  is_live (App.url item) = false ->
  snd (_start_index_switch is_live item) = snd (App.on_worker_finish_switch is_live item)
  /\ App.url (fst (_start_index_switch is_live item))
     = App.url (fst (App.on_worker_finish_switch is_live item))
  /\ (snd (_start_index_switch is_live item) = true \/ App.tried_channels item <> None ->
      _start_index_switch is_live item = App.on_worker_finish_switch is_live item)
  /\ (snd (_start_index_switch is_live item) = false ->
      App.tried_channels item = None ->
      App.campaign_channels item <> [] ->
      App.tried_channels (fst (_start_index_switch is_live item)) = None
      /\ App.tried_channels (fst (App.on_worker_finish_switch is_live item))
         = Some (App.tried_after_reset item)).
Proof.
  intros Hid Ht Hoff.
  unfold _start_index_switch. rewrite Hoff.
  destruct (App.campaign_channels item) as [| ch rest] eqn:Hchs.
  - unfold App.on_worker_finish_switch. rewrite Hid, Hchs. simpl.
    repeat split; try reflexivity; try congruence.
  - assert (Hne : App.campaign_channels item <> []) by (rewrite Hchs; discriminate).
    rewrite (switch_runs is_live item id Hid Ht Hne).
    cbv zeta. unfold tried_of. rewrite <- Hchs.
    fold (App.tried_after_reset item).
    destruct (App.scan is_live (App.url item) (App.tried_after_reset item)
                (App.campaign_channels item)) as [alt |]; simpl.
    + repeat split; try reflexivity; try discriminate.
    + split; [reflexivity |]. split; [reflexivity |]. split.
      * intros [H | H]; [discriminate |].
        unfold App.left_for_retry.
        destruct (App.tried_channels item); [reflexivity | congruence].
      * intros _ Hnone _. rewrite Hnone. split; reflexivity.
Qed.

Lemma start_fallback_agrees_witness :
  _start_index_switch only_c_live example_item
  = App.on_worker_finish_switch only_c_live example_item.
Proof.
  destruct (start_fallback_agrees only_c_live example_item "42"
              eq_refl eq_refl eq_refl) as [_ [_ [H _]]].
  apply H. left. reflexivity.
Defined.

(** ** The queue: ledger of a global drop *)

Lemma fold_total_shift (cid : string) (items : list QueueItem) (a : Z) :
  fold_left
    (fun total other_item =>
       if same_campaign cid other_item
       then (total + cumulative_time other_item)%Z else total)
    items a
  = (a + fold_left
           (fun total other_item =>
              if same_campaign cid other_item
              then (total + cumulative_time other_item)%Z else total)
           items 0)%Z.
Proof.
  revert a. induction items as [| it rest IH]; intro a; simpl; [lia |].
  destruct (same_campaign cid it).
  - rewrite (IH (a + cumulative_time it)%Z), (IH (cumulative_time it)). lia.
  - apply IH.
Qed.

Lemma total_cons (cid : string) (it : QueueItem) (rest : list QueueItem) :
  str_truthy cid = true ->
  get_cumulative_time (Some cid) (it :: rest)
  = ((if same_campaign cid it then cumulative_time it else 0)
     + get_cumulative_time (Some cid) rest)%Z.
Proof.
  intro Ht. unfold get_cumulative_time. rewrite Ht. simpl.
  rewrite fold_total_shift. destruct (same_campaign cid it); lia.
Qed.

Lemma same_campaign_view (cid : string) (a b : QueueItem) :
  fst (ledger_view a) = fst (ledger_view b) -> same_campaign cid a = same_campaign cid b.
Proof.
  unfold ledger_view, same_campaign. cbn [fst]. intro H. rewrite H. reflexivity.
Qed.

Lemma total_view (campaign_id : option string) (l1 : list QueueItem) :
  forall l2, map ledger_view l1 = map ledger_view l2 ->
             get_cumulative_time campaign_id l1 = get_cumulative_time campaign_id l2.
Proof.
  destruct campaign_id as [cid |]; [| reflexivity].
  destruct (str_truthy cid) eqn:Ht;
    [| intros; unfold get_cumulative_time; rewrite Ht; reflexivity].
  induction l1 as [| a r1 IH]; intros [| b r2] H; try discriminate; [reflexivity |].
  simpl in H. injection H as Hid Hc Hr.
  rewrite !total_cons by exact Ht.
  rewrite (same_campaign_view cid a b Hid), (IH r2 Hr), Hc. reflexivity.
Qed.

Lemma total_add_elapsed (cid : string) (elapsed : Z) (items : list QueueItem) :
  str_truthy cid = true ->
  get_cumulative_time (Some cid) (add_elapsed cid elapsed items)
  = (get_cumulative_time (Some cid) items
     + Z.of_nat (campaign_size cid items) * elapsed)%Z.
Proof.
  intro Ht. unfold campaign_size.
  induction items as [| it rest IH]; [unfold get_cumulative_time; rewrite Ht; reflexivity |].
  change (add_elapsed cid elapsed (it :: rest))
    with ((if same_campaign cid it
           then with_cumulative_time (cumulative_time it + elapsed)%Z it else it)
          :: add_elapsed cid elapsed rest).
  rewrite !total_cons by exact Ht. rewrite IH. simpl filter.
  destruct (same_campaign cid it) eqn:E.
  - change (same_campaign cid (with_cumulative_time (cumulative_time it + elapsed)%Z it))
      with (same_campaign cid it).
    rewrite E. simpl length. simpl cumulative_time. lia.
  - rewrite E. lia.
Qed.

Lemma total_other_campaign (cid other : string) (elapsed : Z) (items : list QueueItem) :
  other <> cid ->
  get_cumulative_time (Some other) (add_elapsed cid elapsed items)
  = get_cumulative_time (Some other) items.
Proof.
  intro Hne. destruct (str_truthy other) eqn:Ht;
    [| unfold get_cumulative_time; rewrite Ht; reflexivity].
  induction items as [| it rest IH]; [reflexivity |].
  change (add_elapsed cid elapsed (it :: rest))
    with ((if same_campaign cid it
           then with_cumulative_time (cumulative_time it + elapsed)%Z it else it)
          :: add_elapsed cid elapsed rest).
  rewrite !total_cons by exact Ht. rewrite IH.
  destruct (same_campaign cid it) eqn:E; [| reflexivity].
  change (same_campaign other (with_cumulative_time (cumulative_time it + elapsed)%Z it))
    with (same_campaign other it).
  assert (Ho : same_campaign other it = false).
  { unfold same_campaign in *. destruct (App.campaign_id (entry it)) as [c |];
      [| reflexivity].
    apply String.eqb_eq in E. subst c. apply String.eqb_neq.
    intro Heq. apply Hne. symmetry. exact Heq. }
  rewrite Ho. reflexivity.
Qed.

Lemma view_update_nth (f : QueueItem -> QueueItem) (l : list QueueItem) :
  (forall x, ledger_view (f x) = ledger_view x) ->
  forall i, map ledger_view (update_nth i f l) = map ledger_view l.
Proof.
  intro Hf. induction l as [| x rest IH]; intros [| j]; simpl; try reflexivity.
  - rewrite Hf. reflexivity.
  - rewrite IH. reflexivity.
Qed.

Lemma view_mark_campaign_finished (cid : string) (l : list QueueItem) :
  map ledger_view (mark_campaign_finished cid l) = map ledger_view l.
Proof.
  unfold mark_campaign_finished. rewrite map_map. apply map_ext.
  intro it. destruct (same_campaign cid it); reflexivity.
Qed.

Lemma switch_keeps_campaign (is_live : string -> bool) (item : App.Item) :
  App.campaign_id (fst (App.on_worker_finish_switch is_live item)) = App.campaign_id item.
Proof.
  unfold App.on_worker_finish_switch.
  destruct (App.campaign_id item) as [id |] eqn:Hid; [| exact Hid].
  destruct (App.campaign_channels item); [exact Hid |].
  destruct (negb (str_truthy id)); [exact Hid |].
  cbv zeta. destruct (App.scan _ _ _ _); reflexivity.
Qed.

Lemma view_with_switched_entry (is_live : string -> bool) (l : list QueueItem) (i : nat)
    (it : QueueItem) :
  nth_error l i = Some it ->
  map ledger_view
    (update_nth i (with_entry (fst (App.on_worker_finish_switch is_live (entry it)))) l)
  = map ledger_view l.
Proof.
  revert i. induction l as [| x rest IH]; intros [| j] H; simpl in *; try discriminate.
  - injection H as ->. unfold ledger_view. simpl.
    rewrite switch_keeps_campaign. reflexivity.
  - rewrite (IH j H). reflexivity.
Qed.

Lemma track_cumulative_global (items : list QueueItem) (i : nat) (item : QueueItem)
    (elapsed : Z) (completed : bool) (cid : string) :
  nth_error items i = Some item ->
  is_global_drop item = true -> App.campaign_id (entry item) = Some cid ->
  str_truthy cid = true ->
  track_cumulative items i item elapsed completed
  = if (0 <? minutes item)%Z && (minutes item <=? (cumulative_time item + elapsed) / 60)%Z
    then (mark_campaign_finished cid (add_elapsed cid elapsed items), true)
    else (add_elapsed cid elapsed items, false).
Proof.
  intros Hnth Hg Hid Ht. unfold track_cumulative. rewrite Hid, Hg, Ht. simpl andb.
  cbv iota zeta. unfold add_elapsed at 1. rewrite nth_error_map, Hnth. simpl option_map.
  assert (Hsame : same_campaign cid item = true)
    by (unfold same_campaign; rewrite Hid; apply String.eqb_refl).
  rewrite Hsame. reflexivity.
Qed.

Lemma in_range (items : list QueueItem) (idx : Z) (item : QueueItem) :
  (0 <= idx)%Z -> nth_error items (Z.to_nat idx) = Some item ->
  (idx <? 0)%Z || (Z.of_nat (length items) <=? idx)%Z = false.
Proof.
  intros Hpos Hnth.
  assert (Hlt : (Z.to_nat idx < length items)%nat)
    by (apply nth_error_Some; congruence).
  apply orb_false_iff. split; [apply Z.ltb_ge; exact Hpos | apply Z.leb_gt; lia].
Qed.

Lemma on_worker_finish_view (is_live : string -> bool) (items : list QueueItem)
    (worker : option StreamWorker) (idx elapsed : Z) (completed : bool)
    (item : QueueItem) (cid : string) :
  (0 <= idx)%Z -> nth_error items (Z.to_nat idx) = Some item ->
  is_global_drop item = true -> App.campaign_id (entry item) = Some cid ->
  str_truthy cid = true ->
  map ledger_view (fst (on_worker_finish is_live items worker idx elapsed completed))
  = map ledger_view (add_elapsed cid elapsed items).
Proof.
  intros Hpos Hnth Hg Hid Ht. unfold on_worker_finish.
  rewrite (in_range items idx item Hpos Hnth). cbv zeta. rewrite Hnth.
  rewrite (track_cumulative_global items _ item elapsed completed cid Hnth Hg Hid Ht).
  destruct ((0 <? minutes item)%Z
            && (minutes item <=? (cumulative_time item + elapsed) / 60)%Z).
  - simpl fst. rewrite view_update_nth; [apply view_mark_campaign_finished |].
    intro x. rewrite Hg. reflexivity.
  - destruct (_ || _); [| reflexivity].
    destruct (nth_error (add_elapsed cid elapsed items) (Z.to_nat idx)) as [item1 |] eqn:E;
      [| reflexivity].
    pose proof (view_with_switched_entry is_live _ _ _ E) as Hv.
    destruct (App.on_worker_finish_switch is_live (entry item1)) as [e switched].
    exact Hv.
Qed.

(** X17. When a session of a global drop reports [elapsed] seconds,
    [on_worker_finish] adds them to the ledger of every item of the campaign,
    whatever else it then does; the accessor handed to the workers sums the
    ledgers of all these items, so what it returns grows by [elapsed] times
    the number of items of the campaign, and the sums of other campaigns stay
    as they were. *)
Theorem accessor_grows_by_campaign_size
    (is_live : string -> bool) (items : list QueueItem) (worker : option StreamWorker)
    (idx elapsed : Z) (completed : bool) (item : QueueItem) (cid : string) :
  (0 <= idx)%Z -> nth_error items (Z.to_nat idx) = Some item ->
  is_global_drop item = true -> App.campaign_id (entry item) = Some cid ->
  str_truthy cid = true ->
  let items' := fst (on_worker_finish is_live items worker idx elapsed completed) in
  get_cumulative_time (Some cid) items'
  = (get_cumulative_time (Some cid) items
     + Z.of_nat (campaign_size cid items) * elapsed)%Z
  /\ forall other, other <> cid ->
       get_cumulative_time (Some other) items' = get_cumulative_time (Some other) items.
Proof.
  intros Hpos Hnth Hg Hid Ht items'.
  pose proof (on_worker_finish_view is_live items worker idx elapsed completed item cid
                Hpos Hnth Hg Hid Ht) as Hv.
  fold items' in Hv. split.
  - rewrite (total_view (Some cid) items' _ Hv). apply total_add_elapsed, Ht.
  - intros other Hne.
    rewrite (total_view (Some other) items' _ Hv). apply total_other_campaign, Hne.
Qed.

Lemma accessor_grows_by_campaign_size_witness :
  get_cumulative_time (Some "42")
    (fst (on_worker_finish only_c_live sample_queue None 2 600 false))
  = (get_cumulative_time (Some "42") sample_queue + 3 * 600)%Z.
Proof.
  assert (Hpos : (0 <= 2)%Z) by lia.
  exact (proj1 (accessor_grows_by_campaign_size only_c_live sample_queue None 2 600
                  false (global_item chan_b) "42" Hpos eq_refl eq_refl eq_refl eq_refl)).
Defined.

Lemma ledger_is_view (cid : string) (c : Z) (l1 : list QueueItem) :
  forall l2, map ledger_view l1 = map ledger_view l2 ->
             ledger_is cid c l2 -> ledger_is cid c l1.
Proof.
  induction l1 as [| a r1 IH]; intros [| b r2] H Hl; try discriminate.
  - intros it [].
  - simpl in H. injection H as Hid Hc Hr.
    intros it [<- | Hin] Hsame.
    + rewrite Hc. apply Hl; [left; reflexivity |].
      rewrite <- (same_campaign_view cid a b Hid). exact Hsame.
    + apply (IH r2 Hr); [| exact Hin | exact Hsame].
      intros x Hx. apply Hl. right. exact Hx.
Qed.

Lemma ledger_is_add_elapsed (cid : string) (c elapsed : Z) (items : list QueueItem) :
  ledger_is cid c items -> ledger_is cid (c + elapsed) (add_elapsed cid elapsed items).
Proof.
  intros Hl it Hin Hsame. unfold add_elapsed in Hin. apply in_map_iff in Hin.
  destruct Hin as [x [<- Hx]].
  destruct (same_campaign cid x) eqn:E.
  - simpl. rewrite (Hl x Hx E). reflexivity.
  - congruence.
Qed.

Lemma total_of_uniform_ledger (cid : string) (c : Z) (items : list QueueItem) :
  str_truthy cid = true -> ledger_is cid c items ->
  get_cumulative_time (Some cid) items = (Z.of_nat (campaign_size cid items) * c)%Z.
Proof.
  intros Ht. unfold campaign_size.
  induction items as [| it rest IH]; intro Hl;
    [unfold get_cumulative_time; rewrite Ht; reflexivity |].
  rewrite total_cons by exact Ht.
  rewrite IH by (intros x Hx; apply Hl; right; exact Hx).
  simpl filter. destruct (same_campaign cid it) eqn:E.
  - rewrite (Hl it (or_introl eq_refl) E). simpl length. lia.
  - lia.
Qed.

Lemma in_update_nth {A : Type} (f : A -> A) (l : list A) :
  forall i y, In y (update_nth i f l) -> In y l \/ exists x, In x l /\ y = f x.
Proof.
  induction l as [| x rest IH]; intros [| j] y H; simpl in H; try contradiction.
  - destruct H as [<- | H]; [right; exists x; split; [left |]; reflexivity |].
    left. right. exact H.
  - destruct H as [<- | H]; [left; left; reflexivity |].
    destruct (IH j y H) as [Hin | [x' [Hx' Hy]]].
    + left. right. exact Hin.
    + right. exists x'. split; [right; exact Hx' | exact Hy].
Qed.

Lemma finished_update_nth (f : QueueItem -> QueueItem) (l : list QueueItem) :
  (forall x, finished (f x) = finished x) ->
  forall i, map finished (update_nth i f l) = map finished l.
Proof.
  intro Hf. induction l as [| x rest IH]; intros [| j]; simpl; try reflexivity.
  - rewrite Hf. reflexivity.
  - rewrite IH. reflexivity.
Qed.

Lemma finished_add_elapsed (cid : string) (elapsed : Z) (items : list QueueItem) :
  map finished (add_elapsed cid elapsed items) = map finished items.
Proof.
  unfold add_elapsed. rewrite map_map. apply map_ext.
  intro it. destruct (same_campaign cid it); reflexivity.
Qed.

Lemma campaign_marked_finished (cid : string) (items : list QueueItem) (it : QueueItem) :
  In it (mark_campaign_finished cid items) -> same_campaign cid it = true ->
  finished it = true.
Proof.
  unfold mark_campaign_finished. intros Hin Hsame. apply in_map_iff in Hin.
  destruct Hin as [x [<- Hx]].
  destruct (same_campaign cid x) eqn:E; [reflexivity | congruence].
Qed.

(** X18. While every item of a global drop's campaign carries the same
    ledger value [c], the accessor returns [c] times the number of items,
    and [on_worker_finish] keeps the ledgers equal, at [c + elapsed].  It
    decides completion from the ledger of the reporting item alone, whatever
    the worker passed as [completed]: when the target is above zero and
    reached by [(c + elapsed) // 60] minutes, every item of the campaign is
    marked finished, and otherwise no item's finished mark changes. *)
Theorem global_drop_shares_one_ledger
    (is_live : string -> bool) (items : list QueueItem) (worker : option StreamWorker)
    (idx elapsed : Z) (completed : bool) (item : QueueItem) (cid : string) (c : Z) :
  (0 <= idx)%Z -> nth_error items (Z.to_nat idx) = Some item ->
  is_global_drop item = true -> App.campaign_id (entry item) = Some cid ->
  str_truthy cid = true ->
  ledger_is cid c items ->
  let items' := fst (on_worker_finish is_live items worker idx elapsed completed) in
  let reached := (0 <? minutes item)%Z && (minutes item <=? (c + elapsed) / 60)%Z in
  ledger_is cid (c + elapsed) items'
  /\ get_cumulative_time (Some cid) items = (Z.of_nat (campaign_size cid items) * c)%Z
  /\ (reached = true ->
      forall it, In it items' -> same_campaign cid it = true -> finished it = true)
  /\ (reached = false -> map finished items' = map finished items).
Proof.
  intros Hpos Hnth Hg Hid Ht Hl items' reached.
  assert (Hsame : same_campaign cid item = true)
    by (unfold same_campaign; rewrite Hid; apply String.eqb_refl).
  assert (Hc : cumulative_time item = c)
    by (apply Hl; [apply (nth_error_In _ _ Hnth) | exact Hsame]).
  split; [| split; [exact (total_of_uniform_ledger cid c items Ht Hl) |]].
  - apply (ledger_is_view cid (c + elapsed) items' (add_elapsed cid elapsed items)).
    + apply (on_worker_finish_view is_live items worker idx elapsed completed item cid);
        assumption.
    + apply ledger_is_add_elapsed, Hl.
  - subst items' reached. unfold on_worker_finish.
    rewrite (in_range items idx item Hpos Hnth). cbv zeta. rewrite Hnth.
    rewrite (track_cumulative_global items _ item elapsed completed cid Hnth Hg Hid Ht).
    rewrite Hc.
    destruct ((0 <? minutes item)%Z && (minutes item <=? (c + elapsed) / 60)%Z).
    + split; [| discriminate]. intros _ it Hin Hit. simpl fst in Hin.
      rewrite Hg in Hin.
      apply in_update_nth in Hin. destruct Hin as [Hin | [x [Hx ->]]].
      * exact (campaign_marked_finished cid _ it Hin Hit).
      * exact (campaign_marked_finished cid _ x Hx Hit).
    + split; [discriminate |]. intros _.
      destruct (_ || _); [| apply finished_add_elapsed].
      destruct (nth_error (add_elapsed cid elapsed items) (Z.to_nat idx)) as [item1 |];
        [| apply finished_add_elapsed].
      destruct (App.on_worker_finish_switch is_live (entry item1)) as [e switched].
      simpl fst. rewrite finished_update_nth by reflexivity.
      apply finished_add_elapsed.
Qed.

Lemma sample_queue_ledger : ledger_is "42" 0 sample_queue.
Proof.
  intros it Hin _. simpl in Hin.
  destruct Hin as [<- | [<- | [<- | [<- | []]]]]; reflexivity.
Qed.

Lemma global_drop_shares_one_ledger_witness :
  ledger_is "42" (0 + 7200)
    (fst (on_worker_finish only_c_live sample_queue None 0 7200 false))
  /\ forall it,
       In it (fst (on_worker_finish only_c_live sample_queue None 0 7200 false)) ->
       same_campaign "42" it = true -> finished it = true.
Proof.
  assert (Hpos : (0 <= 0)%Z) by lia.
  destruct (global_drop_shares_one_ledger only_c_live sample_queue None 0 7200 false
              (global_item chan_a) "42" 0 Hpos eq_refl eq_refl eq_refl eq_refl
              sample_queue_ledger) as [H1 [_ [H2 _]]].
  split; [exact H1 | exact (H2 eq_refl)].
Defined.

(** ** The queue: how a session's ending is handled *)

Lemma track_cumulative_regular (items : list QueueItem) (i : nat) (item : QueueItem)
    (elapsed : Z) (completed : bool) :
  is_global_drop item = false ->
  track_cumulative items i item elapsed completed = (items, completed).
Proof.
  intro Hg. unfold track_cumulative. rewrite Hg.
  destruct (App.campaign_id (entry item)); reflexivity.
Qed.

(** X19. [run] and [on_worker_finish] fit together: for a regular
    (non-global) item and a worker whose flags were down at the start, the
    values the worker hands over at its end make [on_worker_finish] mark the
    item finished and empty its tried list when the session was completed,
    run the channel fallback when the session ended offline or in the wrong
    category, and leave the queue as it is after a stop or an exception. *)
Theorem session_end_drives_the_queue
    (urlparse : string -> option ParseResult) (is_live : string -> bool)
    (items : list QueueItem) (idx : Z) (item : QueueItem)
    (w : StreamWorker) (s : StartEnv) (envs : list IterEnv) :
  flags w = (false, false, false) ->
  (0 <= idx)%Z -> nth_error items (Z.to_nat idx) = Some item ->
  is_global_drop item = false ->
  let wf := run_worker (run urlparse w s envs) in
  let after :=
    on_worker_finish is_live items (Some wf) idx (elapsed_seconds wf) (completed wf) in
  match run_end (run urlparse w s envs) with
  | Finished ExitCompleted =>
      after = (update_nth (Z.to_nat idx)
                 (fun it => clear_tried (with_finished true it)) items, false)
  | Finished ExitOffline | Finished ExitWrongCategory =>
      after = (update_nth (Z.to_nat idx)
                 (with_entry (fst (App.on_worker_finish_switch is_live (entry item))))
                 items,
               snd (App.on_worker_finish_switch is_live (entry item)))
  | Finished ExitStopped | Finished ExitException => after = (items, false)
  | Running | Escaped => True
  end.
Proof.
  intros Hfl Hpos Hnth Hg wf after.
  pose proof (run_flags urlparse w s envs Hfl) as Hflags. fold wf in Hflags.
  subst after. unfold on_worker_finish.
  rewrite (in_range items idx item Hpos Hnth). cbv zeta. rewrite Hnth.
  rewrite (track_cumulative_regular items _ item _ _ Hg). rewrite Hg.
  destruct (run_end (run urlparse w s envs)) as [| reason |]; try exact I.
  unfold flags in Hflags.
  destruct reason; simpl in Hflags; injection Hflags as Hc Ho Hw;
    rewrite Hc, ?Ho, ?Hw; simpl orb; cbv iota; try reflexivity;
    rewrite Hnth;
    destruct (App.on_worker_finish_switch is_live (entry item)); reflexivity.
Qed.

Lemma session_end_drives_the_queue_witness :
  let wf := run_worker (run urlparse_basic (session 0 None false) start_ok
                            (ticks 6 1000 offline_payload 0)) in
  on_worker_finish only_c_live sample_queue (Some wf) 1 (elapsed_seconds wf) (completed wf)
  = (update_nth 1
       (with_entry (fst (App.on_worker_finish_switch only_c_live (entry (plain_item xqc)))))
       sample_queue,
     snd (App.on_worker_finish_switch only_c_live (entry (plain_item xqc)))).
Proof.
  assert (Hpos : (0 <= 1)%Z) by lia.
  pose proof (session_end_drives_the_queue urlparse_basic only_c_live sample_queue 1
                (plain_item xqc) (session 0 None false) start_ok
                (ticks 6 1000 offline_payload 0) eq_refl Hpos eq_refl eq_refl) as H.
  assert (E : run_end (run urlparse_basic (session 0 None false) start_ok
                           (ticks 6 1000 offline_payload 0))
              = Finished ExitOffline) by (vm_compute; reflexivity).
  cbv zeta in H. rewrite E in H. exact H.
Defined.

(** ** The stored configuration *)

Lemma dict_get_set {V : Type} (k k' : string) (v : V) (d : list (string * V)) :
  dict_get k' (dict_set k v d)
  = if String.eqb k k' then Some v else dict_get k' d.
Proof.
  induction d as [| [k0 v0] rest IH]; simpl.
  - reflexivity.
  - destruct (String.eqb k0 k) eqn:E0; simpl.
    + apply String.eqb_eq in E0. subst k0.
      destruct (String.eqb k k'); reflexivity.
    + destruct (String.eqb k0 k') eqn:E1.
      * apply String.eqb_eq in E1. subst k0. rewrite String.eqb_sym, E0. reflexivity.
      * exact IH.
Qed.

Lemma dict_get_set_if_missing (k k' : string) (v : Json) (d : Dict) :
  dict_get k' (Config.set_if_missing k v d)
  = if String.eqb k k' then Some (dict_get_default k v d) else dict_get k' d.
Proof.
  unfold Config.set_if_missing, dict_has, dict_get_default.
  destruct (String.eqb k k') eqn:E.
  - apply String.eqb_eq in E. subst k'.
    destruct (dict_get k d) eqn:G; simpl; [exact G |].
    rewrite dict_get_set, String.eqb_refl. reflexivity.
  - destruct (dict_get k d); simpl; [reflexivity |].
    rewrite dict_get_set, E. reflexivity.
Qed.

Lemma set_if_missing_present (k : string) (v : Json) (d : Dict) :
  dict_has k d = true -> Config.set_if_missing k v d = d.
Proof. intro H. unfold Config.set_if_missing. rewrite H. reflexivity. Qed.

Lemma dict_get_migrate (k : string) (item : Dict) :
  dict_get k (Config.migrate item)
  = match dict_get k Config.migrated_keys with
    | Some v => Some (dict_get_default k v item)
    | None => dict_get k item
    end.
Proof.
  unfold Config.migrate. cbv zeta.
  rewrite !dict_get_set_if_missing. unfold dict_get_default.
  rewrite !dict_get_set_if_missing.
  unfold Config.migrated_keys. cbn [dict_get].
  repeat match goal with
         | |- context [String.eqb ?a k] =>
             let E := fresh "E" in
             destruct (String.eqb a k) eqn:E;
             [apply String.eqb_eq in E; subst k; vm_compute String.eqb | ]
         end;
    try reflexivity.
Qed.

(** X20. The migration of [Config.load] is complete and harmless: after
    it every item has the six campaign keys; a key the stored item already
    had, migrated or not, keeps its value, and no other key appears; so
    every [item.get(key, default)] of the program with the default of the
    migration reads the same before and after.  Migrating again changes
    nothing. *)
Theorem migration_adds_only_missing_keys (item : Dict) :
  (forall k v, In (k, v) Config.migrated_keys ->
               dict_get k (Config.migrate item) = Some (dict_get_default k v item))
  /\ (forall k v, dict_get k item = Some v -> dict_get k (Config.migrate item) = Some v)
  /\ (forall k, dict_get k Config.migrated_keys = None ->
                dict_get k (Config.migrate item) = dict_get k item)
  /\ Config.migrate (Config.migrate item) = Config.migrate item.
Proof.
  split; [| split; [| split]].
  - intros k v Hin. rewrite dict_get_migrate.
    simpl in Hin.
    destruct Hin as [H | [H | [H | [H | [H | [H | []]]]]]];
      injection H as <- <-; reflexivity.
  - intros k v H. rewrite dict_get_migrate. unfold dict_get_default. rewrite H.
    destruct (dict_get k Config.migrated_keys); reflexivity.
  - intros k H. rewrite dict_get_migrate, H. reflexivity.
  - assert (Hhas : forall k v, In (k, v) Config.migrated_keys ->
                               dict_has k (Config.migrate item) = true).
    { intros k v Hin. unfold dict_has. rewrite dict_get_migrate.
      simpl in Hin.
      destruct Hin as [H | [H | [H | [H | [H | [H | []]]]]]];
        injection H as <- <-; reflexivity. }
    unfold Config.migrate at 1. cbv zeta.
    rewrite (set_if_missing_present "campaign_id")
      by (apply (Hhas _ JNull); simpl; tauto).
    rewrite (set_if_missing_present "campaign_channels")
      by (apply (Hhas _ (JList [])); simpl; tauto).
    rewrite (set_if_missing_present "required_category_id")
      by (apply (Hhas _ JNull); simpl; tauto).
    rewrite (set_if_missing_present "is_global_drop")
      by (apply (Hhas _ (JBool false)); simpl; tauto).
    rewrite (set_if_missing_present "cumulative_time")
      by (apply (Hhas _ (JInt 0)); simpl; tauto).
    apply (set_if_missing_present "tried_channels").
    apply (Hhas _ (JList [])). simpl. tauto.
Qed.

Lemma firstn_skipn_last {A : Type} (l : list A) (x : A) :
  firstn (length l) (l ++ [x]) ++ skipn (S (length l)) (l ++ [x]) = l.
Proof.
  induction l as [| a rest IH]; simpl; [reflexivity |].
  f_equal. exact IH.
Qed.

(** X21. [Config.add] puts the new item at the end, so the positions of
    the items already queued stay what they were, and the item it builds has
    no "tried_channels" key until a later [load] adds an empty one; removing
    the last position, by its index or as [-1], undoes the addition; an index
    outside the list is refused. *)
Theorem add_appends_and_remove_undoes
    (items : list Dict)
    (url minutes campaign_id campaign_channels required_category_id is_global_drop : Json) :
  let items' := Config.add items url minutes campaign_id campaign_channels
                           required_category_id is_global_drop in
  (forall i, (i < length items)%nat -> nth_error items' i = nth_error items i)
  /\ (exists item, nth_error items' (length items) = Some item
                   /\ dict_get "url" item = Some url
                   /\ dict_get "tried_channels" item = None
                   /\ dict_get "tried_channels" (Config.migrate item) = Some (JList []))
  /\ Config.remove items' (Z.of_nat (length items)) = Some items
  /\ Config.remove items' (-1) = Some items
  /\ (forall idx, (Z.of_nat (length items') <= idx)%Z -> Config.remove items' idx = None).
Proof.
  intro items'. subst items'. unfold Config.add.
  set (item := [("url", url); _; _; _; _; _; _]).
  assert (Hlen : length (items ++ [item]) = S (length items))
    by (rewrite length_app; simpl; lia).
  split; [| split; [| split; [| split]]].
  - intros i Hi. apply nth_error_app1. exact Hi.
  - exists item. split; [| split; [| split]].
    + rewrite nth_error_app2 by lia. rewrite Nat.sub_diag. reflexivity.
    + reflexivity.
    + reflexivity.
    + rewrite dict_get_migrate. reflexivity.
  - unfold Config.remove. rewrite Hlen.
    replace ((Z.of_nat (length items) <? - Z.of_nat (S (length items)))%Z
             || (Z.of_nat (S (length items)) <=? Z.of_nat (length items))%Z)
      with false
      by (symmetry; apply orb_false_iff; split;
          [apply Z.ltb_ge | apply Z.leb_gt]; lia).
    replace (Z.of_nat (length items) <? 0)%Z with false
      by (symmetry; apply Z.ltb_ge; lia).
    rewrite Nat2Z.id. f_equal. apply firstn_skipn_last.
  - unfold Config.remove. rewrite Hlen.
    replace ((-1 <? - Z.of_nat (S (length items)))%Z
             || (Z.of_nat (S (length items)) <=? -1)%Z)
      with false
      by (symmetry; apply orb_false_iff; split;
          [apply Z.ltb_ge | apply Z.leb_gt]; lia).
    replace (-1 <? 0)%Z with true by reflexivity.
    replace (Z.to_nat (-1 + Z.of_nat (S (length items)))) with (length items) by lia.
    f_equal. apply firstn_skipn_last.
  - intros idx Hidx. unfold Config.remove.
    replace (Z.of_nat (length (items ++ [item])) <=? idx)%Z with true
      by (symmetry; apply Z.leb_le; exact Hidx).
    rewrite orb_true_r. reflexivity.
Qed.

(** ** The queue: finding, removing and adding entries *)

Lemma find_channel_from_spec (url : string) (items : list QueueItem) :
  forall start idx,
    find_channel_from start url items = Some idx ->
    (start <= idx < start + Z.of_nat (length items))%Z
    /\ (exists item, nth_error items (Z.to_nat (idx - start)) = Some item
                     /\ App.url (entry item) = url)
    /\ forall j item, (j < Z.to_nat (idx - start))%nat ->
                      nth_error items j = Some item -> App.url (entry item) <> url.
Proof.
  induction items as [| it rest IH]; intros start idx H; simpl in H; [discriminate |].
  destruct (String.eqb (App.url (entry it)) url) eqn:E.
  - injection H as <-. rewrite Z.sub_diag. simpl length. split; [lia |]. split.
    + exists it. split; [reflexivity | apply String.eqb_eq, E].
    + intros j item Hj. simpl in Hj. lia.
  - destruct (IH _ _ H) as [Hr [[item [Hn Hu]] Hfirst]].
    simpl length. split; [lia |].
    assert (Hidx : Z.to_nat (idx - start) = S (Z.to_nat (idx - (start + 1)))) by lia.
    rewrite Hidx. split.
    + exists item. split; [exact Hn | exact Hu].
    + intros [| j] item' Hj Hn'; simpl in Hn'.
      * injection Hn' as <-. apply String.eqb_neq, E.
      * apply (Hfirst j item'); [lia | exact Hn'].
Qed.

Lemma find_channel_from_none (url : string) (items : list QueueItem) :
  forall start,
    find_channel_from start url items = None <-> _is_channel_in_list url items = false.
Proof.
  unfold _is_channel_in_list.
  induction items as [| it rest IH]; intro start; simpl; [tauto |].
  destruct (String.eqb (App.url (entry it)) url); simpl.
  - split; discriminate.
  - apply IH.
Qed.

(** X22. [_is_channel_in_list] and [_find_channel_index] agree: an address
    is in the queue exactly when an index is found for it, and the index
    found is a position of the queue, holds that address, and is the first
    that does. *)
Theorem find_index_is_first_match (url : string) (items : list QueueItem) :
  (_is_channel_in_list url items = true <-> _find_channel_index url items <> None)
  /\ forall idx,
       _find_channel_index url items = Some idx ->
       (0 <= idx < Z.of_nat (length items))%Z
       /\ (exists item, nth_error items (Z.to_nat idx) = Some item
                        /\ App.url (entry item) = url)
       /\ forall j item, (j < Z.to_nat idx)%nat -> nth_error items j = Some item ->
                         App.url (entry item) <> url.
Proof.
  split.
  - pose proof (find_channel_from_none url items 0) as H.
    unfold _find_channel_index. split.
    + intros Hin Hnone. apply H in Hnone. congruence.
    + intro Hsome. destruct (_is_channel_in_list url items); [reflexivity |].
      exfalso. apply Hsome, H. reflexivity.
  - intros idx H. unfold _find_channel_index in H.
    destruct (find_channel_from_spec url items 0 idx H) as [Hr [Hat Hfirst]].
    rewrite Z.sub_0_r in Hat, Hfirst.
    split; [lia |]. split; [exact Hat | exact Hfirst].
Qed.

Lemma nth_error_without {A : Type} (l : list A) :
  forall i j,
    nth_error (firstn i l ++ skipn (S i) l) j
    = if (j <? i)%nat then nth_error l j else nth_error l (S j).
Proof.
  induction l as [| x rest IH]; intros i j.
  - rewrite firstn_nil, skipn_nil. simpl.
    destruct (j <? i)%nat; destruct j; reflexivity.
  - destruct i as [| i]; [reflexivity |].
    destruct j as [| j]; [reflexivity |].
    simpl firstn. simpl skipn. simpl app. simpl nth_error at 1.
    rewrite IH. change (S j <? S i)%nat with (j <? i)%nat.
    destruct (j <? i)%nat; reflexivity.
Qed.

Lemma length_without {A : Type} (l : list A) (i : nat) :
  (i < length l)%nat -> length (firstn i l ++ skipn (S i) l) = pred (length l).
Proof.
  intro Hi. rewrite length_app, length_firstn, length_skipn. lia.
Qed.

Lemma remove_in_range {A : Type} (items : list A) (idx : Z) :
  (0 <= idx < Z.of_nat (length items))%Z ->
  Config.remove items idx
  = Some (firstn (Z.to_nat idx) items ++ skipn (S (Z.to_nat idx)) items).
Proof.
  intro H. unfold Config.remove.
  replace ((idx <? - Z.of_nat (length items))%Z || (Z.of_nat (length items) <=? idx)%Z)
    with false
    by (symmetry; apply orb_false_iff; split; [apply Z.ltb_ge | apply Z.leb_gt]; lia).
  replace (idx <? 0)%Z with false by (symmetry; apply Z.ltb_ge; lia).
  reflexivity.
Qed.

(** X23. Removing a queue entry while one worker runs for another entry:
    the re-indexing registers that worker under position 0 whatever its
    entry's position, or forgets it, without stopping it, when its old key
    is no position of the shortened queue; the entry itself has moved down
    by one if it came after the removed one and has stayed otherwise. *)
Theorem lone_worker_is_reindexed_to_zero
    {W : Type} (items : list QueueItem) (idx k : Z) (w : W) :
  (0 <= idx < Z.of_nat (length items))%Z ->
  (0 <= k < Z.of_nat (length items))%Z ->
  k <> idx ->
  exists items',
    remove_selected items [(k, w)] idx
    = Some (items',
            (if (k <? Z.of_nat (length items) - 1)%Z then [(0%Z, w)] else []),
            [])
    /\ length items' = pred (length items)
    /\ nth_error items' (Z.to_nat (if (k <? idx)%Z then k else k - 1))
       = nth_error items (Z.to_nat k).
Proof.
  intros Hidx Hk Hne.
  exists (firstn (Z.to_nat idx) items ++ skipn (S (Z.to_nat idx)) items).
  assert (Hlen : length (firstn (Z.to_nat idx) items ++ skipn (S (Z.to_nat idx)) items)
                 = pred (length items)) by (apply length_without; lia).
  split; [| split; [exact Hlen |]].
  - unfold remove_selected. rewrite (remove_in_range items idx Hidx).
    simpl workers_get.
    replace (k =? idx)%Z with false by (symmetry; apply Z.eqb_neq; exact Hne).
    rewrite Hlen. unfold reindex. simpl.
    replace (Z.of_nat (pred (length items))) with (Z.of_nat (length items) - 1)%Z by lia.
    destruct (k <? Z.of_nat (length items) - 1)%Z; [| reflexivity].
    rewrite Z.eqb_refl. reflexivity.
  - rewrite nth_error_without.
    destruct (k <? idx)%Z eqn:E.
    + apply Z.ltb_lt in E.
      replace (Z.to_nat k <? Z.to_nat idx)%nat with true
        by (symmetry; apply Nat.ltb_lt; lia).
      reflexivity.
    + apply Z.ltb_ge in E.
      replace (Z.to_nat (k - 1) <? Z.to_nat idx)%nat with false
        by (symmetry; apply Nat.ltb_ge; lia).
      f_equal. lia.
Qed.

Lemma lone_worker_is_reindexed_to_zero_witness :
  exists items',
    remove_selected sample_queue [(2%Z, tt)] 0
    = Some (items', [(0%Z, tt)], [])
    /\ length items' = 3%nat
    /\ nth_error items' 1 = nth_error sample_queue 2.
Proof.
  assert (H1 : (0 <= 0 < Z.of_nat (length sample_queue))%Z) by (simpl; lia).
  assert (H2 : (0 <= 2 < Z.of_nat (length sample_queue))%Z) by (simpl; lia).
  assert (H3 : 2%Z <> 0%Z) by discriminate.
  exact (lone_worker_is_reindexed_to_zero sample_queue 0 2 tt H1 H2 H3).
Defined.

Lemma in_list_app (url : string) (l1 l2 : list QueueItem) :
  _is_channel_in_list url (l1 ++ l2)
  = _is_channel_in_list url l1 || _is_channel_in_list url l2.
Proof. unfold _is_channel_in_list. apply existsb_app. Qed.

Lemma in_list_urls (url : string) (items : list QueueItem) :
  _is_channel_in_list url items = true <-> In url (queue_urls items).
Proof.
  unfold _is_channel_in_list, queue_urls. rewrite existsb_exists, in_map_iff.
  split; intros [x [H1 H2]]; exists x.
  - split; [apply String.eqb_eq, H2 | exact H1].
  - split; [exact H2 | apply String.eqb_eq, H1].
Qed.

Lemma add_streamers_spec (minutes0 : Z) (campaign_id : option string)
    (all_streamers : list App.Channel) (streamers : list string) :
  forall items count skipped,
    let r := add_streamers minutes0 campaign_id all_streamers streamers items
                           count skipped in
    (snd (fst r) + snd r = count + skipped + length streamers)%nat
    /\ (length (fst (fst r)) + count = length items + snd (fst r))%nat
    /\ (exists added, fst (fst r) = items ++ added)
    /\ (forall u, In u streamers \/ In u (queue_urls items) ->
                  _is_channel_in_list u (fst (fst r)) = true)
    /\ (NoDup (queue_urls items) -> NoDup (queue_urls (fst (fst r)))).
Proof.
  induction streamers as [| url rest IH]; intros items count skipped; simpl.
  - split; [lia |]. split; [lia |]. split; [exists []; symmetry; apply app_nil_r |].
    split; [| tauto].
    intros u [[] | H]. apply in_list_urls, H.
  - destruct (_is_channel_in_list url items) eqn:E.
    + destruct (IH items count (S skipped)) as [H1 [H2 [H3 [H4 H5]]]].
      split; [lia |]. split; [exact H2 |]. split; [exact H3 |]. split; [| exact H5].
      intros u [[<- | Hu] | Hu].
      * apply H4. right. apply in_list_urls, E.
      * apply H4. left. exact Hu.
      * apply H4. right. exact Hu.
    + set (item := added_item url minutes0 campaign_id all_streamers true).
      destruct (IH (items ++ [item]) (S count) skipped) as [H1 [H2 [H3 [H4 H5]]]].
      assert (Hurls : queue_urls (items ++ [item]) = queue_urls items ++ [url])
        by (unfold queue_urls; rewrite map_app; reflexivity).
      split; [lia |]. split; [rewrite length_app in H2; simpl in H2; lia |].
      split.
      { destruct H3 as [added H3]. exists (item :: added).
        rewrite H3, <- app_assoc. reflexivity. }
      split.
      { intros u Hu. apply H4. rewrite Hurls.
        destruct Hu as [[<- | Hu] | Hu].
        - right. apply in_or_app. right. left. reflexivity.
        - left. exact Hu.
        - right. apply in_or_app. left. exact Hu. }
      intro Hnd. apply H5. rewrite Hurls. apply snoc_NoDup; [exact Hnd |].
      intro Hin. apply in_list_urls in Hin. congruence.
Qed.

(** X24. Adding the streamers found for a global drop never queues an
    address twice: every streamer is counted as added or as skipped, the
    queue grows at its end by exactly the added ones, every streamer's
    address is in the queue afterwards, and a queue without repeated
    addresses stays without. *)
Theorem auto_add_never_duplicates
    (minutes0 : Z) (campaign_id : option string) (all_streamers : list App.Channel)
    (streamers : list string) (items : list QueueItem) :
  let r := add_streamers minutes0 campaign_id all_streamers streamers items 0 0 in
  let items' := fst (fst r) in
  let count := snd (fst r) in
  let skipped := snd r in
  (count + skipped = length streamers)%nat
  /\ (length items' = length items + count)%nat
  /\ (exists added, items' = items ++ added)
  /\ (forall u, In u streamers -> _is_channel_in_list u items' = true)
  /\ (NoDup (queue_urls items) -> NoDup (queue_urls items')).
Proof.
  cbv zeta.
  destruct (add_streamers_spec minutes0 campaign_id all_streamers streamers items 0 0)
    as [H1 [H2 [H3 [H4 H5]]]].
  split; [lia |]. split; [lia |]. split; [exact H3 |]. split; [| exact H5].
  intros u Hu. apply H4. left. exact Hu.
Qed.

Lemma fold_max_spec (rewards : list Z) :
  forall a,
    let m := fold_left (fun max_required required_units =>
                          if (max_required <? required_units)%Z then required_units
                          else max_required)
                       rewards a in
    (a <= m)%Z /\ (forall r, In r rewards -> (r <= m)%Z) /\ (m = a \/ In m rewards).
Proof.
  induction rewards as [| x rest IH]; intro a; simpl.
  - split; [lia |]. split; [intros r [] | left; reflexivity].
  - destruct (a <? x)%Z eqn:E.
    + apply Z.ltb_lt in E. destruct (IH x) as [H1 [H2 H3]].
      split; [lia |]. split.
      * intros r [<- | Hr]; [exact H1 | exact (H2 r Hr)].
      * right. destruct H3 as [-> | H3]; [left; reflexivity | right; exact H3].
    + apply Z.ltb_ge in E. destruct (IH a) as [H1 [H2 H3]].
      split; [exact H1 |]. split.
      * intros r [<- | Hr]; [lia | exact (H2 r Hr)].
      * destruct H3 as [H3 | H3]; [left; exact H3 | right; right; exact H3].
Qed.

(** X25. The target chosen for a campaign is above zero and covers every
    reward: with a default above zero it is at least the [required_units] of
    each reward, and it is either one of these values or, when none is above
    zero, the default. *)
Theorem campaign_minutes_cover_every_reward (default : Z) (rewards : list Z) :
  (0 < default)%Z ->
  (0 < campaign_minutes default rewards)%Z
  /\ (forall r, In r rewards -> (r <= campaign_minutes default rewards)%Z)
  /\ (In (campaign_minutes default rewards) rewards
      \/ (campaign_minutes default rewards = default
          /\ forall r, In r rewards -> (r <= 0)%Z)).
Proof.
  intro Hd. unfold campaign_minutes, max_required.
  destruct (fold_max_spec rewards 0) as [H1 [H2 H3]]. cbv zeta in H1, H2, H3.
  destruct (0 <? _)%Z eqn:E.
  - apply Z.ltb_lt in E. split; [exact E |]. split; [exact H2 |].
    left. destruct H3 as [H3 | H3]; [lia | exact H3].
  - apply Z.ltb_ge in E. split; [exact Hd |]. split.
    + intros r Hr. specialize (H2 r Hr). lia.
    + right. split; [reflexivity |]. intros r Hr. specialize (H2 r Hr). lia.
Qed.

Lemma campaign_minutes_cover_every_reward_witness :
  (0 < campaign_minutes 120 [30; 240; 60])%Z
  /\ (forall r, In r [30; 240; 60]%Z -> (r <= campaign_minutes 120 [30; 240; 60])%Z).
Proof.
  assert (Hd : (0 < 120)%Z) by lia.
  destruct (campaign_minutes_cover_every_reward 120 [30; 240; 60]%Z Hd) as [H1 [H2 _]].
  split; [exact H1 | exact H2].
Defined.

Lemma split_at_nth {A : Type} (l : list A) :
  forall i x, nth_error l i = Some x -> l = firstn i l ++ x :: skipn (S i) l.
Proof.
  induction l as [| a rest IH]; intros [| i] x H; simpl in H; try discriminate.
  - injection H as ->. reflexivity.
  - simpl. f_equal. apply IH, H.
Qed.

Lemma not_in_prefix (url : string) (items : list QueueItem) (i : nat) :
  (forall j item, (j < i)%nat -> nth_error items j = Some item ->
                  App.url (entry item) <> url) ->
  _is_channel_in_list url (firstn i items) = false.
Proof.
  revert i. induction items as [| a rest IH]; intros [| i] H; try reflexivity.
  simpl firstn. unfold _is_channel_in_list. simpl existsb.
  apply orb_false_iff. split.
  - apply String.eqb_neq. apply (H O a); [lia | reflexivity].
  - apply IH. intros j item Hj Hn. apply (H (S j) item); [lia | exact Hn].
Qed.

(** X26. [_remove_drop_channel] takes out the first entry that holds the
    address and no other: the entries before it, none of which holds the
    address, and the entries after it stay in their order; when no entry
    holds the address nothing changes and no worker is stopped; and in a
    queue without repeated addresses the address is gone afterwards. *)
Theorem remove_drop_channel_takes_first_match
    {W : Type} (items : list QueueItem) (workers : Workers W) (url : string) :
  let items' := fst (fst (_remove_drop_channel items workers url)) in
  (_is_channel_in_list url items = false ->
   _remove_drop_channel items workers url = (items, workers, []))
  /\ (_is_channel_in_list url items = true ->
      exists pre item post,
        items = pre ++ item :: post
        /\ App.url (entry item) = url
        /\ _is_channel_in_list url pre = false
        /\ items' = pre ++ post)
  /\ (NoDup (queue_urls items) -> _is_channel_in_list url items' = false).
Proof.
  cbv zeta.
  assert (Hfound : forall idx, _find_channel_index url items = Some idx ->
            exists pre item post,
              items = pre ++ item :: post
              /\ App.url (entry item) = url
              /\ _is_channel_in_list url pre = false
              /\ fst (fst (_remove_drop_channel items workers url)) = pre ++ post).
  { intros idx Hidx.
    pose proof (find_channel_from_spec url items 0 idx Hidx) as [Hr [[item [Hn Hu]] Hfirst]].
    rewrite Z.sub_0_r in Hn, Hfirst. simpl in Hr.
    exists (firstn (Z.to_nat idx) items), item, (skipn (S (Z.to_nat idx)) items).
    split; [apply split_at_nth, Hn |]. split; [exact Hu |].
    split; [apply not_in_prefix, Hfirst |].
    unfold _remove_drop_channel, remove_selected. rewrite Hidx.
    rewrite (remove_in_range items idx) by lia.
    destruct (workers_get idx workers); reflexivity. }
  split; [| split].
  - intro Hnot. apply (find_channel_from_none url items 0) in Hnot.
    unfold _remove_drop_channel, _find_channel_index. rewrite Hnot. reflexivity.
  - intro Hin.
    destruct (_find_channel_index url items) as [idx |] eqn:E.
    + exact (Hfound idx eq_refl).
    + apply (find_channel_from_none url items 0) in E. congruence.
  - intro Hnd.
    destruct (_find_channel_index url items) as [idx |] eqn:E.
    + destruct (Hfound idx eq_refl) as [pre [item [post [Hsplit [Hu [Hpre Hres]]]]]].
      rewrite Hres, in_list_app, Hpre. simpl.
      destruct (_is_channel_in_list url post) eqn:Hpost; [| reflexivity].
      exfalso. apply in_list_urls in Hpost.
      rewrite Hsplit in Hnd. unfold queue_urls in Hnd. rewrite map_app in Hnd.
      simpl in Hnd. apply NoDup_remove_2 in Hnd. apply Hnd.
      apply in_or_app. right. rewrite Hu. exact Hpost.
    + unfold _remove_drop_channel. rewrite E. simpl.
      apply (find_channel_from_none url items 0). exact E.
Qed.

Lemma remove_drop_channel_takes_first_match_witness :
  _is_channel_in_list chan_b
    (fst (fst (_remove_drop_channel sample_queue ([] : Workers unit) chan_b))) = false.
Proof.
  assert (Hnd : NoDup (queue_urls sample_queue)).
  { repeat constructor; simpl; intuition discriminate. }
  exact (proj2 (proj2 (remove_drop_channel_takes_first_match sample_queue [] chan_b)) Hnd).
Defined.

(** ** Translations *)

Lemma dict_has_keys {V : Type} (k : string) (d : list (string * V)) :
  dict_has k d = true <-> In k (map fst d).
Proof.
  unfold dict_has. induction d as [| [k0 v0] rest IH]; simpl.
  - split; [discriminate | contradiction].
  - destruct (String.eqb k0 k) eqn:E.
    + apply String.eqb_eq in E. split; [intros _; left; exact E | reflexivity].
    + rewrite IH. apply String.eqb_neq in E. split; [tauto |].
      intros [H | H]; [contradiction | exact H].
Qed.

Lemma dict_get_keys_none {V : Type} (k : string) (d : list (string * V)) :
  ~ In k (map fst d) -> dict_get k d = None.
Proof.
  intro H. pose proof (dict_has_keys k d) as Hk. unfold dict_has in Hk.
  destruct (dict_get k d); [| reflexivity].
  exfalso. apply H, Hk. reflexivity.
Qed.

Lemma dict_get_update {V : Type} (k : string) (other : list (string * V)) :
  NoDup (map fst other) ->
  forall base,
    dict_get k (Translations.dict_update base other)
    = match dict_get k other with
      | Some v => Some v
      | None => dict_get k base
      end.
Proof.
  unfold Translations.dict_update.
  induction other as [| [k0 v0] rest IH]; intros Hnd base; [reflexivity |].
  simpl in Hnd. apply NoDup_cons_iff in Hnd. destruct Hnd as [Hk0 Hnd].
  simpl fold_left. rewrite (IH Hnd). simpl dict_get. rewrite dict_get_set.
  destruct (String.eqb k0 k) eqn:E.
  - apply String.eqb_eq in E. subst k0.
    rewrite (dict_get_keys_none k rest Hk0). reflexivity.
  - reflexivity.
Qed.

Lemma in_insert_lang (k y : string) (l : list string) :
  In y (Translations.insert_lang k l) <-> y = k \/ In y l.
Proof.
  induction l as [| x rest IH]; simpl.
  - split; [intros [H | []]; left; symmetry; exact H | intros [H | []]; left; symmetry; exact H].
  - destruct (String.compare k x) eqn:E; simpl.
    + apply String.compare_eq_iff in E. subst x. split; [tauto |].
      intros [-> | H]; [left; reflexivity | exact H].
    + split; [intros [H | H]; [left; symmetry; exact H | right; exact H] |].
      intros [H | H]; [left; symmetry; exact H | right; exact H].
    + rewrite IH. tauto.
Qed.

Lemma in_languages (external builtin : Translations.Tables) (l : string) :
  In l (Translations.languages external builtin)
  <-> Translations.known external builtin l = true.
Proof.
  unfold Translations.languages, Translations.known.
  rewrite orb_true_iff, !dict_has_keys.
  assert (H : forall keys, In l (fold_right Translations.insert_lang [] keys) <-> In l keys).
  { induction keys as [| k rest IH]; simpl; [tauto |].
    rewrite in_insert_lang, IH. split; intros [H | H]; auto. }
  rewrite H, in_app_iff. tauto.
Qed.

Lemma dict_get_tabulate {V : Type} (f : string -> V) (k : string) (keys : list string) :
  dict_get k (map (fun l => (l, f l)) keys)
  = if list_in k keys then Some (f k) else None.
Proof.
  unfold list_in. induction keys as [| x rest IH]; simpl; [reflexivity |].
  rewrite (String.eqb_sym k x).
  destruct (String.eqb x k) eqn:E; simpl.
  - apply String.eqb_eq in E. subst x. reflexivity.
  - exact IH.
Qed.

Lemma merged_table (external builtin : Translations.Tables) (l : string) :
  dict_get l (Translations._merge_fallback external builtin)
  = if Translations.known external builtin l
    then Some (Translations.dict_update (dict_get_default l [] builtin)
                                        (dict_get_default l [] external))
    else None.
Proof.
  unfold Translations._merge_fallback.
  rewrite (dict_get_tabulate
             (fun lang => Translations.dict_update (dict_get_default lang [] builtin)
                                                   (dict_get_default lang [] external))).
  pose proof (in_languages external builtin l) as H.
  rewrite <- list_in_In in H.
  destruct (list_in l (Translations.languages external builtin)),
           (Translations.known external builtin l); try reflexivity.
  - destruct H as [H _]. specialize (H eq_refl). discriminate.
  - destruct H as [_ H]. specialize (H eq_refl). discriminate.
Qed.

Lemma external_table_is_dict (external : Translations.Tables) (l : string) :
  (forall l' t, In (l', t) external -> NoDup (map fst t)) ->
  NoDup (map fst (dict_get_default l ([] : Translations.Table) external)).
Proof.
  intro H. unfold dict_get_default.
  destruct (dict_get l external) as [t |] eqn:E; [| constructor].
  assert (Hin : In (l, t) external).
  { clear H. induction external as [| [k0 v0] rest IH]; simpl in E; [discriminate |].
    destruct (String.eqb k0 l) eqn:E0.
    - apply String.eqb_eq in E0. injection E as ->. subst. left. reflexivity.
    - right. apply IH, E. }
  exact (H l t Hin).
Qed.

Lemma merged_message (external builtin : Translations.Tables) (l key : string) :
  (forall l' t, In (l', t) external -> NoDup (map fst t)) ->
  dict_get_default key key
    (Translations.dict_update (dict_get_default l [] builtin)
                              (dict_get_default l [] external))
  = Translations.message external builtin l key.
Proof.
  intro Hd. unfold Translations.message.
  unfold dict_get_default at 1.
  rewrite (dict_get_update key _ (external_table_is_dict external l Hd)).
  assert (G : forall (o : option string) (t : Translations.Table),
             match match o with Some v => Some v | None => dict_get key t end with
             | Some v => v
             | None => key
             end
             = match o with Some v => v | None => dict_get_default key key t end)
    by (intros [v |] t; reflexivity).
  apply G.
Qed.

(** X27. What [translate] returns from the merged tables: for a language
    that the external files or the built-in tables know, the external
    message of the key, else the built-in one, else the key itself, without
    looking at French; only for a language that neither knows, the French
    message found in the same way, and the key itself when there is no
    French table either.  An empty language code reads as French. *)
Theorem translate_prefers_external_then_builtin
    (external builtin : Translations.Tables) (lang key : string) :
  (forall l t, In (l, t) external -> NoDup (map fst t)) ->
  let l := if str_truthy lang then lang else "fr" in
  Translations.translate (Translations._merge_fallback external builtin) lang key
  = if Translations.known external builtin l
    then Translations.message external builtin l key
    else if Translations.known external builtin "fr"
         then Translations.message external builtin "fr" key
         else key.
Proof.
  intros Hd l. unfold Translations.translate. fold l.
  unfold dict_get_default at 2 3.
  rewrite !merged_table.
  destruct (Translations.known external builtin l).
  - apply merged_message, Hd.
  - destruct (Translations.known external builtin "fr").
    + apply merged_message, Hd.
    + reflexivity.
Qed.

Lemma translate_prefers_external_then_builtin_witness :
  Translations.translate (Translations._merge_fallback external_sample builtin_sample)
    "en" "retry" = "Try again"
  /\ Translations.translate (Translations._merge_fallback external_sample builtin_sample)
       "en" "error" = "error".
Proof.
  assert (Hd : forall l t, In (l, t) external_sample -> NoDup (map fst t)).
  { intros l t [H | []]. injection H as <- <-. repeat constructor. simpl. tauto. }
  split.
  - exact (translate_prefers_external_then_builtin external_sample builtin_sample
             "en" "retry" Hd).
  - exact (translate_prefers_external_then_builtin external_sample builtin_sample
             "en" "error" Hd).
Defined.

(** ** Channel addresses *)

Lemma str_in_tail (m : string) (c : ascii) (s : string) :
  str_in m (String c s) = false -> str_in m s = false.
Proof.
  cbn [str_in]. destruct (String.prefix m (String c s)); [discriminate |].
  intro H. exact H.
Qed.

Lemma no_slash_head (c : ascii) (s : string) :
  str_in "/" (String c s) = false -> Ascii.eqb c slash = false.
Proof.
  cbn [str_in String.prefix]. unfold slash.
  destruct (ascii_dec "/" c) as [<- | Hne]; [destruct s; intro H; discriminate H |].
  intros _. apply Ascii.eqb_neq. intro H. apply Hne. symmetry. exact H.
Qed.

Lemma split_head_no_slash (s : string) :
  str_in "/" s = false -> split_head slash s = s.
Proof.
  induction s as [| c t IH]; intro H; [reflexivity |].
  simpl. rewrite (no_slash_head c t H). f_equal. apply IH.
  exact (str_in_tail "/" c t H).
Qed.

Lemma rstrip_no_slash (s : string) :
  str_in "/" s = false -> rstrip slash s = s.
Proof.
  induction s as [| c t IH]; intro H; [reflexivity |].
  simpl. rewrite (IH (str_in_tail "/" c t H)).
  destruct t; [rewrite (no_slash_head c _ H) |]; reflexivity.
Qed.

Lemma lstrip_no_slash (s : string) :
  str_in "/" s = false -> lstrip slash s = s.
Proof.
  destruct s as [| c t]; intro H; [reflexivity |].
  simpl. rewrite (no_slash_head c t H). reflexivity.
Qed.

(** X28. The address built for a channel leads back to the channel: for a
    slug that is not empty and holds no slash, and a parser that splits the
    address into the host kick.com and the path of the slug, as [urlparse]
    does, [_kick_username_from_url] reads the slug off the address, and the
    direct probe answers with what the endpoint returns for that slug. *)
Theorem channel_address_leads_back
    (urlparse : string -> option ParseResult) (urlopen : string -> HttpOutcome)
    (slug : string) :
  slug <> "" -> str_in "/" slug = false ->
  urlparse (channel_address slug)
  = Some {| netloc := "kick.com"; path := String slash slug |} ->
  _kick_username_from_url urlparse (channel_address slug) = Some slug
  /\ kick_live_status_by_api urlparse urlopen (channel_address slug)
     = match urlopen (String.append "https://kick.com/api/v2/channels/" slug) with
       | HttpRaise => None
       | HttpData livestream => Some (livestream_is_live livestream)
       end.
Proof.
  intros Hne Hns Hparse.
  assert (Hname : split_head slash (strip slash (String slash slug)) = slug).
  { unfold strip. cbn [lstrip]. rewrite Ascii.eqb_refl.
    rewrite (lstrip_no_slash slug Hns), (rstrip_no_slash slug Hns).
    apply split_head_no_slash, Hns. }
  assert (Ht : str_truthy slug = true) by (apply str_truthy_nonempty, Hne).
  unfold _kick_username_from_url, kick_live_status_by_api.
  rewrite Hparse. cbn [netloc path]. rewrite Hname, Ht.
  split; reflexivity.
Qed.

Lemma channel_address_leads_back_witness :
  _kick_username_from_url urlparse_basic (channel_address "xqc") = Some "xqc".
Proof.
  assert (Hne : "xqc" <> "") by discriminate.
  exact (proj1 (channel_address_leads_back urlparse_basic urlopen_flaky "xqc"
                  Hne eq_refl eq_refl)).
Defined.
